(** * Churn detection: the threshold engine and the competitor engine

    A shallow embedding of [product_level_churn.py] (class
    [ProductLevelChurnEngine]) and of the order-pattern, competitor-type,
    price-sensitivity, win-back and counting parts of
    [competitor_intelligence.py] (class [CompetitorIntelligenceEngine]),
    followed by the properties of the specification that concern them
    and by further properties of the two engines.

    Conventions of the model.
    - Python [float] and [int] values are exact numbers: rationals ([Q])
      wherever the code only adds, subtracts, multiplies, divides and
      compares, reals ([R]) from the point where it calls [math.sqrt] or
      [statistics.stdev].  The exceptions: where [detect_trend] and the
      severity rule compare a computed value with a threshold, module
      [Doubles] writes the computation with the rounding of its
      arithmetic, [Binary64.round] for the program as it runs; and
      [float] of an integer beyond the doubles raises [OverflowError].
      Infinities and NaN are outside the model, and so are the
      [OverflowError] of a quotient of integers beyond the doubles and
      of a date before year 1 or after year 9999: where those can arise
      a property says what holds when the engine returns.
    - JSON field values are the scalars [None], booleans, numbers and
      strings; strings are byte strings, and [lower] folds ASCII letters.
    - A raised exception is a value [Raise e]; [try ... except] clauses
      are written out where the code has them.
    - [datetime.fromisoformat] and the string case of [float] belong to
      the Python library; they are parameters of the engines
      ([fromisoformat], [float_of_str]).  A time stamp is a number of
      microseconds; a string that does not parse, or that parses to a
      time stamp which cannot be compared with the reference date (naive
      against aware: [TypeError], caught by the same [except] clauses as
      [ValueError]), is reported by [fromisoformat] as [None]. *)

From Stdlib Require Import ZArith QArith Qminmax Qround Qreals Reals Psatz.
From Stdlib Require Import List String Ascii Bool.
From Stdlib Require Import Qabs Qpower Qreduction Sorting.Sorted Sorting.Permutation.
From stdpp Require Import gmap strings.
Import ListNotations.

(** ** Python values, exceptions and the few built-ins the engines use *)

Module Py.

Inductive exn : Type :=
| ValueError
| TypeError
| AttributeError
| IndexError
| OverflowError.

Inductive result (A : Type) : Type :=
| Ok (a : A)
| Raise (e : exn).

Arguments Ok {A} a.
Arguments Raise {A} e.

Definition bind {A B : Type} (r : result A) (k : A -> result B) : result B :=
  match r with
  | Ok a => k a
  | Raise e => Raise e
  end.

Definition is_ok {A : Type} (r : result A) : bool :=
  match r with
  | Ok _ => true
  | Raise _ => false
  end.

(** A JSON scalar as Python sees it after [json.load]. *)
Inductive pyval : Type :=
| PNone
| PBool (b : bool)
| PNum (q : Q)
| PStr (s : string).

(** A JSON object: a [dict] with string keys. *)
Abbreviation pydict := (gmap string pyval).

(** [bool(v)]. *)
Definition truthy (v : pyval) : bool :=
  match v with
  | PNone => false
  | PBool b => b
  | PNum q => negb (Qeq_bool q 0)
  | PStr s => negb (String.eqb s "")
  end.

(** [a or b]. *)
Definition py_or (a b : pyval) : pyval := if truthy a then a else b.

(** [d.get(k)] and [d.get(k, dflt)]. *)
Definition get (d : pydict) (k : string) : pyval := default PNone (d !! k).
Definition get_or (d : pydict) (k : string) (dflt : pyval) : pyval :=
  default dflt (d !! k).

(** The number a numeric value stands for; booleans are the integers 0
    and 1. *)
Definition as_number (v : pyval) : option Q :=
  match v with
  | PNum q => Some q
  | PBool b => Some (if b then 1 else 0)%Q
  | _ => None
  end.

(** The least magnitude of an integer that [float] does not convert:
    [2 ** 1024 - 2 ** 970], the midpoint between the largest double and
    [2 ** 1024].  A JSON number of that magnitude is an integer, since a
    float is a double. *)
Definition double_overflow : Q :=
  Eval vm_compute in inject_Z (2 ^ 1024 - 2 ^ 970).

(** [float(v)]: [TypeError] on [None], [ValueError] on a string that is
    not a numeral, [OverflowError] on an integer beyond the doubles. *)
Definition py_float (float_of_str : string -> option Q) (v : pyval) : result Q :=
  match v with
  | PNone => Raise TypeError
  | PBool b => Ok (if b then 1 else 0)%Q
  | PNum q => if Qle_bool double_overflow (Qabs q) then Raise OverflowError else Ok q
  | PStr s =>
      match float_of_str s with
      | Some q => Ok q
      | None => Raise ValueError
      end
  end.

(** [a == b] on dictionary keys: strings by content, numbers and
    booleans by numeric value. *)
Definition key_eqb (a b : pyval) : bool :=
  match a, b with
  | PStr s, PStr t => String.eqb s t
  | PNone, PNone => true
  | _, _ =>
      match as_number a, as_number b with
      | Some x, Some y => Qeq_bool x y
      | _, _ => false
      end
  end.

(** [a < b]: defined between two strings and between two numbers,
    [TypeError] otherwise. *)
Definition py_lt (a b : pyval) : option bool :=
  match a, b with
  | PStr s, PStr t => Some (String.ltb s t)
  | _, _ =>
      match as_number a, as_number b with
      | Some x, Some y => Some (negb (Qle_bool y x))
      | _, _ => None
      end
  end.

(** [s.lower()]. *)
Definition lower_ascii (c : ascii) : ascii :=
  let n := nat_of_ascii c in
  if (Nat.leb 65 n && Nat.leb n 90)%bool then ascii_of_nat (n + 32) else c.

Fixpoint lower (s : string) : string :=
  match s with
  | EmptyString => EmptyString
  | String c r => String (lower_ascii c) (lower r)
  end.

(** [pat in s]. *)
Fixpoint contains (pat s : string) : bool :=
  (String.prefix pat s
   || match s with
      | EmptyString => false
      | String _ r => contains pat r
      end)%bool.

(** [s.replace('Z', '+00:00')]. *)
Fixpoint replace_Z (s : string) : string :=
  match s with
  | EmptyString => EmptyString
  | String c r =>
      if Ascii.eqb c "Z" then String.append "+00:00" (replace_Z r)
      else String c (replace_Z r)
  end.

(** [sum(l)]. *)
Definition py_sum (l : list Q) : Q := fold_left Qplus l 0%Q.

(** [round(x, n)]: to [n] decimals, ties to the even neighbour. *)
Definition round_half_even (x : Q) : Z :=
  let f := Qfloor x in
  let r := (x - inject_Z f)%Q in
  match r ?= 1 # 2 with
  | Lt => f
  | Gt => (f + 1)%Z
  | Eq => if Z.even f then f else (f + 1)%Z
  end%Q.

Definition py_round (x : Q) (n : nat) : Q :=
  let scale := inject_Z (10 ^ Z.of_nat n) in
  (inject_Z (round_half_even (x * scale)) / scale)%Q.

(** [round(x, n)] on a real number. *)
Definition Rround_half_even (x : R) : Z :=
  let f := Int_part x in
  let r := (x - IZR f)%R in
  if Rlt_dec r (1 / 2) then f
  else if Rlt_dec (1 / 2) r then (f + 1)%Z
  else if Z.even f then f else (f + 1)%Z.

Definition py_round_R (x : R) (n : nat) : R :=
  (IZR (Rround_half_even (x * 10 ^ n)) / 10 ^ n)%R.

(** [l[-n:]] for a positive [n]. *)
Definition last_n {A : Type} (n : nat) (l : list A) : list A :=
  skipn (length l - n) l.

(** [d[k]] when present, else [d[k] = dflt] first (a [defaultdict]);
    then [f] is applied to the entry.  Insertion order is kept. *)
Fixpoint update_default {K V : Type} (eqb : K -> K -> bool) (k : K) (dflt : V)
    (f : V -> V) (d : list (K * V)) : list (K * V) :=
  match d with
  | [] => [(k, f dflt)]
  | (k', v) :: rest =>
      if eqb k' k then (k', f v) :: rest
      else (k', v) :: update_default eqb k dflt f rest
  end.

End Py.

Export Py.

Notation "'do' x <- r ; k" := (Py.bind r (fun x => k))
  (at level 10, x name, r at level 100, k at level 200).

(** ** [product_level_churn.py]: class [ProductLevelChurnEngine] *)

Module Churn.

Local Open Scope Q_scope.

Inductive trend : Type := Stable | Growing | Declining | Stopped.

Inductive severity : Type := Critical | Warning | Watch.

(** [self.thresholds]. *)
Record thresholds_t : Type := {
  stopped_weeks : Q;
  decline_pct : Q;
  critical_decline_pct : Q;
  volatility_threshold : Q
}.

Record engine : Type := {
  lookback_weeks : Z;
  baseline_weeks : Z;
  thresholds : thresholds_t;
  category_synonyms : list (string * list string)
}.

(** [__init__(lookback_weeks=12, baseline_weeks=8)]. *)
Definition init (lookback baseline : Z) : engine := {|
  lookback_weeks := lookback;
  baseline_weeks := baseline;
  thresholds := {|
    stopped_weeks := 4;
    decline_pct := 40;
    critical_decline_pct := 70;
    volatility_threshold := 0.5
  |};
  category_synonyms := [
    ("chicken", ["chicken"; "poultry"; "wings"; "breast"; "thighs"]);
    ("drinks", ["drinks"; "beverages"; "soft drinks"; "cola"; "water"; "juice"]);
    ("cheese", ["cheese"; "dairy"; "cheddar"; "mozzarella"]);
    ("dips", ["dips"; "sauce"; "condiments"; "mayo"; "ketchup"]);
    ("produce", ["vegetables"; "produce"; "salad"; "lettuce"; "tomato"])
  ]%string
|}.

Definition default_engine : engine := init 12 8.

(** An entry of a grouped order list:
    [{'date': ..., 'quantity': ..., 'value': ...}]. *)
Record order : Type := {
  date : pyval;
  quantity : Q;
  value : Q
}.

(** [CustomerCategoryProfile]. *)
Record profile : Type := {
  p_customer_id : pyval;
  p_category : string;
  order_history : list order;
  baseline_weekly_qty : Q;
  baseline_weekly_value : Q;
  current_weekly_qty : Q;
  current_weekly_value : Q;
  last_order_date : option string;
  p_trend : trend;
  volatility : R
}.

(** The action text of an alert, as its template and the values put
    into it; the rendering of the f-string is not modelled. *)
Inductive action : Type :=
| UrgentCall (discount : Q) (category : string)
| ScheduleCall (discount : Q) (category : string)
| Monitor (category : string).

(** [CategoryAlert]. *)
Record alert : Type := {
  a_customer_id : pyval;
  a_category : string;
  signal_type : trend;
  a_severity : severity;
  baseline_quantity : Q;
  current_quantity : Q;
  drop_percentage : Q;
  weeks_since_last_order : Z;
  estimated_lost_revenue : Q;
  competitor_likely : bool;
  recommended_discount : Q;
  recommended_action : action
}.

(** The part of the report of [analyze] that the alerts and profiles
    make up; the summary and the top-ten list are computed from
    [alerts] afterwards and are not modelled. *)
Record report : Type := {
  alerts : list alert;
  customer_profiles : list (pyval * list (string * profile))
}.

(** One week and one day, in microseconds. *)
Definition week_us : Z := 604800000000.
Definition day_us : Z := 86400000000.

(** [(a - b).days]: whole days, rounded down. *)
Definition days_between (a b : Z) : Z := ((a - b) / day_us)%Z.

Section Engine.

Variable self : engine.
Variable fromisoformat : string -> option Z.
Variable float_of_str : string -> option Q.

(** [normalize_category]. *)
Definition normalize_category (raw_category : string) : string :=
  let raw_lower := lower raw_category in
  match
    find (fun entry => existsb (fun syn => contains syn raw_lower) (snd entry))
         (category_synonyms self)
  with
  | Some entry => fst entry
  | None => lower raw_category
  end.

(** The four expressions that [parse_orders] evaluates on a record:
    the customer, the product, and the arguments of the two calls of
    [float]. *)
Definition customer_of (o : pydict) : pyval :=
  py_or (py_or (get o "customer_id") (get o "customer")) (get o "account").

Definition product_of (o : pydict) : pyval :=
  py_or (py_or (get o "product") (get o "item")) (get o "category").

Definition quantity_input (o : pydict) : pyval :=
  py_or (py_or (get_or o "quantity" (PNum 0)) (get_or o "qty" (PNum 0))) (PNum 1).

Definition value_input (o : pydict) : pyval :=
  py_or (py_or (get_or o "value" (PNum 0)) (get_or o "amount" (PNum 0)))
        (get_or o "total" (PNum 0)).

(** The body of the loop of [parse_orders] for one record: [Ok None]
    when the record is skipped, [Ok (Some (customer, category, entry))]
    when it is appended.  [normalize_category] calls [lower] on the
    product, which only a string has. *)
Definition parse_order (o : pydict) : result (option (pyval * string * order)) :=
  let customer_id := customer_of o in
  let product := product_of o in
  if (negb (truthy customer_id) || negb (truthy product))%bool then Ok None
  else
    match product with
    | PStr raw =>
        let category := normalize_category raw in
        do q <- py_float float_of_str (quantity_input o);
        do v <- py_float float_of_str (value_input o);
        Ok (Some (customer_id, category,
                  {| date := py_or (get o "date") (get o "order_date");
                     quantity := q;
                     value := v |}))
    | _ => Raise AttributeError
    end.

Abbreviation grouped_t := (list (pyval * list (string * list order))).

(** [grouped[customer_id][category].append(entry)]. *)
Definition append_order (grouped : grouped_t) (customer_id : pyval)
    (category : string) (entry : order) : grouped_t :=
  update_default key_eqb customer_id []
    (update_default String.eqb category [] (fun l => l ++ [entry])) grouped.

Fixpoint parse_orders_into (grouped : grouped_t) (orders : list pydict)
    : result grouped_t :=
  match orders with
  | [] => Ok grouped
  | o :: rest =>
      do r <- parse_order o;
      match r with
      | None => parse_orders_into grouped rest
      | Some (customer_id, category, entry) =>
          parse_orders_into (append_order grouped customer_id category entry) rest
      end
  end.

(** [parse_orders]. *)
Definition parse_orders (orders : list pydict) : result grouped_t :=
  parse_orders_into [] orders.

(** [datetime.fromisoformat(v.replace('Z', '+00:00'))] inside a [try]
    block that catches [ValueError] and [TypeError]: [Ok None] stands for
    the caught failure.  A value without a [replace] method raises
    [AttributeError], which none of the [except] clauses catches. *)
Definition parse_date (v : pyval) : result (option Z) :=
  match v with
  | PStr s => Ok (fromisoformat (replace_Z s))
  | _ => Raise AttributeError
  end.

(** The first loop of [calculate_baseline]. *)
Fixpoint baseline_window (baseline_start baseline_end : Z)
    (orders : list order) : result (list order) :=
  match orders with
  | [] => Ok []
  | o :: rest =>
      do d <- parse_date (date o);
      do tail <- baseline_window baseline_start baseline_end rest;
      Ok match d with
         | Some order_date =>
             if ((baseline_start <=? order_date)
                 && (order_date <=? baseline_end))%Z
             then o :: tail
             else tail
         | None => tail
         end
  end.

(** [calculate_baseline]. *)
Definition calculate_baseline (orders : list order) (reference_date : Z)
    : result (Q * Q) :=
  let baseline_start := (reference_date - lookback_weeks self * week_us)%Z in
  let baseline_end :=
    (reference_date - (lookback_weeks self - baseline_weeks self) * week_us)%Z in
  do in_window <- baseline_window baseline_start baseline_end orders;
  let baseline_orders :=
    match in_window with
    | [] =>
        if Nat.ltb 4 (length orders)
        then firstn (Nat.div (length orders) 2) orders
        else orders
    | _ => in_window
    end in
  let total_qty := py_sum (map quantity baseline_orders) in
  let total_value := py_sum (map value baseline_orders) in
  let weeks := inject_Z (Z.max 1 (baseline_weeks self)) in
  Ok (total_qty / weeks, total_value / weeks).

(** The loop of [calculate_current]: the state is [recent_orders] and
    [last_order_date]. *)
Fixpoint current_window (recent_start : Z) (orders recent_orders : list order)
    (last : option string) : result (list order * option string) :=
  match orders with
  | [] => Ok (recent_orders, last)
  | o :: rest =>
      do d <- parse_date (date o);
      match d, date o with
      | Some order_date, PStr s =>
          let recent_orders' :=
            if (recent_start <=? order_date)%Z then recent_orders ++ [o]
            else recent_orders in
          let last' :=
            match last with
            | None => Some s
            | Some l =>
                match fromisoformat (replace_Z l) with
                | Some last_date =>
                    if (last_date <? order_date)%Z then Some s else last
                | None => last
                end
            end in
          current_window recent_start rest recent_orders' last'
      | _, _ => current_window recent_start rest recent_orders last
      end
  end.

(** [calculate_current]. *)
Definition calculate_current (orders : list order) (reference_date : Z)
    : result (Q * Q * option string) :=
  let recent_start := (reference_date - 4 * week_us)%Z in
  do w <- current_window recent_start orders [] None;
  let total_qty := py_sum (map quantity (fst w)) in
  let total_value := py_sum (map value (fst w)) in
  Ok (total_qty / 4, total_value / 4, snd w).

(** [statistics.mean] and [statistics.stdev] (the sample standard
    deviation: the squared deviations are divided by [n - 1]) on a list
    of at least two numbers. *)
Definition statistics_mean (l : list Q) : Q :=
  py_sum l / inject_Z (Z.of_nat (length l)).

Definition sum_sq_dev (l : list Q) : Q :=
  let m := statistics_mean l in
  py_sum (map (fun x => (x - m) * (x - m)) l).

Definition statistics_stdev (l : list Q) : R :=
  sqrt (Q2R (sum_sq_dev l / inject_Z (Z.of_nat (length l) - 1))).

(** [calculate_volatility]. *)
Definition calculate_volatility (orders : list order) : R :=
  let quantities :=
    map quantity (List.filter (fun o => negb (Qle_bool (quantity o) 0)) orders) in
  if Nat.ltb (length quantities) 2 then 0%R
  else
    let mean := statistics_mean quantities in
    if Qeq_bool mean 0 then 0%R
    else (statistics_stdev quantities / Q2R mean)%R.

(** [((current_qty - baseline_qty) / baseline_qty) * 100]. *)
Definition change_pct (baseline_qty current_qty : Q) : Q :=
  (current_qty - baseline_qty) / baseline_qty * 100.

(** The rate rules of [detect_trend]: what follows the inactivity
    check. *)
Definition trend_by_rate (baseline_qty current_qty : Q) : trend :=
  if Qeq_bool baseline_qty 0 then
    if Qeq_bool current_qty 0 then Stable else Growing
  else
    let change := change_pct baseline_qty current_qty in
    if Qle_bool change (- critical_decline_pct (thresholds self)) then Stopped
    else if Qle_bool change (- decline_pct (thresholds self)) then Declining
    else if Qle_bool 20 change then Growing
    else Stable.

(** [weeks_since] of [detect_trend]: [(reference_date - last_date).days / 7]
    when [last_order_date] is a non-empty string that parses. *)
Definition weeks_since (last_order_date : option string) (reference_date : Z)
    : option Q :=
  match last_order_date with
  | Some s =>
      if String.eqb s "" then None
      else
        match fromisoformat (replace_Z s) with
        | Some last_date => Some (inject_Z (days_between reference_date last_date) / 7)
        | None => None
        end
  | None => None
  end.

(** [detect_trend]. *)
Definition detect_trend (baseline_qty current_qty : Q)
    (last_order_date : option string) (reference_date : Z) : trend :=
  match weeks_since last_order_date reference_date with
  | Some w =>
      if Qle_bool (stopped_weeks (thresholds self)) w then Stopped
      else trend_by_rate baseline_qty current_qty
  | None => trend_by_rate baseline_qty current_qty
  end.

(** [generate_recommendation], on the severity, the (rounded) drop
    percentage and the category of the alert dictionary. *)
Definition generate_recommendation (sev : severity) (drop_pct : Q)
    (category : string) : Q * action :=
  match sev with
  | Critical =>
      let discount := Qmin 25 (10 + drop_pct / 10) in
      (discount, UrgentCall discount category)
  | Warning =>
      let discount := Qmin 15 (5 + drop_pct / 20) in
      (discount, ScheduleCall discount category)
  | Watch => (5, Monitor category)
  end.

(** [detect_competitor_signal]. *)
Definition detect_competitor_signal (p : profile) : bool :=
  match p_trend p with
  | Stopped | Declining =>
      (negb (Qle_bool (baseline_weekly_qty p) 0)
       && negb (Qle_bool (baseline_weekly_qty p * 0.3) (current_weekly_qty p)))%bool
  | _ => false
  end.

(** [cat_orders.sort(key=lambda x: x.get('date', ''), reverse=True)]:
    a stable sort, latest key first.  With two or more entries the
    keys are compared, and the sort raises [TypeError] unless they are
    all strings or all numbers. *)
Definition sortable (keys : list pyval) : bool :=
  match keys with
  | [] => true
  | k :: rest =>
      forallb (fun k' => match py_lt k k' with Some _ => true | None => false end)
              rest
  end.

Definition date_before (a b : order) : bool :=
  match py_lt (date a) (date b) with
  | Some true => true
  | _ => false
  end.

Fixpoint insert_desc (o : order) (sorted : list order) : list order :=
  match sorted with
  | [] => [o]
  | y :: rest =>
      if date_before o y then y :: insert_desc o rest else o :: y :: rest
  end.

Definition sort_desc (l : list order) : list order := fold_right insert_desc [] l.

Definition sort_by_date (cat_orders : list order) : result (list order) :=
  if sortable (map date cat_orders) then Ok (sort_desc cat_orders)
  else Raise TypeError.

(** [drop_pct] of [analyze]. *)
Definition drop_pct (baseline_qty current_qty : Q) : Q :=
  if negb (Qle_bool baseline_qty 0)
  then (baseline_qty - current_qty) / baseline_qty * 100
  else 0.

(** [weeks_since] of [analyze]: [int((ref_date - last_date).days / 7)],
    0 when there is no last order date or it does not parse. *)
Definition alert_weeks_since (last_order : option string) (ref_date : Z) : Z :=
  match last_order with
  | Some s =>
      if String.eqb s "" then 0%Z
      else
        match fromisoformat (replace_Z s) with
        | Some last_date => Z.quot (days_between ref_date last_date) 7
        | None => 0%Z
        end
  | None => 0%Z
  end.

(** The severity rule of [analyze]. *)
Definition severity_of (t : trend) (drop : Q) : severity :=
  if (match t with Stopped => true | _ => false end
      || Qle_bool (critical_decline_pct (thresholds self)) drop)%bool
  then Critical
  else if Qle_bool (decline_pct (thresholds self)) drop then Warning
  else Watch.

(** The alert built for a profile whose trend is [stopped] or
    [declining]. *)
Definition build_alert (p : profile) (baseline_value current_value : Q)
    (ref_date : Z) : alert :=
  let drop := drop_pct (baseline_weekly_qty p) (current_weekly_qty p) in
  let weeks := alert_weeks_since (last_order_date p) ref_date in
  let sev := severity_of (p_trend p) drop in
  let estimated_loss := (baseline_value - current_value) * 4 in
  let rec := generate_recommendation sev (py_round drop 1) (p_category p) in
  {| a_customer_id := p_customer_id p;
     a_category := p_category p;
     signal_type := p_trend p;
     a_severity := sev;
     baseline_quantity := py_round (baseline_weekly_qty p) 2;
     current_quantity := py_round (current_weekly_qty p) 2;
     drop_percentage := py_round drop 1;
     weeks_since_last_order := weeks;
     estimated_lost_revenue := py_round estimated_loss 2;
     competitor_likely := detect_competitor_signal p;
     recommended_discount := fst rec;
     recommended_action := snd rec |}.

(** The body of the inner loop of [analyze], for one category of one
    customer: the profile, and the alert when there is one. *)
Definition analyze_category (customer_id : pyval) (category : string)
    (cat_orders : list order) (ref_date : Z) : result (profile * option alert) :=
  do sorted <- sort_by_date cat_orders;
  do baseline <- calculate_baseline sorted ref_date;
  do current <- calculate_current sorted ref_date;
  let baseline_qty := fst baseline in
  let baseline_value := snd baseline in
  let current_qty := fst (fst current) in
  let current_value := snd (fst current) in
  let last_order := snd current in
  let p := {| p_customer_id := customer_id;
              p_category := category;
              order_history := last_n 20 sorted;
              baseline_weekly_qty := baseline_qty;
              baseline_weekly_value := baseline_value;
              current_weekly_qty := current_qty;
              current_weekly_value := current_value;
              last_order_date := last_order;
              p_trend := detect_trend baseline_qty current_qty last_order ref_date;
              volatility := calculate_volatility sorted |} in
  Ok (p, match p_trend p with
         | Stopped | Declining => Some (build_alert p baseline_value current_value ref_date)
         | _ => None
         end).

Fixpoint analyze_categories (customer_id : pyval)
    (categories : list (string * list order)) (ref_date : Z)
    : result (list (string * profile) * list alert) :=
  match categories with
  | [] => Ok ([], [])
  | (category, cat_orders) :: rest =>
      do r <- analyze_category customer_id category cat_orders ref_date;
      do tail <- analyze_categories customer_id rest ref_date;
      Ok ((category, fst r) :: fst tail,
          match snd r with
          | Some a => a :: snd tail
          | None => snd tail
          end)
  end.

Fixpoint analyze_customers (grouped : grouped_t) (ref_date : Z)
    : result (list (pyval * list (string * profile)) * list alert) :=
  match grouped with
  | [] => Ok ([], [])
  | (customer_id, categories) :: rest =>
      do r <- analyze_categories customer_id categories ref_date;
      do tail <- analyze_customers rest ref_date;
      Ok ((customer_id, fst r) :: fst tail, snd r ++ snd tail)
  end.

(** [alerts.sort(key=lambda a: (severity_order[a.severity],
    -a.estimated_lost_revenue))]: a stable sort, smallest key first. *)
Definition severity_order (s : severity) : Z :=
  match s with
  | Critical => 0
  | Warning => 1
  | Watch => 2
  end.

Definition alert_before (a b : alert) : bool :=
  let ka := severity_order (a_severity a) in
  let kb := severity_order (a_severity b) in
  ((ka <? kb)%Z
   || ((ka =? kb)%Z
       && negb (Qle_bool (- estimated_lost_revenue b) (- estimated_lost_revenue a))))%bool.

Fixpoint insert_alert (a : alert) (sorted : list alert) : list alert :=
  match sorted with
  | [] => [a]
  | y :: rest =>
      if alert_before y a then y :: insert_alert a rest else a :: y :: rest
  end.

Definition sort_alerts (l : list alert) : list alert := fold_right insert_alert [] l.

(** [analyze]; [now] is the value of [datetime.now()]. *)
Definition analyze (now : Z) (orders : list pydict) (reference_date : option string)
    : result report :=
  do ref_date <-
    match reference_date with
    | Some s =>
        if String.eqb s "" then Ok now
        else
          match fromisoformat (replace_Z s) with
          | Some d => Ok d
          | None => Raise ValueError
          end
    | None => Ok now
    end;
  do grouped <- parse_orders orders;
  do r <- analyze_customers grouped ref_date;
  Ok {| alerts := sort_alerts (snd r); customer_profiles := fst r |}.

End Engine.

End Churn.

(** ** [competitor_intelligence.py]: class [CompetitorIntelligenceEngine] *)

Module Competitor.

Local Open Scope Q_scope.

Inductive response : Type :=
| Neutral
| HighlySensitive
| ModeratelySensitive
| LowSensitivity.

(** [PriceSensitivityProfile]. *)
Record sensitivity_profile : Type := {
  customer_id : pyval;
  category : string;
  sensitivity_score : R;
  price_elasticity : R;
  acceptable_premium : Z;
  historical_price_response : response;
  optimal_discount_range : Z * Z
}.

(** [_correlation].  [y[i]] raises [IndexError] when [y] is shorter
    than [x]. *)
Definition _correlation (x y : list Q) : result R :=
  let n := length x in
  if Nat.ltb n 2 then Ok 0%R
  else
    let mean_x := py_sum x / inject_Z (Z.of_nat n) in
    let mean_y := py_sum y / inject_Z (Z.of_nat n) in
    if Nat.ltb (length y) n then Raise IndexError
    else
      let numerator :=
        py_sum (map (fun p => (fst p - mean_x) * (snd p - mean_y)) (combine x y)) in
      let denom_x := sqrt (Q2R (py_sum (map (fun xi => (xi - mean_x) ^ 2) x))) in
      let denom_y := sqrt (Q2R (py_sum (map (fun yi => (yi - mean_y) ^ 2) y))) in
      if Req_dec_T (denom_x * denom_y) 0 then Ok 0%R
      else Ok (Q2R numerator / (denom_x * denom_y))%R.

(** The comprehension [[o.get('value', 0) / o.get('quantity', 1)
    for o in orders if o.get('quantity', 0) > 0]]: comparing or dividing
    a value that is not a number raises [TypeError]. *)
Fixpoint unit_prices (orders : list pydict) : result (list Q) :=
  match orders with
  | [] => Ok []
  | o :: rest =>
      match as_number (get_or o "quantity" (PNum 0)) with
      | None => Raise TypeError
      | Some q =>
          if negb (Qle_bool q 0) then
            match as_number (get_or o "value" (PNum 0)) with
            | None => Raise TypeError
            | Some v => do tail <- unit_prices rest; Ok (v / q :: tail)
            end
          else unit_prices rest
      end
  end.

(** [[o.get('quantity', 0) for o in orders]], as the numbers that
    [unit_prices] has found them to be. *)
Definition order_quantities (orders : list pydict) : list Q :=
  map (fun o => default 0 (as_number (get_or o "quantity" (PNum 0)))) orders.

(** [set(l)], as the list of its elements. *)
Fixpoint distinct (l : list Q) : list Q :=
  match l with
  | [] => []
  | x :: rest => if existsb (Qeq_bool x) rest then distinct rest else x :: distinct rest
  end.

(** [[l[i] - l[i-1] for i in range(1, len(l))]]. *)
Fixpoint deltas (l : list Q) : list Q :=
  match l with
  | x :: (y :: _) as rest => (y - x) :: deltas rest
  | _ => []
  end.

(** The value of [elasticity] in [calculate_price_sensitivity]. *)
Definition elasticity_of (prices quantities : list Q) : R :=
  if (Nat.ltb (length prices) 2 || Nat.ltb (length (distinct prices)) 2)%bool
  then 1%R
  else
    let price_changes := deltas prices in
    let qty_changes := deltas quantities in
    if Nat.ltb 1 (length price_changes) then
      match _correlation price_changes qty_changes with
      | Ok correlation =>
          if Rlt_dec correlation 0 then (Rabs correlation * 2)%R else (1 / 2)%R
      | Raise _ => 1%R
      end
    else 1%R.

(** The value of [sensitivity_score] before it is rounded. *)
Definition score_of (elasticity : R) : R := Rmin 100 (Rmax 0 (elasticity * 50)).

(** [calculate_price_sensitivity]. *)
Definition calculate_price_sensitivity (orders : list pydict) (cat : string)
    : result sensitivity_profile :=
  match orders with
  | [] =>
      Ok {| customer_id := PStr "unknown"; category := cat;
            sensitivity_score := 50; price_elasticity := 1;
            acceptable_premium := 10; historical_price_response := Neutral;
            optimal_discount_range := (5, 15)%Z |}
  | [o] =>
      Ok {| customer_id := get_or o "customer_id" (PStr "unknown"); category := cat;
            sensitivity_score := 50; price_elasticity := 1;
            acceptable_premium := 10; historical_price_response := Neutral;
            optimal_discount_range := (5, 15)%Z |}
  | o :: _ =>
      do prices <- unit_prices orders;
      let elasticity := elasticity_of prices (order_quantities orders) in
      let score := score_of elasticity in
      let band :=
        if Rlt_dec 70 score then (HighlySensitive, 5, (10, 20))%Z
        else if Rlt_dec 40 score then (ModeratelySensitive, 10, (5, 15))%Z
        else (LowSensitivity, 20, (0, 10))%Z in
      Ok {| customer_id := get_or o "customer_id" (PStr "unknown"); category := cat;
            sensitivity_score := py_round_R score 1;
            price_elasticity := py_round_R elasticity 2;
            acceptable_premium := snd (fst band);
            historical_price_response := fst (fst band);
            optimal_discount_range := snd band |}
  end.

(** [calculate_win_back_probability]. *)
Definition calculate_win_back_probability (signal_strength : Q)
    (weeks_since_loss : Z) (sensitivity_score competitor_advantage : Q) : Q :=
  let base_prob := 0.7 in
  let base_prob := base_prob - (signal_strength / 100) * 0.3 in
  let time_decay := Qmin 0.3 (inject_Z weeks_since_loss * 0.03) in
  let base_prob := base_prob - time_decay in
  let base_prob :=
    if negb (Qle_bool sensitivity_score 60) then base_prob + 0.15
    else if negb (Qle_bool sensitivity_score 40) then base_prob + 0.08
    else base_prob in
  let base_prob := base_prob - (competitor_advantage / 100) * 0.2 in
  Qmax 0.1 (Qmin 0.9 base_prob).

End Competitor.

(** ** Two fragments of the Python library, for running the engines

    [fromisoformat_date] is [datetime.fromisoformat] on calendar dates
    [YYYY-MM-DD] (midnight of that day, in microseconds since
    1970-01-01); [float_of_decimal] is [float] on plain decimal
    numerals (a sign, digits, and a fraction after a point).  The
    statements below hold for every choice of the two parameters; these
    two instances are used to run the engines on concrete batches. *)

Module PyLib.

Definition digit_of (c : ascii) : option Z :=
  let n := nat_of_ascii c in
  if (Nat.leb 48 n && Nat.leb n 57)%bool then Some (Z.of_nat (n - 48)) else None.

(** The digits of [s] as a number and their count; [None] when [s] has
    another character. *)
Fixpoint digits_from (acc : Z) (count : nat) (s : string) : option (Z * nat) :=
  match s with
  | EmptyString => Some (acc, count)
  | String c rest =>
      match digit_of c with
      | Some d => digits_from (acc * 10 + d) (S count) rest
      | None => None
      end
  end.

Definition number_of (s : string) : option (Z * nat) := digits_from 0 0 s.

Definition is_leap (y : Z) : bool :=
  ((y mod 4 =? 0) && (negb (y mod 100 =? 0) || (y mod 400 =? 0)))%Z%bool.

Definition days_in_month (y m : Z) : Z :=
  (if m =? 2 then (if is_leap y then 29 else 28)
   else if (m =? 4) || (m =? 6) || (m =? 9) || (m =? 11) then 30
   else 31)%Z.

(** Days from 1970-01-01 to the given day of the proleptic Gregorian
    calendar. *)
Definition days_from_civil (y m d : Z) : Z :=
  (let y' := if m <=? 2 then y - 1 else y in
   let era := y' / 400 in
   let yoe := y' - era * 400 in
   let mp := if 2 <? m then m - 3 else m + 9 in
   let doy := (153 * mp + 2) / 5 + d - 1 in
   let doe := yoe * 365 + yoe / 4 - yoe / 100 + doy in
   era * 146097 + doe - 719468)%Z.

Definition fromisoformat_date (s : string) : option Z :=
  match number_of (substring 0 4 s), number_of (substring 5 2 s),
        number_of (substring 8 2 s) with
  | Some (y, 4%nat), Some (m, 2%nat), Some (d, 2%nat) =>
      if (Nat.eqb (String.length s) 10
          && Ascii.eqb (default "x"%char (String.get 4 s)) "-"
          && Ascii.eqb (default "x"%char (String.get 7 s)) "-"
          && (1 <=? y)%Z && (1 <=? m)%Z && (m <=? 12)%Z
          && (1 <=? d)%Z && (d <=? days_in_month y m)%Z)%bool
      then Some (days_from_civil y m d * Churn.day_us)%Z
      else None
  | _, _, _ => None
  end.

(** The index of the first ["."] of [s], if any. *)
Fixpoint point_index (s : string) : option nat :=
  match s with
  | EmptyString => None
  | String c rest => if Ascii.eqb c "." then Some 0%nat else S <$> point_index rest
  end.

Definition unsigned_decimal (s : string) : option Q :=
  match point_index s with
  | None =>
      match number_of s with
      | Some (n, S _) => Some (inject_Z n)
      | _ => None
      end
  | Some i =>
      let whole := substring 0 i s in
      let frac := substring (S i) (String.length s - S i) s in
      match number_of whole, number_of frac with
      | Some (a, wn), Some (b, fn) =>
          if Nat.eqb (wn + fn) 0 then None
          else Some (inject_Z a + inject_Z b / inject_Z (10 ^ Z.of_nat fn))%Q
      | _, _ => None
      end
  end.

Definition float_of_decimal (s : string) : option Q :=
  match s with
  | String "-" rest => Qopp <$> unsigned_decimal rest
  | String "+" rest => unsigned_decimal rest
  | _ => unsigned_decimal s
  end.

End PyLib.

(** ** Statements of the specification, and batches to run the engines on *)

Module Spec.

Import Churn.

Local Open Scope Q_scope.

(** The inactivity rule of [detect_trend] fires: a last order date is
    known and lies [stopped_weeks] weeks or more before the reference
    date. *)
Definition inactive (self : engine) (fromisoformat : string -> option Z)
    (last : option string) (ref : Z) : Prop :=
  match weeks_since fromisoformat last ref with
  | Some w => stopped_weeks (thresholds self) <= w
  | None => False
  end.

(** A record that [parse_orders] does not skip. *)
Definition kept (o : pydict) : Prop :=
  truthy (customer_of o) = true /\
  exists raw, product_of o = PStr raw /\ raw <> ""%string.

(** The quantities that [calculate_volatility] looks at. *)
Definition positive_quantities (orders : list order) : list Q :=
  map quantity (List.filter (fun o => negb (Qle_bool (quantity o) 0)) orders).

(** Sample and population variance: the squared deviations from the
    mean, divided by [n - 1] and by [n]. *)
Definition sample_variance (l : list Q) : Q :=
  sum_sq_dev l / inject_Z (Z.of_nat (length l) - 1).

Definition population_variance (l : list Q) : Q :=
  sum_sq_dev l / inject_Z (Z.of_nat (length l)).

(** Volatility as the specification words it: the population standard
    deviation over the mean of the positive quantities. *)
Definition population_volatility (orders : list order) : R :=
  let qs := positive_quantities orders in
  if Nat.ltb (length qs) 2 then 0%R
  else if Qeq_bool (statistics_mean qs) 0 then 0%R
  else (sqrt (Q2R (population_variance qs)) / Q2R (statistics_mean qs))%R.



(** The win-back probability before it is clamped. *)
Definition win_back_raw (signal_strength : Q) (weeks_since_loss : Z)
    (sensitivity_score competitor_advantage : Q) : Q :=
  0.7 - signal_strength / 100 * 0.3
  - Qmin 0.3 (inject_Z weeks_since_loss * 0.03)
  + (if negb (Qle_bool sensitivity_score 60) then 0.15
     else if negb (Qle_bool sensitivity_score 40) then 0.08
     else 0)
  - competitor_advantage / 100 * 0.2.

End Spec.

Module Examples.

Import Churn.

Local Open Scope string_scope.

(** A raw record with the five documented fields. *)
Definition record (customer product : string) (quantity value : pyval)
    (date : string) : pydict :=
  <["customer_id" := PStr customer]>
    (<["product" := PStr product]>
       (<["quantity" := quantity]>
          (<["value" := value]> (<["date" := PStr date]> ∅)))).

(** [analyze] of the default engine, with [datetime.now()] at the epoch
    (every run below passes a reference date). *)
Definition run (orders : list pydict) (reference_date : string) : result report :=
  analyze default_engine PyLib.fromisoformat_date PyLib.float_of_decimal 0
    orders (Some reference_date).

(** 2024-03-11, midnight. *)
Definition ts_2024_03_11 : Z := 1710115200000000.

(** Baseline 100 a week, current 20 a week, last order a week before
    the reference date 2024-03-27. *)
Definition chicken_batch : list pydict := [
  record "C1" "Chicken Wings" (PNum 800) (PNum 800) "2024-01-10";
  record "C1" "Chicken Wings" (PNum 80) (PNum 80) "2024-03-20"
].

(** Baseline 100 a week, current 65 a week. *)
Definition gradual_batch : list pydict := [
  record "C1" "Chicken Wings" (PNum 800) (PNum 800) "2024-01-10";
  record "C1" "Chicken Wings" (PNum 260) (PNum 260) "2024-03-20"
].

(** The second record carries a quantity that is not a number. *)
Definition nonnumeric_batch : list pydict := [
  record "C1" "Chicken Wings" (PNum 800) (PNum 800) "2024-01-10";
  record "C2" "Cola" (PStr "abc") (PNum 30) "2024-03-20"
].

(** A record with an explicit quantity of 0. *)
Definition zero_quantity_record : pydict :=
  record "C1" "Cola" (PNum 0) (PNum 30) "2024-03-20".

(** Twenty-one orders of one customer and category, one a day. *)
Definition january_dates : list string := [
  "2024-01-01"; "2024-01-02"; "2024-01-03"; "2024-01-04"; "2024-01-05";
  "2024-01-06"; "2024-01-07"; "2024-01-08"; "2024-01-09"; "2024-01-10";
  "2024-01-11"; "2024-01-12"; "2024-01-13"; "2024-01-14"; "2024-01-15";
  "2024-01-16"; "2024-01-17"; "2024-01-18"; "2024-01-19"; "2024-01-20";
  "2024-01-21"
].

Definition january_batch : list pydict :=
  map (record "C1" "chicken" (PNum 1) (PNum 1)) january_dates.

(** The dates of the stored order histories of a report, per customer
    and category. *)
Definition history_dates (r : result report) : list (list (list pyval)) :=
  match r with
  | Ok rep =>
      map (fun c => map (fun p => map date (order_history (snd p))) (snd c))
          (customer_profiles rep)
  | Raise _ => []
  end.

(** The severities of the alerts of a report. *)
Definition alert_severities (r : result report) : list severity :=
  match r with
  | Ok rep => map a_severity (alerts rep)
  | Raise _ => []
  end.

(** Trend, severity, competitor flag and weeks since the last order of
    the alerts of a report. *)
Definition alert_digest (r : result report)
    : list (trend * severity * bool * Z) :=
  match r with
  | Ok rep =>
      map (fun a => (signal_type a, a_severity a, competitor_likely a,
                     weeks_since_last_order a))
          (alerts rep)
  | Raise _ => []
  end.

(** Three orders of quantities 1, 2 and 3. *)
Definition three_orders : list order := [
  {| date := PStr "2024-01-01"; quantity := 1; value := 1 |};
  {| date := PStr "2024-01-02"; quantity := 2; value := 2 |};
  {| date := PStr "2024-01-03"; quantity := 3; value := 3 |}
].

(** Two orders of one unit each, at unit prices 1 and 2; and three
    orders at unit prices 1, 2, 1 for quantities 3, 1, 3. *)
Definition priced (quantity value : Q) : pydict :=
  <["quantity" := PNum quantity]> (<["value" := PNum value]> ∅).

Definition two_priced_orders : list pydict := [priced 1 1; priced 1 2].

Definition three_priced_orders : list pydict := [priced 3 3; priced 1 2; priced 3 3].

End Examples.

(** ** The rest of the report of [ProductLevelChurnEngine.analyze] *)

Module ChurnReport.

Import Churn.

Local Open Scope Q_scope.

(** The [summary] dictionary.  [categories_at_risk] is
    [list(set(...))], whose order the code does not determine: it is
    kept as the set. *)
Record summary : Type := {
  total_customers : nat;
  customers_with_alerts : nat;
  total_alerts : nat;
  critical_alerts : nat;
  warning_alerts : nat;
  watch_alerts : nat;
  total_estimated_monthly_loss : Q;
  categories_at_risk : gset string;
  competitor_signals : nat
}.

(** An entry of [recommendations]. *)
Record recommendation : Type := {
  priority : nat;
  r_customer_id : pyval;
  r_category : string;
  r_action : action;
  r_discount : Q;
  potential_save : Q
}.

(** The dictionary that [analyze] returns. *)
Record full_report : Type := {
  f_alerts : list alert;
  f_customer_profiles : list (pyval * list (string * profile));
  f_summary : summary;
  f_recommendations : list recommendation
}.

(** [set(keys)], as the list of its elements in the order they were
    first added. *)
Definition key_set (keys : list pyval) : list pyval :=
  fold_left
    (fun acc k => if existsb (fun k' => key_eqb k' k) acc then acc else acc ++ [k])
    keys [].

(** [sum(1 for a in alerts if a.severity == s)]. *)
Definition count_severity (s : severity) (alerts : list alert) : nat :=
  length (List.filter
            (fun a => match a_severity a, s with
                      | Critical, Critical | Warning, Warning | Watch, Watch => true
                      | _, _ => false
                      end)
            alerts).

(** The [summary] of [analyze], from the grouped orders and the sorted
    alerts. *)
Definition summary_of (grouped : list (pyval * list (string * list order)))
    (alerts : list alert) : summary := {|
  total_customers := length grouped;
  customers_with_alerts := length (key_set (map a_customer_id alerts));
  total_alerts := length alerts;
  critical_alerts := count_severity Critical alerts;
  warning_alerts := count_severity Warning alerts;
  watch_alerts := count_severity Watch alerts;
  total_estimated_monthly_loss :=
    py_round (py_sum (map estimated_lost_revenue alerts)) 2;
  categories_at_risk := list_to_set (map a_category alerts);
  competitor_signals := length (List.filter competitor_likely alerts)
|}.

(** The loop that fills [recommendations]. *)
Fixpoint recommend (alerts : list alert) (recommendations : list recommendation)
    : list recommendation :=
  match alerts with
  | [] => recommendations
  | a :: rest =>
      recommend rest
        (recommendations ++
         [{| priority := length recommendations + 1;
             r_customer_id := a_customer_id a;
             r_category := a_category a;
             r_action := recommended_action a;
             r_discount := recommended_discount a;
             potential_save := estimated_lost_revenue a |}])
  end.

(** [recommendations], from [alerts[:10]]. *)
Definition recommendations_of (alerts : list alert) : list recommendation :=
  recommend (firstn 10 alerts) [].

Section Engine.

Variable self : engine.
Variable fromisoformat : string -> option Z.
Variable float_of_str : string -> option Q.

(** [analyze], with the four sections of its result. *)
Definition analyze_full (now : Z) (orders : list pydict)
    (reference_date : option string) : result full_report :=
  do ref_date <-
    match reference_date with
    | Some s =>
        if String.eqb s "" then Ok now
        else
          match fromisoformat (replace_Z s) with
          | Some d => Ok d
          | None => Raise ValueError
          end
    | None => Ok now
    end;
  do grouped <- parse_orders self float_of_str orders;
  do r <- analyze_customers self fromisoformat grouped ref_date;
  let alerts := sort_alerts (snd r) in
  Ok {| f_alerts := alerts;
        f_customer_profiles := fst r;
        f_summary := summary_of grouped alerts;
        f_recommendations := recommendations_of alerts |}.

End Engine.

End ChurnReport.

(** ** [competitor_intelligence.py]: signals, archetypes and counts *)

Module CompetitorSignals.

Local Open Scope Q_scope.

(** The [description] of a signal, as its template and the value put
    into it; the rendering of the f-string is not modelled. *)
Inductive evidence : Type :=
| VolumeDropped (fraction : Q)
| CompleteStop
| FrequencyDropped
| PromoOnly.

(** An entry of [signals]. *)
Record signal : Type := {
  s_type : string;
  description : evidence;
  strength : Q
}.

(** The result of [analyze_order_patterns]. *)
Inductive patterns : Type :=
| NoData
| Patterns (early_qty recent_qty early_value recent_value volume_change_pct : Q)
           (signals : list signal).

Definition signals_of (p : patterns) : list signal :=
  match p with
  | NoData => []
  | Patterns _ _ _ _ _ signals => signals
  end.

(** [sorted(orders, key=lambda x: x.get('date', ''))]: a stable sort,
    smallest key first; with two or more orders it raises [TypeError]
    unless the keys are all strings or all numbers. *)
Definition date_key (o : pydict) : pyval := get_or o "date" (PStr "").

Definition key_before (a b : pydict) : bool :=
  match py_lt (date_key a) (date_key b) with
  | Some true => true
  | _ => false
  end.

Fixpoint insert_asc (o : pydict) (sorted : list pydict) : list pydict :=
  match sorted with
  | [] => [o]
  | y :: rest =>
      if key_before y o then y :: insert_asc o rest else o :: y :: rest
  end.

Definition sorted_by_date (orders : list pydict) : result (list pydict) :=
  if Churn.sortable (map date_key orders)
  then Ok (fold_right insert_asc [] orders)
  else Raise TypeError.

(** [sum(o.get(key, 0) for o in orders)], from the accumulator [acc]:
    adding a value that is not a number raises [TypeError]. *)
Fixpoint sum_field (key : string) (orders : list pydict) (acc : Q) : result Q :=
  match orders with
  | [] => Ok acc
  | o :: rest =>
      match as_number (get_or o key (PNum 0)) with
      | Some q => sum_field key rest (acc + q)
      | None => Raise TypeError
      end
  end.

(** [analyze_order_patterns]; the category is not used. *)
Definition analyze_order_patterns (orders : list pydict) (category : string)
    : result patterns :=
  match orders with
  | [] => Ok NoData
  | _ =>
      do sorted_orders <- sorted_by_date orders;
      let mid_point := Nat.div (length sorted_orders) 2 in
      let early_orders :=
        if Nat.ltb 0 mid_point then firstn mid_point sorted_orders
        else sorted_orders in
      let recent_orders :=
        if Nat.ltb 0 mid_point then skipn mid_point sorted_orders else [] in
      do early_qty <- sum_field "quantity" early_orders 0;
      do recent_qty <- sum_field "quantity" recent_orders 0;
      do early_value <- sum_field "value" early_orders 0;
      do recent_value <- sum_field "value" recent_orders 0;
      let early_avg_price :=
        if negb (Qle_bool early_qty 0) then early_value / early_qty else 0 in
      let recent_avg_price :=
        if negb (Qle_bool recent_qty 0) then recent_value / recent_qty else 0 in
      let signals := [] in
      let signals :=
        if (negb (Qle_bool early_qty 0) && negb (Qle_bool recent_qty 0))%bool then
          let volume_change := (recent_qty - early_qty) / early_qty in
          if (negb (Qle_bool volume_change (-0.7))
              && negb (Qle_bool (-0.3) volume_change))%bool
          then signals ++
               [{| s_type := "volume_split";
                   description := VolumeDropped (Qabs volume_change);
                   strength := Qmin 80 (Qabs volume_change * 100) |}]
          else signals
        else signals in
      let signals :=
        if (negb (Qle_bool early_qty 0) && Qeq_bool recent_qty 0
            && Nat.leb 3 (length early_orders))%bool
        then signals ++
             [{| s_type := "complete_loss"; description := CompleteStop;
                 strength := 95 |}]
        else signals in
      let signals :=
        if (Nat.leb 2 (length early_orders) && Nat.leb 1 (length recent_orders))%bool
        then
          let early_freq := inject_Z (Z.of_nat (length early_orders)) in
          let recent_freq := inject_Z (Z.of_nat (length recent_orders * 2)) in
          if negb (Qle_bool (early_freq * 0.5) recent_freq)
          then signals ++
               [{| s_type := "frequency_drop"; description := FrequencyDropped;
                   strength := 70 |}]
          else signals
        else signals in
      let signals :=
        if (negb (Qle_bool early_avg_price 0)
            && negb (Qle_bool recent_avg_price 0))%bool
        then
          let price_change := (recent_avg_price - early_avg_price) / early_avg_price in
          if negb (Qle_bool (-0.1) price_change)
          then signals ++
               [{| s_type := "promo_only"; description := PromoOnly;
                   strength := 60 |}]
          else signals
        else signals in
      Ok (Patterns early_qty recent_qty early_value recent_value
            (if negb (Qle_bool early_qty 0)
             then (recent_qty - early_qty) / early_qty * 100
             else 0)
            signals)
  end.

(** An entry of [self.competitor_patterns]. *)
Record archetype : Type := {
  comp_type : string;
  indicators : list string;
  typical_advantage : Q;
  categories : list string
}.

Definition competitor_patterns : list archetype := [
  {| comp_type := "cash_and_carry";
     indicators := ["bulk_increase"; "frequency_drop"; "value_items_gone"];
     typical_advantage := 15;
     categories := ["drinks"; "frozen"; "dry_goods"; "cleaning"] |};
  {| comp_type := "wholesaler";
     indicators := ["volume_drop"; "premium_items_kept"; "basics_gone"];
     typical_advantage := 10;
     categories := ["chicken"; "meat"; "produce"; "dairy"] |};
  {| comp_type := "direct_manufacturer";
     indicators := ["single_category_loss"; "complete_stop"; "high_volume_history"];
     typical_advantage := 20;
     categories := ["drinks"; "branded_goods"; "packaging"] |};
  {| comp_type := "online";
     indicators := ["gradual_decline"; "small_items_first"; "non_urgent_items"];
     typical_advantage := 12;
     categories := ["consumables"; "packaging"; "disposables"] |}
]%string.

(** The [score] of one archetype in [infer_competitor_type]. *)
Definition archetype_score (category : string) (signal_types : list string)
    (a : archetype) : Z :=
  fold_left
    (fun score indicator =>
       if existsb (fun st => contains indicator st) signal_types
       then (score + 25)%Z else score)
    (indicators a)
    (if existsb (String.eqb category) (categories a) then 30%Z else 0%Z).

(** The loop of [infer_competitor_type]: the state is [best_match],
    [best_score] and [price_advantage]. *)
Fixpoint best_archetype (category : string) (signal_types : list string)
    (table : list archetype) (best : string * Z * Q) : string * Z * Q :=
  match table with
  | [] => best
  | a :: rest =>
      let score := archetype_score category signal_types a in
      best_archetype category signal_types rest
        (if (snd (fst best) <? score)%Z
         then (comp_type a, score, typical_advantage a)
         else best)
  end.

(** [infer_competitor_type]. *)
Definition infer_competitor_type (category : string) (signals : list signal)
    : string * Q :=
  let signal_types := map s_type signals in
  let best :=
    best_archetype category signal_types competitor_patterns
      ("unknown"%string, 0%Z, 10) in
  (fst (fst best), snd best).

(** [CompetitorSignal]. *)
Record competitor_signal : Type := {
  cs_customer_id : pyval;
  cs_category : string;
  signal_strength : Q;
  signal_type : string;
  cs_evidence : list evidence;
  likely_competitor_type : string;
  estimated_competitor_price_advantage : Q;
  win_back_probability : Q
}.

(** [counts[val] += 1] on a [defaultdict(int)]. *)
Definition count_one (val : string) (counts : list (string * nat))
    : list (string * nat) :=
  update_default String.eqb val 0%nat S counts.

(** [_count_by_key]; the attribute name is given as its projection. *)
Definition _count_by_key (signals : list competitor_signal)
    (key : competitor_signal -> string) : list (string * nat) :=
  fold_left (fun counts s => count_one (key s) counts) signals [].

(** [sorted(cat_counts.keys(), key=lambda c: -cat_counts[c])]: a
    stable sort, largest count first. *)
Fixpoint insert_by_count (c : string * nat) (sorted : list (string * nat))
    : list (string * nat) :=
  match sorted with
  | [] => [c]
  | y :: rest =>
      if Nat.ltb (snd c) (snd y) then y :: insert_by_count c rest
      else c :: y :: rest
  end.

(** [_get_top_categories], for a [top_n] that is not negative; its
    counting loop is the loop of [_count_by_key] on the category. *)
Definition _get_top_categories (signals : list competitor_signal) (top_n : nat)
    : list string :=
  let cat_counts := _count_by_key signals cs_category in
  firstn top_n (map fst (fold_right insert_by_count [] cat_counts)).

End CompetitorSignals.

(** ** IEEE 754 binary64 arithmetic

    A double is a rational [m * 2 ^ e] with [|m| < 2 ^ 53] and
    [e >= -1074].  [round] is the double nearest to an exact value, a
    tie going to the even significand: the result of [+], [-], [*] and
    [/] on doubles is [round] of their exact result.  The exponent has
    no upper limit here: a result beyond the largest double, which is an
    infinity in Python, keeps its sign and is larger in magnitude than
    every double. *)

Module Binary64.

Local Open Scope Q_scope.

Definition pow2 (e : Z) : Q := 2 ^ e.

(** The integer [l] with [2 ^ l <= |x| < 2 ^ (l + 1)], for [x] other
    than 0. *)
Definition ilog2 (x : Q) : Z :=
  let n := Z.abs (Qnum x) in
  let d := Zpos (Qden x) in
  let a := Z.log2 n in
  let b := Z.log2 d in
  if (2 ^ a * d <=? n * 2 ^ b)%Z then (a - b)%Z else (a - b - 1)%Z.

(** The distance between the doubles around [x]: 53 significant bits,
    and [2 ^ -1074] in the subnormal range. *)
Definition quantum (x : Q) : Q := pow2 (Z.max (-1074) (ilog2 x - 52)).

Definition nearest (x : Q) : Q :=
  inject_Z (round_half_even (x / quantum x)) * quantum x.

Definition round (x : Q) : Q :=
  let y := Qred x in
  if Qeq_bool y 0 then 0 else Qred (nearest y).

End Binary64.

(** ** The trend rules and the drop percentage on doubles

    [detect_trend] and the severity rule of [analyze] compare with their
    thresholds the values that the code computes in double arithmetic.
    Here the rounding of that arithmetic is the parameter [fl], the
    double nearest to an exact value: [Binary64.round] for the program as
    it runs, the identity for exact arithmetic, where the functions are
    those of [Churn]. *)

Module Doubles.

Import Churn.

Local Open Scope Q_scope.

Section Rounding.

Variable self : engine.
Variable fromisoformat : string -> option Z.
Variable fl : Q -> Q.

(** [((current_qty - baseline_qty) / baseline_qty) * 100]. *)
Definition change_pct (baseline_qty current_qty : Q) : Q :=
  fl (fl (fl (current_qty - baseline_qty) / baseline_qty) * 100).

(** The rate rules of [detect_trend]. *)
Definition trend_by_rate (baseline_qty current_qty : Q) : trend :=
  if Qeq_bool baseline_qty 0 then
    if Qeq_bool current_qty 0 then Stable else Growing
  else
    let change := change_pct baseline_qty current_qty in
    if Qle_bool change (- critical_decline_pct (thresholds self)) then Stopped
    else if Qle_bool change (- decline_pct (thresholds self)) then Declining
    else if Qle_bool 20 change then Growing
    else Stable.

(** [weeks_since] of [detect_trend]: [(reference_date - last_date).days / 7],
    a quotient of two integers. *)
Definition weeks_since (last_order_date : option string) (reference_date : Z)
    : option Q :=
  match last_order_date with
  | Some s =>
      if String.eqb s "" then None
      else
        match fromisoformat (replace_Z s) with
        | Some last_date =>
            Some (fl (inject_Z (days_between reference_date last_date) / 7))
        | None => None
        end
  | None => None
  end.

(** [detect_trend]. *)
Definition detect_trend (baseline_qty current_qty : Q)
    (last_order_date : option string) (reference_date : Z) : trend :=
  match weeks_since last_order_date reference_date with
  | Some w =>
      if Qle_bool (stopped_weeks (thresholds self)) w then Stopped
      else trend_by_rate baseline_qty current_qty
  | None => trend_by_rate baseline_qty current_qty
  end.

(** [drop_pct] of [analyze]. *)
Definition drop_pct (baseline_qty current_qty : Q) : Q :=
  if negb (Qle_bool baseline_qty 0)
  then fl (fl (fl (baseline_qty - current_qty) / baseline_qty) * 100)
  else 0.

(** The inactivity rule of [detect_trend] fires. *)
Definition inactive (last : option string) (ref : Z) : Prop :=
  match weeks_since last ref with
  | Some w => stopped_weeks (thresholds self) <= w
  | None => False
  end.

End Rounding.

End Doubles.

(** ** Views of the engines' data, used to state their properties *)

Module Views.

Import Churn.

Local Open Scope Q_scope.

(** A record with a customer and a product: one that [parse_orders]
    does not skip. *)
Definition identified (o : pydict) : bool :=
  (truthy (customer_of o) && truthy (product_of o))%bool.

(** The customer, category and entry of every record that
    [parse_orders] appends, in input order. *)
Definition parsed_records (self : engine) (float_of_str : string -> option Q)
    (orders : list pydict) : list (pyval * string * order) :=
  flat_map (fun o => match parse_order self float_of_str o with
                     | Ok (Some r) => [r]
                     | _ => []
                     end)
           orders.

(** [d[k]] on a dictionary kept as an association list. *)
Definition lookup_key {K V : Type} (eqb : K -> K -> bool) (k : K)
    (d : list (K * V)) : option V :=
  snd <$> find (fun kv => eqb (fst kv) k) d.

(** [grouped[customer_id][category]], the empty list when absent. *)
Definition group_of (grouped : list (pyval * list (string * list order)))
    (customer_id : pyval) (category : string) : list order :=
  default [] (lookup_key String.eqb category
                (default [] (lookup_key key_eqb customer_id grouped))).

(** No two keys of a dictionary are equal. *)
Definition distinct_keys {K : Type} (eqb : K -> K -> bool) (keys : list K) : Prop :=
  ForallOrdPairs (fun a b => eqb a b = false) keys.

(** The record belongs to the group of a customer and a category. *)
Definition in_group (customer_id : pyval) (category : string)
    (r : pyval * string * order) : bool :=
  (key_eqb (fst (fst r)) customer_id && String.eqb (snd (fst r)) category)%bool.

(** What [parse_orders] keeps true of the grouped orders: no customer
    and no category of a customer occurs twice, and no group is
    empty. *)
Definition well_grouped (g : list (pyval * list (string * list order))) : Prop :=
  distinct_keys key_eqb (map fst g) /\
  List.Forall (fun c => distinct_keys String.eqb (map fst (snd c)) /\
                        snd c <> [] /\
                        List.Forall (fun grp => snd grp <> []) (snd c)) g.

(** All entries of the grouped orders. *)
Definition entries_of (grouped : list (pyval * list (string * list order)))
    : list order :=
  concat (map (fun c => concat (map snd (snd c))) grouped).

(** The time stamp of an entry, when its date is a string that
    parses. *)
Definition order_time (fromisoformat : string -> option Z) (o : order)
    : option Z :=
  match date o with
  | PStr s => fromisoformat (replace_Z s)
  | _ => None
  end.

(** The order is dated at or after [start]; between [start] and
    [stop], both included. *)
Definition dated_from (fromisoformat : string -> option Z) (start : Z)
    (o : order) : bool :=
  match order_time fromisoformat o with
  | Some t => (start <=? t)%Z
  | None => false
  end.

Definition dated_between (fromisoformat : string -> option Z) (start stop : Z)
    (o : order) : bool :=
  match order_time fromisoformat o with
  | Some t => ((start <=? t) && (t <=? stop))%Z%bool
  | None => false
  end.

(** [last] is the date string of the latest order whose date parses,
    [None] when no date parses. *)
Definition latest_of (fromisoformat : string -> option Z) (orders : list order)
    (last : option string) : Prop :=
  match last with
  | None => forall o, In o orders -> order_time fromisoformat o = None
  | Some s =>
      exists t, fromisoformat (replace_Z s) = Some t /\
        (exists o, In o orders /\ date o = PStr s) /\
        forall o t', In o orders -> order_time fromisoformat o = Some t' ->
                     (t' <= t)%Z
  end.

Definition has_date_string (o : order) : bool :=
  match date o with
  | PStr _ => true
  | _ => false
  end.

(** The reference date of a run can be established: none is given, or
    the one given parses. *)
Definition reference_ok (fromisoformat : string -> option Z)
    (reference_date : option string) : bool :=
  match reference_date with
  | Some s =>
      (String.eqb s "" || match fromisoformat (replace_Z s) with
                          | Some _ => true
                          | None => false
                          end)%bool
  | None => true
  end.

(** The reference date of a run, when it can be established. *)
Definition reference_time (fromisoformat : string -> option Z) (now : Z)
    (reference_date : option string) : option Z :=
  match reference_date with
  | Some s => if String.eqb s "" then Some now else fromisoformat (replace_Z s)
  | None => Some now
  end.

(** A trend for which [analyze] builds an alert. *)
Definition unhealthy (t : trend) : bool :=
  match t with
  | Stopped | Declining => true
  | _ => false
  end.

(** The alert that [analyze] builds from a profile, if any. *)
Definition alert_of (self : engine) (fromisoformat : string -> option Z)
    (ref_date : Z) (p : profile) : list alert :=
  if unhealthy (p_trend p)
  then [build_alert self fromisoformat p (baseline_weekly_value p)
          (current_weekly_value p) ref_date]
  else [].

(** The key by which [analyze] sorts the alerts is not larger for [a]
    than for [b]. *)
Definition alert_le (a b : alert) : Prop :=
  (severity_order (a_severity a) < severity_order (a_severity b))%Z \/
  (severity_order (a_severity a) = severity_order (a_severity b) /\
   estimated_lost_revenue b <= estimated_lost_revenue a).

(** What a recommendation says, without its priority; and the same of
    the alert it is made from. *)
Definition recommendation_body (r : ChurnReport.recommendation)
    : pyval * string * action * Q * Q :=
  (ChurnReport.r_customer_id r, ChurnReport.r_category r, ChurnReport.r_action r,
   ChurnReport.r_discount r, ChurnReport.potential_save r).

Definition alert_body (a : alert) : pyval * string * action * Q * Q :=
  (a_customer_id a, a_category a, recommended_action a, recommended_discount a,
   estimated_lost_revenue a).

(** All profiles of a report. *)
Definition profiles_of (ps : list (pyval * list (string * profile)))
    : list profile :=
  concat (map (fun c => map snd (snd c)) ps).

(** The field of a raw record is absent or a number. *)
Definition numeric_field (key : string) (o : pydict) : bool :=
  match as_number (get_or o key (PNum 0)) with
  | Some _ => true
  | None => false
  end.

(** The three signals that [analyze_order_patterns] is seen to emit. *)
Definition volume_split (fraction : Q) : CompetitorSignals.signal := {|
  CompetitorSignals.s_type := "volume_split";
  CompetitorSignals.description := CompetitorSignals.VolumeDropped fraction;
  CompetitorSignals.strength := Qmin 80 (fraction * 100)
|}.

Definition complete_loss : CompetitorSignals.signal := {|
  CompetitorSignals.s_type := "complete_loss";
  CompetitorSignals.description := CompetitorSignals.CompleteStop;
  CompetitorSignals.strength := 95
|}.

Definition promo_only : CompetitorSignals.signal := {|
  CompetitorSignals.s_type := "promo_only";
  CompetitorSignals.description := CompetitorSignals.PromoOnly;
  CompetitorSignals.strength := 60
|}.

(** The sum of a field over raw records, a record without the field
    counting as 0. *)
Definition field_total (key : string) (orders : list pydict) : Q :=
  py_sum (map (fun o => default 0 (as_number (get_or o key (PNum 0)))) orders).

(** How many signals carry the value [k] under the attribute [key]. *)
Definition count_of (key : CompetitorSignals.competitor_signal -> string)
    (k : string) (signals : list CompetitorSignals.competitor_signal) : nat :=
  length (List.filter (fun s => String.eqb (key s) k) signals).




(** The unit price of a raw record can be taken: the quantity is absent
    or a number and, when it is positive, so is the value. *)
Definition price_defined (o : pydict) : bool :=
  match as_number (get_or o "quantity" (PNum 0)) with
  | None => false
  | Some q => if negb (Qle_bool q 0) then numeric_field "value" o else true
  end.

End Views.

(** ** Further batches *)

Module Batches.

Import Churn Examples.

Local Open Scope string_scope.

(** The grouping of [chicken_batch]. *)
Definition chicken_grouped : list (pyval * list (string * list order)) := [
  (PStr "C1",
   [("chicken",
     [{| date := PStr "2024-01-10"; quantity := 800; value := 800 |};
      {| date := PStr "2024-03-20"; quantity := 80; value := 80 |}])])
].

(** The two entries of that group. *)
Definition chicken_orders : list order := [
  {| date := PStr "2024-01-10"; quantity := 800; value := 800 |};
  {| date := PStr "2024-03-20"; quantity := 80; value := 80 |}
].

(** Two customers: C1 as in [chicken_batch], and C2 whose cola rate
    falls from 10 to 5 a week. *)
Definition two_alert_batch : list pydict := [
  record "C2" "Cola" (PNum 80) (PNum 160) "2024-01-10";
  record "C2" "Cola" (PNum 20) (PNum 40) "2024-03-20";
  record "C1" "Chicken Wings" (PNum 800) (PNum 800) "2024-01-10";
  record "C1" "Chicken Wings" (PNum 80) (PNum 80) "2024-03-20"
].

(** [analyze] with its four sections, of the default engine. *)
Definition run_full (orders : list pydict) (reference_date : string)
    : result ChurnReport.full_report :=
  ChurnReport.analyze_full default_engine PyLib.fromisoformat_date
    PyLib.float_of_decimal 0 orders (Some reference_date).

(** A record without a date. *)
Definition undated_batch : list pydict := [
  <["customer_id" := PStr "C1"]> (<["product" := PStr "Cola"]>
     (<["quantity" := PNum 3]> (<["value" := PNum 9]> ∅)))
].

(** 2024-03-27, midnight. *)
Definition ts_2024_03_27 : Z := 1711497600000000.

(** Four orders of one category: the later half has half the quantity
    at two thirds of the unit price. *)
Definition split_orders : list pydict := [
  record "C1" "Cola" (PNum 10) (PNum 30) "2024-01-03";
  record "C1" "Cola" (PNum 10) (PNum 30) "2024-01-10";
  record "C1" "Cola" (PNum 5) (PNum 10) "2024-02-07";
  record "C1" "Cola" (PNum 5) (PNum 10) "2024-02-14"
].

(** Six orders: three of 10 units, then three of none. *)
Definition lost_orders : list pydict := [
  record "C1" "Cola" (PNum 10) (PNum 30) "2024-01-03";
  record "C1" "Cola" (PNum 10) (PNum 30) "2024-01-10";
  record "C1" "Cola" (PNum 10) (PNum 30) "2024-01-17";
  record "C1" "Cola" (PNum 0) (PNum 0) "2024-02-07";
  record "C1" "Cola" (PNum 0) (PNum 0) "2024-02-14";
  record "C1" "Cola" (PNum 0) (PNum 0) "2024-02-21"
].

(** One customer whose cola rate falls from 125 to 75 a week, a change
    of exactly -40 percent, with the last order 28 days before the
    reference date 2024-03-27. *)
Definition stale_batch : list pydict := [
  record "C1" "Cola" (PNum 700) (PNum 700) "2024-01-10";
  record "C1" "Cola" (PNum 300) (PNum 300) "2024-02-28"
].

(** Baseline, current rate and drop percentage of the alerts of a
    report, in lowest terms. *)
Definition alert_rates (r : result report) : list (Q * Q * Q) :=
  match r with
  | Ok rep =>
      map (fun a => (Qred (baseline_quantity a), Qred (current_quantity a),
                     Qred (drop_percentage a)))
          (alerts rep)
  | Raise _ => []
  end.

(** The doubles written [0.225] and [1.2], and the double that follows
    1. *)
Definition double_0_225 : Q := Eval vm_compute in Binary64.round 0.225.
Definition double_1_2 : Q := Eval vm_compute in Binary64.round 1.2.
Definition double_after_1 : Q := Eval vm_compute in Qred (1 + Binary64.pow2 (-52)).

(** What [analyze_order_patterns] returns on a batch; [NoData] when it
    raises. *)
Definition patterns_on (orders : list pydict) : CompetitorSignals.patterns :=
  match CompetitorSignals.analyze_order_patterns orders "cola" with
  | Ok p => p
  | Raise _ => CompetitorSignals.NoData
  end.

Definition split_patterns : CompetitorSignals.patterns :=
  Eval vm_compute in patterns_on split_orders.

Definition lost_patterns : CompetitorSignals.patterns :=
  Eval vm_compute in patterns_on lost_orders.

End Batches.

(** ** Properties of the threshold engine *)

Module ChurnProps.

Import Churn Spec Examples.

Local Open Scope Q_scope.

(** *** Boolean comparisons on rationals *)

Lemma Qle_bool_spec (x y : Q) : reflect (x <= y) (Qle_bool x y).
Proof. apply iff_reflect. symmetry. apply Qle_bool_iff. Qed.

Lemma Qeq_bool_spec (x y : Q) : reflect (x == y) (Qeq_bool x y).
Proof. apply iff_reflect. symmetry. apply Qeq_bool_iff. Qed.

Ltac qcases :=
  repeat match goal with
  | |- context [Qle_bool ?x ?y] => destruct (Qle_bool_spec x y)
  | |- context [Qeq_bool ?x ?y] => destruct (Qeq_bool_spec x y)
  end.

Lemma change_pct_proper (b b' c c' : Q) :
  b == b' -> c == c' -> change_pct b c == change_pct b' c'.
Proof. intros Hb Hc. unfold change_pct. now rewrite Hb, Hc. Qed.

Lemma drop_pct_positive (b c : Q) :
  0 < b -> drop_pct b c == (b - c) / b * 100.
Proof.
  intros Hb. unfold drop_pct.
  destruct (Qle_bool_spec b 0) as [Hle | _]; simpl; [exfalso; lra | reflexivity].
Qed.

Lemma drop_pct_change_pct (b c : Q) :
  0 < b -> drop_pct b c == - change_pct b c.
Proof.
  intros Hb. rewrite (drop_pct_positive b c Hb). unfold change_pct.
  field. lra.
Qed.

Section TrendRules.

Variable self : engine.
Variable fromisoformat : string -> option Z.

Lemma trend_by_rate_proper (b b' c c' : Q) :
  b == b' -> c == c' -> trend_by_rate self b c = trend_by_rate self b' c'.
Proof.
  intros Hb Hc. unfold trend_by_rate.
  pose proof (change_pct_proper b b' c c' Hb Hc) as Hp.
  rewrite (Qeqb_comp _ _ Hb 0 0 (Qeq_refl 0)), (Qeqb_comp _ _ Hc 0 0 (Qeq_refl 0)).
  cbv zeta.
  rewrite (Qleb_comp _ _ Hp _ _ (Qeq_refl (- critical_decline_pct (thresholds self)))).
  rewrite (Qleb_comp _ _ Hp _ _ (Qeq_refl (- decline_pct (thresholds self)))).
  rewrite (Qleb_comp _ _ (Qeq_refl 20) _ _ Hp).
  reflexivity.
Qed.

Lemma detect_trend_inactive (b c : Q) (last : option string) (ref : Z) :
  inactive self fromisoformat last ref -> detect_trend self fromisoformat b c last ref = Stopped.
Proof.
  unfold inactive, detect_trend.
  destruct (weeks_since fromisoformat last ref) as [w |]; [| tauto].
  intros Hw. now destruct (Qle_bool_spec (stopped_weeks (thresholds self)) w).
Qed.

Lemma detect_trend_active (b c : Q) (last : option string) (ref : Z) :
  ~ inactive self fromisoformat last ref ->
  detect_trend self fromisoformat b c last ref = trend_by_rate self b c.
Proof.
  unfold inactive, detect_trend.
  destruct (weeks_since fromisoformat last ref) as [w |]; [| reflexivity].
  intros Hw. now destruct (Qle_bool_spec (stopped_weeks (thresholds self)) w).
Qed.

Lemma inactive_dec (last : option string) (ref : Z) :
  inactive self fromisoformat last ref \/ ~ inactive self fromisoformat last ref.
Proof.
  unfold inactive. destruct (weeks_since fromisoformat last ref) as [w |]; [| tauto].
  destruct (Qlt_le_dec w (stopped_weeks (thresholds self))); [right; lra | now left].
Qed.

End TrendRules.

(** *** Drop percentage and severity *)

Lemma drop_pct_decreasing (b c1 c2 : Q) :
  0 < b -> c1 < c2 -> drop_pct b c2 < drop_pct b c1.
Proof.
  intros Hb Hc. rewrite !drop_pct_positive by exact Hb.
  apply Qmult_lt_compat_r; [reflexivity |].
  unfold Qdiv. apply Qmult_lt_compat_r; [now apply Qinv_lt_0_compat | lra].
Qed.

Lemma severity_of_monotone (self : engine) (t : trend) (d1 d2 : Q) :
  d1 <= d2 ->
  (severity_order (severity_of self t d2) <= severity_order (severity_of self t d1))%Z.
Proof.
  intros Hd. unfold severity_of.
  destruct t; simpl; qcases; simpl; try lia; exfalso; lra.
Qed.

(** *** Alerts are never of severity [Watch] *)

Lemma fold_Qplus_nonneg (l : list Q) (acc : Q) :
  0 <= acc -> Forall (fun x => 0 <= x) l -> 0 <= fold_left Qplus l acc.
Proof.
  revert acc. induction l as [| x l IH]; intros acc Hacc Hl; simpl.
  - exact Hacc.
  - inversion Hl as [| ? ? Hx Hl']; subst. apply IH; [lra | exact Hl'].
Qed.

Lemma py_sum_nonneg (l : list Q) :
  Forall (fun x => 0 <= x) l -> 0 <= py_sum l.
Proof. apply fold_Qplus_nonneg. lra. Qed.

Lemma In_firstn {A : Type} (n : nat) (l : list A) (x : A) :
  In x (firstn n l) -> In x l.
Proof.
  intros H. rewrite <- (firstn_skipn n l). apply in_or_app. now left.
Qed.

Lemma In_skipn {A : Type} (n : nat) (l : list A) (x : A) :
  In x (skipn n l) -> In x l.
Proof.
  intros H. rewrite <- (firstn_skipn n l). apply in_or_app. now right.
Qed.

Ltac bind_inv H :=
  match type of H with
  | Py.bind ?r _ = Ok _ =>
      let E := fresh "E" in
      destruct r eqn:E; simpl in H; [| discriminate H]
  end.

Section Alerts.

Variable self : engine.
Variable fromisoformat : string -> option Z.
Variable float_of_str : string -> option Q.

Lemma baseline_window_In (s e : Z) (orders l : list order) :
  baseline_window fromisoformat s e orders = Ok l ->
  forall o, In o l -> In o orders.
Proof.
  revert l. induction orders as [| x orders IH]; intros l H o Ho; simpl in H.
  - injection H as <-. destruct Ho.
  - bind_inv H. bind_inv H. injection H as <-.
    specialize (IH _ eq_refl).
    destruct a as [t |]; [| right; now apply IH].
    destruct ((s <=? t)%Z && (t <=? e)%Z)%bool; [| right; now apply IH].
    destruct Ho as [<- | Ho]; [now left | right; now apply IH].
Qed.

Lemma calculate_baseline_nonneg (orders : list order) (ref : Z) (bq bv : Q) :
  (forall o, In o orders -> 0 <= quantity o) ->
  calculate_baseline self fromisoformat orders ref = Ok (bq, bv) ->
  0 <= bq.
Proof.
  intros Hq H. unfold calculate_baseline in H. bind_inv H.
  injection H as <- _.
  apply Qle_shift_div_l.
  - change 0 with (inject_Z 0). rewrite <- Zlt_Qlt. lia.
  - rewrite Qmult_0_l. apply py_sum_nonneg. apply List.Forall_forall.
    intros q Hin. apply in_map_iff in Hin as [o [<- Ho]]. apply Hq.
    destruct a as [| o' a'].
    + destruct (Nat.ltb 4 (length orders)); [now apply In_firstn in Ho | exact Ho].
    + now apply (baseline_window_In _ _ _ _ E).
Qed.

Lemma insert_desc_In (o x : order) (l : list order) :
  In x (insert_desc o l) <-> x = o \/ In x l.
Proof.
  induction l as [| y l IH]; simpl.
  - intuition congruence.
  - destruct (date_before o y); simpl; [rewrite IH |]; intuition congruence.
Qed.

Lemma sort_desc_In (x : order) (l : list order) :
  In x (sort_desc l) <-> In x l.
Proof.
  induction l as [| y l IH]; simpl; [tauto |].
  rewrite insert_desc_In, IH. intuition congruence.
Qed.

Lemma insert_alert_In (a x : alert) (l : list alert) :
  In x (insert_alert a l) <-> x = a \/ In x l.
Proof.
  induction l as [| y l IH]; simpl.
  - intuition congruence.
  - destruct (alert_before y a); simpl; [rewrite IH |]; intuition congruence.
Qed.

Lemma sort_alerts_In (x : alert) (l : list alert) :
  In x (sort_alerts l) <-> In x l.
Proof.
  induction l as [| y l IH]; simpl; [tauto |].
  rewrite insert_alert_In, IH. intuition congruence.
Qed.

Lemma trend_by_rate_declining (b c : Q) :
  trend_by_rate self b c = Declining ->
  ~ b == 0 /\ change_pct b c <= - decline_pct (thresholds self).
Proof.
  unfold trend_by_rate. cbv zeta. qcases; try discriminate. tauto.
Qed.

Lemma detect_trend_declining (b c : Q) (last : option string) (ref : Z) :
  detect_trend self fromisoformat b c last ref = Declining ->
  trend_by_rate self b c = Declining.
Proof.
  unfold detect_trend.
  destruct (weeks_since fromisoformat last ref) as [w |]; [| tauto].
  destruct (Qle_bool (stopped_weeks (thresholds self)) w); [discriminate | tauto].
Qed.

(** The severity of an alert, from the rates and the last order date. *)
Lemma severity_not_watch (b c : Q) (last : option string) (ref : Z) :
  0 <= b ->
  let t := detect_trend self fromisoformat b c last ref in
  t = Stopped \/ t = Declining ->
  severity_of self t (drop_pct b c) = Critical \/
  severity_of self t (drop_pct b c) = Warning.
Proof.
  intros Hb t [Ht | Ht]; rewrite Ht.
  - left. reflexivity.
  - apply detect_trend_declining, trend_by_rate_declining in Ht as [Hne Hchange].
    assert (Hpos : 0 < b) by (destruct (Qlt_le_dec 0 b); [assumption | exfalso; apply Hne; lra]).
    pose proof (drop_pct_change_pct b c Hpos) as Hd.
    unfold severity_of. simpl. qcases; auto. exfalso; lra.
Qed.

Lemma analyze_category_severity (cid : pyval) (cat : string)
    (cat_orders : list order) (ref : Z) (p : profile) (a : alert) :
  (forall o, In o cat_orders -> 0 <= quantity o) ->
  analyze_category self fromisoformat cid cat cat_orders ref = Ok (p, Some a) ->
  a_severity a = Critical \/ a_severity a = Warning.
Proof.
  intros Hq H. unfold analyze_category in H.
  bind_inv H. bind_inv H. bind_inv H.
  unfold sort_by_date in E. destruct (sortable (map date cat_orders)); [| discriminate].
  injection E as <-.
  destruct a1 as [bq bv]. destruct a2 as [[cq cv] last]. simpl in H.
  assert (Hb : 0 <= bq).
  { apply (calculate_baseline_nonneg _ _ _ _ (fun o Ho => Hq o (proj1 (sort_desc_In o _) Ho)) E0). }
  pose proof (severity_not_watch bq cq last ref Hb) as Hs. cbv zeta in Hs.
  injection H as <- Ha.
  destruct (detect_trend self fromisoformat bq cq last ref) eqn:Ht;
    try discriminate; injection Ha as <-; simpl; apply Hs; auto.
Qed.

Lemma analyze_categories_severity (cid : pyval)
    (cats : list (string * list order)) (ref : Z)
    (ps : list (string * profile)) (als : list alert) :
  (forall cat os o, In (cat, os) cats -> In o os -> 0 <= quantity o) ->
  analyze_categories self fromisoformat cid cats ref = Ok (ps, als) ->
  forall a, In a als -> a_severity a = Critical \/ a_severity a = Warning.
Proof.
  revert ps als. induction cats as [| [cat os] cats IH]; intros ps als Hq H a Ha; simpl in H.
  - injection H as <- <-. destruct Ha.
  - bind_inv H. bind_inv H. injection H as <- <-.
    destruct a0 as [p oa]. destruct a1 as [ps' als']. simpl in Ha.
    assert (Htail : forall a, In a als' -> a_severity a = Critical \/ a_severity a = Warning).
    { apply (IH ps' als'); [| reflexivity].
      intros cat' os' o Hin Ho. apply (Hq cat' os' o); [now right | exact Ho]. }
    destruct oa as [a' |]; [| now apply Htail].
    destruct Ha as [<- | Ha]; [| now apply Htail].
    apply (analyze_category_severity cid cat os ref p a'); [| exact E].
    intros o Ho. apply (Hq cat os o); [now left | exact Ho].
Qed.

Lemma analyze_customers_severity (grouped : list (pyval * list (string * list order)))
    (ref : Z) (ps : list (pyval * list (string * profile))) (als : list alert) :
  (forall cid cats cat os o,
     In (cid, cats) grouped -> In (cat, os) cats -> In o os -> 0 <= quantity o) ->
  analyze_customers self fromisoformat grouped ref = Ok (ps, als) ->
  forall a, In a als -> a_severity a = Critical \/ a_severity a = Warning.
Proof.
  revert ps als. induction grouped as [| [cid cats] grouped IH];
    intros ps als Hq H a Ha; simpl in H.
  - injection H as <- <-. destruct Ha.
  - bind_inv H. bind_inv H. injection H as <- <-.
    destruct a0 as [ps0 als0]. destruct a1 as [ps' als']. simpl in Ha.
    apply in_app_or in Ha as [Ha | Ha].
    + apply (analyze_categories_severity cid cats ref ps0 als0); [| exact E | exact Ha].
      intros cat os o Hin Ho. apply (Hq cid cats cat os o); [now left | exact Hin | exact Ho].
    + apply (IH ps' als'); [| reflexivity | exact Ha].
      intros cid' cats' cat os o Hin. apply (Hq cid' cats' cat os o). now right.
Qed.

End Alerts.

(** C10.  When every quantity of the grouped orders is non-negative,
    every alert of the report has severity [Critical] or [Warning]:
    [Watch] does not occur. *)
Theorem alerts_never_watch (self : engine)
    (fromisoformat : string -> option Z) (float_of_str : string -> option Q)
    (now : Z) (orders : list pydict) (reference_date : option string)
    (grouped : list (pyval * list (string * list order))) (rep : report) :
  parse_orders self float_of_str orders = Ok grouped ->
  (forall cid cats cat os o,
     In (cid, cats) grouped -> In (cat, os) cats -> In o os -> 0 <= quantity o) ->
  analyze self fromisoformat float_of_str now orders reference_date = Ok rep ->
  forall a, In a (alerts rep) -> a_severity a = Critical \/ a_severity a = Warning.
Proof.
  intros Hg Hq H a Ha. unfold analyze in H.
  bind_inv H. rewrite Hg in H. simpl in H. bind_inv H.
  destruct a1 as [ps als]. injection H as <-. simpl in Ha.
  apply (proj1 (sort_alerts_In a als)) in Ha.
  exact (analyze_customers_severity self fromisoformat grouped a0 ps als Hq E0 a Ha).
Qed.

(** The chicken batch: one alert, of severity [Critical]. *)
Lemma alerts_never_watch_witness :
  alert_severities (run chicken_batch "2024-03-27") = [Critical] /\
  Forall (fun a => a_severity a = Critical \/ a_severity a = Warning)
    match run chicken_batch "2024-03-27" with
    | Ok rep => alerts rep
    | Raise _ => []
    end.
Proof.
  split; [vm_compute; reflexivity |].
  destruct (run chicken_batch "2024-03-27") as [rep | e] eqn:Hrep; [| constructor].
  apply List.Forall_forall.
  eapply (alerts_never_watch default_engine PyLib.fromisoformat_date
            PyLib.float_of_decimal 0 chicken_batch (Some "2024-03-27"%string)).
  - vm_compute. reflexivity.
  - intros cid cats cat os o Hg Hc Ho.
    destruct Hg as [Hg | []]. injection Hg as <- <-.
    destruct Hc as [Hc | []]. injection Hc as <- <-.
    destruct Ho as [<- | [<- | []]]; vm_compute; discriminate.
  - exact Hrep.
Defined.

(** The two scenarios of the specification.  Baseline 100 and current
    20 a week, last order a week ago: stopped, critical, competitor
    likely.  Baseline 100 and current 65: a change of -35 percent is
    stable, and no alert is emitted. *)
Example sharp_drop_scenario :
  alert_digest (run chicken_batch "2024-03-27") = [(Stopped, Critical, true, 1%Z)].
Proof. vm_compute. reflexivity. Qed.

Example gradual_drop_scenario :
  is_ok (run gradual_batch "2024-03-27") = true /\
  alert_digest (run gradual_batch "2024-03-27") = [].
Proof. split; vm_compute; reflexivity. Qed.

(** With a negative baseline the rule sequence does reach [Watch]:
    baseline -10, current -5 is a change of -50 percent, and the drop
    percentage of a non-positive baseline is 0. *)
Remark watch_with_negative_baseline :
  trend_by_rate default_engine (-10) (-5) = Declining /\
  severity_of default_engine Declining (drop_pct (-10) (-5)) = Watch.
Proof. split; reflexivity. Qed.

(** *** The stored order history *)

Lemma analyze_category_history (self : engine) (fromisoformat : string -> option Z)
    (cid : pyval) (cat : string) (cat_orders : list order) (ref : Z)
    (p : profile) (oa : option alert) :
  analyze_category self fromisoformat cid cat cat_orders ref = Ok (p, oa) ->
  let sorted := sort_desc cat_orders in
  order_history p = skipn (length sorted - 20) sorted /\
  sorted = firstn (length sorted - 20) sorted ++ order_history p.
Proof.
  intros H sorted. unfold analyze_category in H.
  bind_inv H. bind_inv H. bind_inv H.
  unfold sort_by_date in E. destruct (sortable (map date cat_orders)); [| discriminate].
  injection E as <-. injection H as <- _. simpl. unfold last_n. fold sorted.
  split; [reflexivity | now rewrite firstn_skipn].
Qed.

(** C4 (as the code has it).  On twenty-one orders dated 2024-01-01 to
    2024-01-21 the stored history is latest-first but holds the twenty
    earliest orders: 2024-01-20 down to 2024-01-01.  The order of
    2024-01-21, the most recent one, is the one left out. *)
Theorem order_history_keeps_earliest :
  history_dates (run january_batch "2024-02-01")
  = [[map PStr (rev (firstn 20 january_dates))]] /\
  ~ In (PStr "2024-01-21") (concat (concat (history_dates (run january_batch "2024-02-01")))).
Proof.
  assert (H : history_dates (run january_batch "2024-02-01")
              = [[map PStr (rev (firstn 20 january_dates))]])
    by (vm_compute; reflexivity).
  split; [exact H |]. rewrite H. simpl.
  intros Hin. repeat (destruct Hin as [Hin | Hin]; [discriminate Hin |]). exact Hin.
Qed.

(** *** Coercion of quantity and value in [parse_orders] *)

Lemma truthy_nonzero (q : Q) : ~ q == 0 -> truthy (PNum q) = true.
Proof.
  intros Hne. simpl. destruct (Qeq_bool_spec q 0); [contradiction | reflexivity].
Qed.

Section Coercion.

Variable self : engine.
Variable float_of_str : string -> option Q.

Lemma parse_order_kept (o : pydict) :
  kept o ->
  exists raw, product_of o = PStr raw /\
  parse_order self float_of_str o =
    (do q <- py_float float_of_str (quantity_input o);
     do v <- py_float float_of_str (value_input o);
     Ok (Some (customer_of o, normalize_category self raw,
               {| date := py_or (get o "date") (get o "order_date");
                  quantity := q; value := v |}))).
Proof.
  intros [Hc [raw [Hp Hraw]]]. exists raw. split; [exact Hp |].
  unfold parse_order. rewrite Hc, Hp. simpl.
  destruct (String.eqb_spec raw ""); [contradiction | reflexivity].
Qed.

Lemma parse_order_entry (o : pydict) (cid : pyval) (cat : string) (entry : order) :
  parse_order self float_of_str o = Ok (Some (cid, cat, entry)) ->
  py_float float_of_str (quantity_input o) = Ok (quantity entry) /\
  py_float float_of_str (value_input o) = Ok (value entry).
Proof.
  unfold parse_order.
  destruct (negb (truthy (customer_of o)) || negb (truthy (product_of o)))%bool;
    [discriminate |].
  destruct (product_of o); try discriminate.
  destruct (py_float float_of_str (quantity_input o)) as [q | e]; [| discriminate].
  destruct (py_float float_of_str (value_input o)) as [v | e]; [| discriminate].
  simpl. intros H. injection H as _ _ <-. split; reflexivity.
Qed.

Lemma parse_orders_into_raise (orders : list pydict) (o : pydict) (e : exn) :
  In o orders -> parse_order self float_of_str o = Raise e ->
  forall g, is_ok (parse_orders_into self float_of_str g orders) = false.
Proof.
  induction orders as [| x orders IH]; intros Hin He g; [destruct Hin |].
  simpl. destruct Hin as [-> | Hin].
  - rewrite He. reflexivity.
  - destruct (parse_order self float_of_str x) as [[[[cid cat] entry] |] | e'];
      simpl; [apply IH | apply IH | reflexivity]; assumption.
Qed.

Lemma parse_orders_into_ok (orders : list pydict) :
  forall g,
  (exists g', parse_orders_into self float_of_str g orders = Ok g') <->
  Forall (fun o => is_ok (parse_order self float_of_str o) = true) orders.
Proof.
  induction orders as [| x orders IH]; intros g; simpl.
  - split; [constructor | eauto].
  - destruct (parse_order self float_of_str x) as [[[[cid cat] entry] |] | e'] eqn:E;
      simpl.
    + rewrite IH. split; [intros HF; constructor; [now rewrite E | exact HF] |].
      intros HF. now inversion HF.
    + rewrite IH. split; [intros HF; constructor; [now rewrite E | exact HF] |].
      intros HF. now inversion HF.
    + split; [intros [g' H]; discriminate |].
      intros HF. inversion HF as [| ? ? Hx _]. rewrite E in Hx. discriminate.
Qed.

End Coercion.

(** C3 (as the code has it).  A record that grouping keeps, one with a
    truthy customer and a truthy product, whose quantity or value input
    is rejected by [float] is not skipped: an exception leaves
    [parse_orders], and [analyze] with it, whatever the other records
    of the batch are.  [float] rejects a string that is not a numeral
    and an integer beyond the doubles.  The value input is the last
    alias, [total], as it stands when [value] and [amount] are absent
    or falsy: a null [total] is rejected too.  The quantity input is
    never null: when [quantity] and [qty] are absent or falsy it is the
    fallback 1. *)
Theorem coercion_failure_aborts (self : engine)
    (fromisoformat : string -> option Z) (float_of_str : string -> option Q)
    (now : Z) (orders : list pydict) (reference_date : option string) :
  (forall o,
     In o orders -> Views.identified o = true ->
     is_ok (py_float float_of_str (quantity_input o)) = false \/
     is_ok (py_float float_of_str (value_input o)) = false ->
     is_ok (parse_orders self float_of_str orders) = false /\
     is_ok (analyze self fromisoformat float_of_str now orders reference_date)
       = false) /\
  (forall s, float_of_str s = None ->
     py_float float_of_str (PStr s) = Raise ValueError) /\
  (forall q, double_overflow <= Qabs q ->
     py_float float_of_str (PNum q) = Raise OverflowError) /\
  (forall o,
     truthy (get_or o "value" (PNum 0)) = false ->
     truthy (get_or o "amount" (PNum 0)) = false ->
     o !! "total"%string = Some PNone ->
     py_float float_of_str (value_input o) = Raise TypeError) /\
  (forall o,
     truthy (get_or o "quantity" (PNum 0)) = false ->
     truthy (get_or o "qty" (PNum 0)) = false ->
     py_float float_of_str (quantity_input o) = Ok 1).
Proof.
  split; [| split; [| split; [| split]]].
  - intros o Hin Hid Hfail.
    assert (Hraise : exists e', parse_order self float_of_str o = Raise e').
    { unfold Views.identified in Hid. apply andb_prop in Hid as [Hc Hp].
      unfold parse_order. rewrite Hc, Hp. simpl.
      destruct (product_of o); eauto.
      destruct (py_float float_of_str (quantity_input o)) as [q | e]; simpl; eauto.
      destruct (py_float float_of_str (value_input o)) as [v | e]; simpl; eauto.
      destruct Hfail; discriminate. }
    destruct Hraise as [e' He'].
    pose proof (parse_orders_into_raise self float_of_str orders o e' Hin He' []) as Hp.
    fold (parse_orders self float_of_str orders) in Hp.
    split; [exact Hp |]. unfold analyze.
    destruct (match reference_date with Some _ => _ | None => _ end); [| reflexivity].
    simpl. destruct (parse_orders self float_of_str orders); [discriminate | reflexivity].
  - intros s Hs. simpl. now rewrite Hs.
  - intros q Hq. simpl. apply Qle_bool_iff in Hq. now rewrite Hq.
  - intros o Hv Ha Ht. unfold value_input, py_or.
    rewrite Hv, Ha. unfold get_or. rewrite Ht. reflexivity.
  - intros o Hq Hy. unfold quantity_input, py_or. rewrite Hq, Hy. reflexivity.
Qed.

(** The batch whose second record has the quantity ["abc"]. *)
Lemma coercion_failure_aborts_witness :
  is_ok (parse_orders default_engine PyLib.float_of_decimal nonnumeric_batch) = false /\
  is_ok (run nonnumeric_batch "2024-03-27") = false.
Proof.
  refine (proj1 (coercion_failure_aborts default_engine PyLib.fromisoformat_date
                   PyLib.float_of_decimal 0 nonnumeric_batch
                   (Some "2024-03-27"%string))
                (record "C2" "Cola" (PStr "abc") (PNum 30) "2024-03-20") _ _ _).
  - right. left. reflexivity.
  - reflexivity.
  - left. reflexivity.
Defined.

(** C3, refuted as stated: the run on that batch raises [ValueError]. *)
Lemma nonnumeric_quantity_aborts_run :
  Forall kept nonnumeric_batch /\
  run nonnumeric_batch "2024-03-27" = Raise ValueError.
Proof.
  split; [| vm_compute; reflexivity].
  repeat constructor; try reflexivity; eexists; (split; [reflexivity | discriminate]).
Qed.

(** C9 (as the code has it).  For a record that grouping keeps, the
    quantity is [float] of the first truthy value among [quantity],
    [qty] and the fallback 1, the value [float] of the first truthy
    among [value], [amount], and else of [total] (0 when absent).  So
    the quantity is 1 whenever both aliases are absent or falsy, an
    explicit 0 included, and a non-zero number is kept as it is; the
    value is 0 when the three aliases are absent. *)
Theorem quantity_falls_back_on_falsy (self : engine)
    (float_of_str : string -> option Q) (o : pydict)
    (cid : pyval) (cat : string) (entry : order) :
  parse_order self float_of_str o = Ok (Some (cid, cat, entry)) ->
  py_float float_of_str (quantity_input o) = Ok (quantity entry) /\
  py_float float_of_str (value_input o) = Ok (value entry) /\
  (truthy (get_or o "quantity" (PNum 0)) = false ->
   truthy (get_or o "qty" (PNum 0)) = false -> quantity entry = 1) /\
  (o !! "quantity"%string = Some (PNum 0) -> o !! "qty"%string = None ->
   quantity entry = 1) /\
  (forall q, o !! "quantity"%string = Some (PNum q) -> ~ q == 0 ->
   quantity entry = q) /\
  (o !! "value"%string = None -> o !! "amount"%string = None ->
   o !! "total"%string = None -> value entry = 0) /\
  (forall v, o !! "value"%string = Some (PNum v) -> ~ v == 0 -> value entry = v).
Proof.
  intros H. destruct (parse_order_entry self float_of_str o cid cat entry H) as [Hq Hv].
  split; [exact Hq |]. split; [exact Hv |].
  unfold quantity_input, value_input, py_or, get_or in *.
  repeat split.
  - intros H1 H2. rewrite H1, H2 in Hq. simpl in Hq. now injection Hq as <-.
  - intros H1 H2. rewrite H1, H2 in Hq. simpl in Hq. now injection Hq as <-.
  - intros q H1 Hne. rewrite H1 in Hq.
    change (default (PNum 0) (Some (PNum q))) with (PNum q) in Hq.
    rewrite (truthy_nonzero q Hne) in Hq. rewrite (truthy_nonzero q Hne) in Hq.
    unfold py_float in Hq.
    destruct (Qle_bool double_overflow (Qabs q)); [discriminate |].
    now injection Hq as <-.
  - intros H1 H2 H3. rewrite H1, H2, H3 in Hv. simpl in Hv. now injection Hv as <-.
  - intros v H1 Hne. rewrite H1 in Hv.
    change (default (PNum 0) (Some (PNum v))) with (PNum v) in Hv.
    rewrite (truthy_nonzero v Hne) in Hv. rewrite (truthy_nonzero v Hne) in Hv.
    unfold py_float in Hv.
    destruct (Qle_bool double_overflow (Qabs v)); [discriminate |].
    now injection Hv as <-.
Qed.

(** The record with the explicit quantity 0: the argument of [float]
    is the fallback 1. *)
Lemma quantity_falls_back_on_falsy_witness :
  py_float PyLib.float_of_decimal (quantity_input zero_quantity_record) = Ok 1.
Proof.
  exact (proj1 (quantity_falls_back_on_falsy default_engine PyLib.float_of_decimal
                  zero_quantity_record (PStr "C1") "drinks"%string
                  {| date := PStr "2024-03-20"; quantity := 1; value := 30 |}
                  eq_refl)).
Defined.

(** C9, refuted as stated: an explicit quantity of 0 is not kept. *)
Lemma explicit_zero_quantity_becomes_one :
  zero_quantity_record !! "quantity"%string = Some (PNum 0) /\
  parse_order default_engine PyLib.float_of_decimal zero_quantity_record
  = Ok (Some (PStr "C1", "drinks"%string,
              {| date := PStr "2024-03-20"; quantity := 1; value := 30 |})).
Proof. split; reflexivity. Qed.

(** *** Volatility *)

Local Open Scope R_scope.

Lemma fold_Qplus_pos (l : list Q) (acc : Q) :
  (0 <= acc)%Q -> l <> [] -> Forall (fun x => 0 < x)%Q l ->
  (0 < fold_left Qplus l acc)%Q.
Proof.
  intros Hacc Hne Hl. destruct l as [| x l]; [contradiction |]. simpl.
  inversion Hl as [| ? ? Hx Hl']; subst. clear Hne Hl.
  assert (Hacc' : (0 < acc + x)%Q) by lra. clear Hacc Hx.
  revert acc x Hacc'. induction l as [| y l IH]; intros acc x Hacc'; simpl.
  - exact Hacc'.
  - inversion Hl' as [| ? ? Hy Hl'']; subst. apply (IH Hl'' (acc + x)%Q y). lra.
Qed.

Lemma positive_quantities_pos (orders : list order) :
  Forall (fun x => 0 < x)%Q (positive_quantities orders).
Proof.
  unfold positive_quantities. apply List.Forall_forall. intros q Hq.
  apply in_map_iff in Hq as [o [<- Ho]]. apply filter_In in Ho as [_ Ho].
  destruct (Qle_bool_spec (quantity o) 0); [discriminate | lra].
Qed.

Lemma statistics_mean_pos (l : list Q) :
  l <> [] -> Forall (fun x => 0 < x)%Q l -> (0 < statistics_mean l)%Q.
Proof.
  intros Hne Hl. unfold statistics_mean. apply Qlt_shift_div_l.
  - change 0%Q with (inject_Z 0). rewrite <- Zlt_Qlt.
    destruct l; [contradiction | simpl; lia].
  - rewrite Qmult_0_l. apply fold_Qplus_pos; [lra | exact Hne | exact Hl].
Qed.

Lemma calculate_volatility_cases (orders : list order) :
  let qs := positive_quantities orders in
  ((length qs < 2)%nat -> calculate_volatility orders = 0) /\
  ((2 <= length qs)%nat ->
   (0 < statistics_mean qs)%Q /\
   calculate_volatility orders
   = sqrt (Q2R (sample_variance qs)) / Q2R (statistics_mean qs)).
Proof.
  intros qs. unfold calculate_volatility. fold (positive_quantities orders). fold qs.
  split; intros Hlen.
  - destruct (Nat.ltb_spec (length qs) 2); [reflexivity | lia].
  - assert (Hmean : (0 < statistics_mean qs)%Q).
    { apply statistics_mean_pos; [| apply positive_quantities_pos].
      intros Hnil. rewrite Hnil in Hlen. simpl in Hlen. lia. }
    split; [exact Hmean |].
    destruct (Nat.ltb_spec (length qs) 2); [lia |].
    destruct (Qeq_bool_spec (statistics_mean qs) 0) as [Hz | _]; [| reflexivity].
    exfalso. rewrite Hz in Hmean. now apply (Qlt_irrefl 0).
Qed.

(** C5 (as the code has it).  The volatility is the sample standard
    deviation (squared deviations divided by [n - 1]) of the positive
    quantities over their mean; it is 0 when there are fewer than two
    of them.  The mean of two or more positive quantities is positive,
    so the zero-mean exit is never taken. *)
Theorem volatility_is_sample_cv (orders : list order) :
  let qs := positive_quantities orders in
  ((length qs < 2)%nat -> calculate_volatility orders = 0) /\
  ((2 <= length qs)%nat ->
   (0 < statistics_mean qs)%Q /\
   calculate_volatility orders
   = sqrt (Q2R (sum_sq_dev qs / inject_Z (Z.of_nat (length qs) - 1)))
     / Q2R (statistics_mean qs)).
Proof. exact (calculate_volatility_cases orders). Qed.

Lemma three_orders_volatility : calculate_volatility three_orders = 1 / 2.
Proof.
  destruct (calculate_volatility_cases three_orders) as [_ H].
  destruct H as [_ ->]; [simpl; lia |].
  replace (Q2R (sample_variance (positive_quantities three_orders))) with 1.
  - rewrite sqrt_1.
    replace (Q2R (statistics_mean (positive_quantities three_orders))) with 2; [lra |].
    transitivity (Q2R 2); [unfold Q2R; simpl; lra |].
    apply Qeq_eqR. vm_compute. reflexivity.
  - transitivity (Q2R 1); [unfold Q2R; simpl; lra |].
    apply Qeq_eqR. vm_compute. reflexivity.
Qed.

(** Quantities 1, 2, 3: the sample deviation is 1 and the mean 2. *)
Lemma volatility_is_sample_cv_witness :
  (0 < statistics_mean (positive_quantities three_orders))%Q /\
  calculate_volatility three_orders
  = sqrt (Q2R (sum_sq_dev [1; 2; 3]%Q / inject_Z (3 - 1)))
    / Q2R (statistics_mean [1; 2; 3]%Q).
Proof.
  apply (proj2 (volatility_is_sample_cv three_orders)). simpl. lia.
Defined.

(** C5, refuted as stated: on the quantities 1, 2, 3 the volatility is
    1/2, and the population deviation over the mean is not. *)
Lemma volatility_not_population :
  calculate_volatility three_orders = 1 / 2 /\
  population_volatility three_orders <> 1 / 2.
Proof.
  split; [exact three_orders_volatility |].
  assert (E : population_volatility three_orders
              = sqrt (Q2R (population_variance (positive_quantities three_orders)))
                / Q2R (statistics_mean (positive_quantities three_orders)))
    by reflexivity.
  rewrite E.
  replace (Q2R (statistics_mean (positive_quantities three_orders))) with 2
    by (transitivity (Q2R 2); [unfold Q2R; simpl; lra | apply Qeq_eqR; vm_compute; reflexivity]).
  replace (Q2R (population_variance (positive_quantities three_orders))) with (2 / 3)
    by (transitivity (Q2R (2 # 3)); [unfold Q2R; simpl; lra | apply Qeq_eqR; vm_compute; reflexivity]).
  intros H.
  assert (Hs : sqrt (2 / 3) = 1) by lra.
  pose proof (sqrt_sqrt (2 / 3)) as Hsq. rewrite Hs in Hsq. lra.
Qed.

End ChurnProps.

(** ** Properties of the competitor engine *)

Module CompetitorProps.

Import Competitor Spec Examples.

Local Open Scope Q_scope.

(** *** Win-back probability *)

(** C7.  The win-back probability is the clamp to [0.1, 0.9] of 0.70
    minus [signal_strength / 100 * 0.3], minus [min(0.3, weeks * 0.03)],
    plus 0.15 for a sensitivity score above 60 or 0.08 for one above 40,
    minus [competitor_advantage / 100 * 0.2]; it always lies between 0.1
    and 0.9. *)
Theorem win_back_probability_clamped (signal_strength : Q) (weeks_since_loss : Z)
    (sensitivity_score competitor_advantage : Q) :
  let p := calculate_win_back_probability signal_strength weeks_since_loss
             sensitivity_score competitor_advantage in
  p == Qmax 0.1 (Qmin 0.9 (win_back_raw signal_strength weeks_since_loss
                             sensitivity_score competitor_advantage)) /\
  0.1 <= p <= 0.9.
Proof.
  intros p. split.
  - unfold p, calculate_win_back_probability, win_back_raw.
    apply Q.max_compat; [reflexivity |]. apply Q.min_compat; [reflexivity |].
    destruct (negb (Qle_bool sensitivity_score 60));
      [| destruct (negb (Qle_bool sensitivity_score 40))]; ring.
  - unfold p, calculate_win_back_probability. split.
    + apply Q.le_max_l.
    + apply Q.max_lub; [discriminate | apply Q.le_min_l].
Qed.

(** *** The neutral profile *)

(** C8.  With fewer than two orders, the empty list included,
    [calculate_price_sensitivity] returns the neutral profile: score 50,
    elasticity 1.0, premium 10, response neutral, band (5, 15).  It
    does not raise. *)
Theorem short_history_neutral_profile (orders : list pydict) (cat : string) :
  (length orders < 2)%nat ->
  calculate_price_sensitivity orders cat
  = Ok {| customer_id :=
            match orders with
            | [] => PStr "unknown"
            | o :: _ => get_or o "customer_id" (PStr "unknown")
            end;
          category := cat;
          sensitivity_score := 50;
          price_elasticity := 1;
          acceptable_premium := 10;
          historical_price_response := Neutral;
          optimal_discount_range := (5, 15)%Z |}.
Proof.
  intros Hlen. destruct orders as [| o [| o' rest]]; [reflexivity | reflexivity |].
  simpl in Hlen. lia.
Qed.

(** The empty order list. *)
Lemma short_history_neutral_profile_witness :
  calculate_price_sensitivity [] "chicken"
  = Ok {| customer_id := PStr "unknown";
          category := "chicken";
          sensitivity_score := 50;
          price_elasticity := 1;
          acceptable_premium := 10;
          historical_price_response := Neutral;
          optimal_discount_range := (5, 15)%Z |}.
Proof.
  apply (short_history_neutral_profile [] "chicken"). simpl. lia.
Defined.

(** *** Price elasticity *)

Local Open Scope R_scope.

Lemma unit_prices_length (orders : list pydict) (prices : list Q) :
  unit_prices orders = Ok prices -> (length prices <= length orders)%nat.
Proof.
  revert prices. induction orders as [| o orders IH]; intros prices H; simpl in H.
  - injection H as <-. simpl. lia.
  - destruct (as_number (get_or o "quantity" (PNum 0))) as [q |]; [| discriminate].
    destruct (negb (Qle_bool q 0)).
    + destruct (as_number (get_or o "value" (PNum 0))) as [v |]; [| discriminate].
      destruct (unit_prices orders) as [tail | e]; [| discriminate].
      simpl in H. injection H as <-. specialize (IH tail eq_refl). simpl. lia.
    + specialize (IH prices H). simpl. lia.
Qed.


Lemma order_quantities_length (orders : list pydict) :
  length (order_quantities orders) = length orders.
Proof. apply length_map. Qed.













End CompetitorProps.

(** ** Further properties of the threshold engine *)

Module ChurnExtra.

Import Churn ChurnReport Spec Views Examples Batches.

Local Open Scope Q_scope.

(** *** Category normalisation *)

Lemma lower_ascii_idem (c : ascii) : lower_ascii (lower_ascii c) = lower_ascii c.
Proof.
  destruct c as [b0 b1 b2 b3 b4 b5 b6 b7].
  destruct b0, b1, b2, b3, b4, b5, b6, b7; reflexivity.
Qed.

Lemma lower_idem (s : string) : lower (lower s) = lower s.
Proof.
  induction s as [| c s IH]; simpl; [reflexivity |].
  now rewrite lower_ascii_idem, IH.
Qed.

(** X1.  [normalize_category] does not depend on the case of the
    label, and for an engine built by [init] normalising twice is the
    same as normalising once; the result is in lower case. *)
Theorem normalize_category_idempotent (lookback baseline : Z) (raw : string) :
  let self := init lookback baseline in
  normalize_category self (lower raw) = normalize_category self raw /\
  normalize_category self (normalize_category self raw)
  = normalize_category self raw /\
  lower (normalize_category self raw) = normalize_category self raw.
Proof.
  intros self. split; [| split].
  - unfold normalize_category. now rewrite lower_idem.
  - unfold normalize_category at 2 3.
    destruct (find _ (category_synonyms self)) as [entry |] eqn:E.
    + apply find_some in E as [Hin _]. simpl in Hin.
      repeat (destruct Hin as [<- | Hin]; [reflexivity |]). destruct Hin.
    + unfold normalize_category. rewrite lower_idem, E. reflexivity.
  - unfold normalize_category.
    destruct (find _ (category_synonyms self)) as [entry |] eqn:E.
    + apply find_some in E as [Hin _]. simpl in Hin.
      repeat (destruct Hin as [<- | Hin]; [reflexivity |]). destruct Hin.
    + apply lower_idem.
Qed.

(** *** Grouping *)

Lemma Qeq_bool_sym (x y : Q) : Qeq_bool x y = Qeq_bool y x.
Proof.
  destruct (Qeq_bool x y) eqn:E1, (Qeq_bool y x) eqn:E2; try reflexivity.
  - apply Qeq_bool_iff in E1. symmetry in E1. apply Qeq_bool_iff in E1. congruence.
  - apply Qeq_bool_iff in E2. symmetry in E2. apply Qeq_bool_iff in E2. congruence.
Qed.

Lemma key_eqb_refl (k : pyval) : key_eqb k k = true.
Proof.
  destruct k as [| b | q | s]; simpl; try reflexivity.
  - destruct b; reflexivity.
  - apply Qeq_bool_iff. reflexivity.
  - apply String.eqb_refl.
Qed.

Lemma key_eqb_sym (a b : pyval) : key_eqb a b = key_eqb b a.
Proof.
  destruct a as [| x | p | s], b as [| y | q | t]; simpl; try reflexivity;
    try apply Qeq_bool_sym; apply String.eqb_sym.
Qed.

Lemma key_eqb_trans (a b c : pyval) :
  key_eqb a b = true -> key_eqb b c = true -> key_eqb a c = true.
Proof.
  destruct a as [| x | p | s], b as [| y | q | t], c as [| z | r | u]; simpl;
    try discriminate; try reflexivity; intros H1 H2;
    try (apply Qeq_bool_iff in H1; apply Qeq_bool_iff in H2; apply Qeq_bool_iff;
         now rewrite H1).
  apply String.eqb_eq in H1, H2. subst. apply String.eqb_refl.
Qed.

Lemma string_eqb_trans (a b c : string) :
  String.eqb a b = true -> String.eqb b c = true -> String.eqb a c = true.
Proof. intros H1 H2. apply String.eqb_eq in H1, H2. subst. apply String.eqb_refl. Qed.

Section Dict.

Context {K V : Type}.
Variable eqb : K -> K -> bool.
Hypothesis eqb_sym : forall a b, eqb a b = eqb b a.
Hypothesis eqb_trans : forall a b c, eqb a b = true -> eqb b c = true -> eqb a c = true.

Lemma eqb_false_of (k k' k2 : K) :
  eqb k' k = true -> eqb k k2 = false -> eqb k' k2 = false.
Proof.
  intros H1 H2. destruct (eqb k' k2) eqn:E; [| reflexivity].
  rewrite <- H2. symmetry. apply (eqb_trans k k' k2); [| exact E].
  now rewrite eqb_sym.
Qed.

Lemma lookup_key_equiv (k k2 : K) (d : list (K * V)) :
  eqb k k2 = true -> lookup_key eqb k d = lookup_key eqb k2 d.
Proof.
  intros H. unfold lookup_key. f_equal.
  induction d as [| [k' v] d IH]; simpl; [reflexivity |].
  destruct (eqb k' k) eqn:E1, (eqb k' k2) eqn:E2; try reflexivity; try exact IH.
  - rewrite (eqb_trans k' k k2 E1 H) in E2. discriminate.
  - rewrite eqb_sym in H. rewrite (eqb_trans k' k2 k E2 H) in E1. discriminate.
Qed.

Lemma lookup_update_default (k k2 : K) (dflt : V) (f : V -> V) (d : list (K * V)) :
  lookup_key eqb k2 (update_default eqb k dflt f d)
  = if eqb k k2 then Some (f (default dflt (lookup_key eqb k d)))
    else lookup_key eqb k2 d.
Proof.
  induction d as [| [k' v] d IH]; simpl.
  - unfold lookup_key. simpl. destruct (eqb k k2); reflexivity.
  - destruct (eqb k' k) eqn:E1.
    + unfold lookup_key. simpl. rewrite E1. simpl.
      destruct (eqb k k2) eqn:E2.
      * rewrite (eqb_trans k' k k2 E1 E2). reflexivity.
      * rewrite (eqb_false_of k k' k2 E1 E2). reflexivity.
    + unfold lookup_key in *. simpl. rewrite E1.
      destruct (eqb k' k2) eqn:E3.
      * destruct (eqb k k2) eqn:E2; [| reflexivity].
        rewrite eqb_sym in E2. rewrite (eqb_trans k' k2 k E3 E2) in E1. discriminate.
      * exact IH.
Qed.

Lemma update_default_keys (k : K) (dflt : V) (f : V -> V) (d : list (K * V)) :
  map fst (update_default eqb k dflt f d)
  = map fst d ++ (if existsb (fun k' => eqb k' k) (map fst d) then [] else [k]).
Proof.
  induction d as [| [k' v] d IH]; simpl; [reflexivity |].
  destruct (eqb k' k); simpl.
  - now rewrite app_nil_r.
  - now rewrite IH.
Qed.

Lemma update_default_distinct (k : K) (dflt : V) (f : V -> V) (d : list (K * V)) :
  distinct_keys eqb (map fst d) ->
  distinct_keys eqb (map fst (update_default eqb k dflt f d)).
Proof.
  unfold distinct_keys. induction d as [| [k' v] d IH]; simpl; intros H.
  - repeat constructor.
  - inversion H as [| ? ? Hk Hd]; subst.
    destruct (eqb k' k) eqn:E; simpl; [now constructor |].
    constructor; [| now apply IH].
    rewrite update_default_keys. apply Forall_app. split; [exact Hk |].
    destruct (existsb _ _); constructor; [exact E | constructor].
Qed.

Lemma update_default_Forall (P : V -> Prop) (k : K) (dflt : V) (f : V -> V)
    (d : list (K * V)) :
  P (f dflt) -> (forall v, P v -> P (f v)) ->
  List.Forall (fun kv => P (snd kv)) d ->
  List.Forall (fun kv => P (snd kv)) (update_default eqb k dflt f d).
Proof.
  intros Hd Hf. induction d as [| [k' v] d IH]; simpl; intros H.
  - repeat constructor. exact Hd.
  - inversion H as [| ? ? Hv Hrest]; subst. simpl in Hv.
    destruct (eqb k' k); constructor; simpl; auto.
Qed.

Lemma update_default_entries {A : Type} (flat : V -> list A) (e : A)
    (k : K) (dflt : V) (f : V -> V) (d : list (K * V)) :
  flat dflt = [] ->
  (forall v, Permutation (flat (f v)) (flat v ++ [e])) ->
  Permutation (concat (map (fun kv => flat (snd kv)) (update_default eqb k dflt f d)))
              (concat (map (fun kv => flat (snd kv)) d) ++ [e]).
Proof.
  intros Hd Hf. induction d as [| [k' v] d IH]; simpl.
  - rewrite app_nil_r. rewrite (Hf dflt), Hd. reflexivity.
  - destruct (eqb k' k); simpl.
    + rewrite (Hf v). rewrite <- !app_assoc. apply Permutation_app_head.
      apply Permutation_app_comm.
    + rewrite IH. now rewrite app_assoc.
Qed.

End Dict.

Ltac bind_ok H :=
  match type of H with
  | Py.bind ?r _ = Ok _ =>
      let E := fresh "E" in
      destruct r eqn:E; simpl in H; [| discriminate H]
  end.

Section Grouping.

Variable self : engine.
Variable float_of_str : string -> option Q.

Lemma group_of_append_order (g : list (pyval * list (string * list order)))
    (c : pyval) (ct : string) (e : order) (cid : pyval) (cat : string) :
  group_of (append_order g c ct e) cid cat
  = group_of g cid cat ++ (if in_group cid cat (c, ct, e) then [e] else []).
Proof.
  unfold group_of, append_order, in_group. simpl fst. simpl snd.
  rewrite (lookup_update_default key_eqb key_eqb_sym key_eqb_trans).
  destruct (key_eqb c cid) eqn:E; simpl.
  - rewrite (lookup_update_default String.eqb String.eqb_sym string_eqb_trans).
    rewrite (lookup_key_equiv key_eqb key_eqb_sym key_eqb_trans c cid g E).
    destruct (String.eqb ct cat) eqn:E2; simpl.
    + apply String.eqb_eq in E2. subst. reflexivity.
    + now rewrite app_nil_r.
  - now rewrite app_nil_r.
Qed.

Lemma update_default_not_nil {K V : Type} (eqb : K -> K -> bool) (k : K)
    (dflt : V) (f : V -> V) (d : list (K * V)) :
  update_default eqb k dflt f d <> [].
Proof. destruct d as [| [k' v] d]; simpl; [| destruct (eqb k' k)]; discriminate. Qed.

Lemma append_order_well_grouped (g : list (pyval * list (string * list order)))
    (c : pyval) (ct : string) (e : order) :
  well_grouped g -> well_grouped (append_order g c ct e).
Proof.
  intros [Hk Hg]. unfold append_order. split.
  - now apply update_default_distinct.
  - apply (update_default_Forall key_eqb
             (fun cats => distinct_keys String.eqb (map fst cats) /\
                          cats <> [] /\
                          List.Forall (fun grp => snd grp <> []) cats)).
    + simpl. repeat split; try discriminate; repeat constructor; discriminate.
    + intros cats [H1 [H2 H3]]. repeat split.
      * now apply update_default_distinct.
      * apply update_default_not_nil.
      * apply (update_default_Forall String.eqb (fun l : list order => l <> [])).
        -- discriminate.
        -- intros l _. destruct l; discriminate.
        -- exact H3.
    + exact Hg.
Qed.

Lemma entries_of_append_order (g : list (pyval * list (string * list order)))
    (c : pyval) (ct : string) (e : order) :
  Permutation (entries_of (append_order g c ct e)) (entries_of g ++ [e]).
Proof.
  unfold entries_of, append_order.
  apply (update_default_entries key_eqb
           (fun cats : list (string * list order) => concat (map snd cats)) e).
  - reflexivity.
  - intros cats.
    apply (update_default_entries String.eqb (fun l : list order => l) e).
    + reflexivity.
    + reflexivity.
Qed.

Lemma parse_order_identified (o : pydict) (r : option (pyval * string * order)) :
  parse_order self float_of_str o = Ok r ->
  identified o = match r with Some _ => true | None => false end.
Proof.
  unfold parse_order, identified.
  destruct (truthy (customer_of o)), (truthy (product_of o)); simpl;
    try (intros H; injection H as <-; reflexivity).
  destruct (product_of o); try discriminate.
  destruct (py_float float_of_str (quantity_input o)); [| discriminate].
  destruct (py_float float_of_str (value_input o)); [| discriminate].
  simpl. intros H. injection H as <-. reflexivity.
Qed.

Lemma parse_orders_into_spec (orders : list pydict) :
  forall g g',
  parse_orders_into self float_of_str g orders = Ok g' ->
  (forall cid cat,
     group_of g' cid cat
     = group_of g cid cat
       ++ map snd (List.filter (in_group cid cat)
                     (parsed_records self float_of_str orders))) /\
  Permutation (entries_of g')
    (entries_of g ++ map snd (parsed_records self float_of_str orders)) /\
  length (parsed_records self float_of_str orders)
  = length (List.filter identified orders) /\
  (well_grouped g -> well_grouped g').
Proof.
  induction orders as [| o orders IH]; intros g g' H; simpl in H.
  - injection H as <-. simpl. rewrite !app_nil_r.
    split; [intros; simpl; now rewrite app_nil_r |].
    split; [reflexivity |]. split; [reflexivity | auto].
  - bind_ok H. pose proof (parse_order_identified o a E) as Hid.
    unfold parsed_records. simpl. rewrite E. fold (parsed_records self float_of_str orders).
    rewrite Hid.
    destruct a as [[[c ct] e] |].
    + destruct (IH _ _ H) as [Hgrp [Hperm [Hlen Hwell]]].
      split; [| split; [| split]].
      * intros cid cat. rewrite Hgrp, group_of_append_order. simpl.
        destruct (in_group cid cat (c, ct, e)); simpl; now rewrite <- app_assoc.
      * rewrite Hperm, entries_of_append_order. simpl. now rewrite <- app_assoc.
      * simpl. now rewrite Hlen.
      * intros Hw. now apply Hwell, append_order_well_grouped.
    + destruct (IH _ _ H) as [Hgrp [Hperm [Hlen Hwell]]].
      split; [exact Hgrp |]. split; [exact Hperm |]. split; [exact Hlen | exact Hwell].
Qed.

End Grouping.

(** X2.  After [parse_orders], the list stored for a customer and a
    category holds exactly the entries of the kept records of that
    customer whose product normalises to that category, in their input
    order. *)
Theorem grouping_lookup (self : engine) (float_of_str : string -> option Q)
    (orders : list pydict) (g : list (pyval * list (string * list order)))
    (customer_id : pyval) (category : string) :
  parse_orders self float_of_str orders = Ok g ->
  group_of g customer_id category
  = map snd (List.filter (in_group customer_id category)
               (parsed_records self float_of_str orders)).
Proof.
  intros H.
  destruct (parse_orders_into_spec self float_of_str orders [] g H) as [Hgrp _].
  now rewrite Hgrp.
Qed.

Lemma grouping_lookup_witness :
  group_of chicken_grouped (PStr "C1") "chicken"
  = map snd (List.filter (in_group (PStr "C1") "chicken")
               (parsed_records default_engine PyLib.float_of_decimal chicken_batch)).
Proof.
  apply (grouping_lookup default_engine PyLib.float_of_decimal chicken_batch).
  vm_compute. reflexivity.
Defined.

(** X3.  Grouping neither loses nor duplicates a record: the entries
    of all groups are the entries of the kept records, up to order, and
    their number is the number of records that have a customer and a
    product. *)
Theorem grouping_conserves_records (self : engine)
    (float_of_str : string -> option Q) (orders : list pydict)
    (g : list (pyval * list (string * list order))) :
  parse_orders self float_of_str orders = Ok g ->
  Permutation (entries_of g) (map snd (parsed_records self float_of_str orders)) /\
  length (entries_of g) = length (List.filter identified orders).
Proof.
  intros H.
  destruct (parse_orders_into_spec self float_of_str orders [] g H)
    as [_ [Hperm [Hlen _]]].
  simpl in Hperm. split; [exact Hperm |].
  now rewrite (Permutation_length Hperm), length_map.
Qed.

Lemma grouping_conserves_records_witness :
  Permutation (entries_of chicken_grouped)
    (map snd (parsed_records default_engine PyLib.float_of_decimal chicken_batch)) /\
  length (entries_of chicken_grouped) = length (List.filter identified chicken_batch).
Proof.
  apply (grouping_conserves_records default_engine PyLib.float_of_decimal chicken_batch).
  vm_compute. reflexivity.
Defined.

(** X4.  In the grouped orders no customer occurs twice (numbers and
    booleans compared by value), no category occurs twice under a
    customer, every customer has a category and every group has an
    order. *)
Theorem grouping_keys_distinct (self : engine)
    (float_of_str : string -> option Q) (orders : list pydict)
    (g : list (pyval * list (string * list order))) :
  parse_orders self float_of_str orders = Ok g ->
  distinct_keys key_eqb (map fst g) /\
  List.Forall (fun c => distinct_keys String.eqb (map fst (snd c)) /\
                        snd c <> [] /\
                        List.Forall (fun grp => snd grp <> []) (snd c)) g.
Proof.
  intros H.
  destruct (parse_orders_into_spec self float_of_str orders [] g H)
    as [_ [_ [_ Hwell]]].
  apply Hwell. split; constructor.
Qed.

Lemma grouping_keys_distinct_witness :
  distinct_keys key_eqb (map fst chicken_grouped) /\
  List.Forall (fun c => distinct_keys String.eqb (map fst (snd c)) /\
                        snd c <> [] /\
                        List.Forall (fun grp => snd grp <> []) (snd c))
    chicken_grouped.
Proof.
  apply (grouping_keys_distinct default_engine PyLib.float_of_decimal chicken_batch).
  vm_compute. reflexivity.
Defined.

(** *** The two windows *)

Section Windows.

Variable self : engine.
Variable fromisoformat : string -> option Z.

Lemma current_window_spec (start : Z) (orders : list order) :
  forall seen recent last recent' last',
  latest_of fromisoformat seen last ->
  current_window fromisoformat start orders recent last = Ok (recent', last') ->
  recent' = recent ++ List.filter (dated_from fromisoformat start) orders /\
  latest_of fromisoformat (seen ++ orders) last'.
Proof.
  induction orders as [| o orders IH]; intros seen recent last recent' last' Hinv H;
    simpl in H.
  - injection H as <- <-. simpl. now rewrite !app_nil_r.
  - unfold parse_date in H. unfold dated_from at 1. unfold order_time at 1. simpl.
    destruct (date o) as [| b | q | s] eqn:Hd; simpl in H; try discriminate.
    replace (seen ++ o :: orders) with ((seen ++ [o]) ++ orders)
      by now rewrite <- app_assoc.
    destruct (fromisoformat (replace_Z s)) as [t |] eqn:Ht.
    + apply IH with (seen := seen ++ [o]) in H.
      * destruct H as [-> Hl]. split; [| exact Hl].
        destruct (start <=? t)%Z; simpl; [now rewrite <- app_assoc | reflexivity].
      * destruct last as [l |]; simpl in Hinv |- *.
        -- destruct Hinv as [tl [Htl [[o' [Ho' Hdo']] Hmax]]]. rewrite Htl.
           destruct (Z.ltb_spec tl t).
           ++ exists t. split; [exact Ht |]. split.
              ** exists o. split; [apply in_or_app; right; now left | exact Hd].
              ** intros o2 t2 Hin Ht2. apply in_app_or in Hin as [Hin | [<- | []]].
                 --- specialize (Hmax o2 t2 Hin Ht2). lia.
                 --- unfold order_time in Ht2. rewrite Hd, Ht in Ht2.
                     injection Ht2 as <-. lia.
           ++ exists tl. split; [exact Htl |]. split.
              ** exists o'. split; [apply in_or_app; now left | exact Hdo'].
              ** intros o2 t2 Hin Ht2. apply in_app_or in Hin as [Hin | [<- | []]].
                 --- exact (Hmax o2 t2 Hin Ht2).
                 --- unfold order_time in Ht2. rewrite Hd, Ht in Ht2.
                     injection Ht2 as <-. lia.
        -- exists t. split; [exact Ht |]. split.
           ++ exists o. split; [apply in_or_app; right; now left | exact Hd].
           ++ intros o2 t2 Hin Ht2. apply in_app_or in Hin as [Hin | [<- | []]].
              ** rewrite (Hinv o2 Hin) in Ht2. discriminate.
              ** unfold order_time in Ht2. rewrite Hd, Ht in Ht2.
                 injection Ht2 as <-. lia.
    + apply IH with (seen := seen ++ [o]) in H; [exact H |].
      assert (Ho : order_time fromisoformat o = None)
        by (unfold order_time; now rewrite Hd).
      destruct last as [l |]; simpl in Hinv |- *.
      * destruct Hinv as [tl [Htl [[o' [Ho' Hdo']] Hmax]]].
        exists tl. split; [exact Htl |]. split.
        -- exists o'. split; [apply in_or_app; now left | exact Hdo'].
        -- intros o2 t2 Hin Ht2. apply in_app_or in Hin as [Hin | [<- | []]].
           ++ exact (Hmax o2 t2 Hin Ht2).
           ++ rewrite Ho in Ht2. discriminate.
      * intros o2 Hin. apply in_app_or in Hin as [Hin | [<- | []]]; auto.
Qed.

Lemma baseline_window_spec (start stop : Z) (orders l : list order) :
  baseline_window fromisoformat start stop orders = Ok l ->
  l = List.filter (dated_between fromisoformat start stop) orders.
Proof.
  revert l. induction orders as [| o orders IH]; intros l H; simpl in H.
  - now injection H as <-.
  - bind_ok H. bind_ok H. injection H as <-. rewrite (IH _ eq_refl).
    assert (Ha : a = order_time fromisoformat o).
    { unfold parse_date in E. unfold order_time.
      destruct (date o); try discriminate. now injection E as <-. }
    assert (Hb : dated_between fromisoformat start stop o
                 = match a with
                   | Some t => ((start <=? t) && (t <=? stop))%Z%bool
                   | None => false
                   end)
      by (unfold dated_between; now rewrite <- Ha).
    cbn [List.filter]. rewrite Hb.
    destruct a as [t |]; [| reflexivity].
    destruct ((start <=? t)%Z && (t <=? stop)%Z)%bool; reflexivity.
Qed.

End Windows.

Lemma current_rates_window_aux (fromisoformat : string -> option Z)
    (orders : list order) (ref : Z) (cq cv : Q) (last : option string) :
  calculate_current fromisoformat orders ref = Ok (cq, cv, last) ->
  cq = py_sum (map quantity
                 (List.filter (dated_from fromisoformat (ref - 4 * week_us)) orders))
       / 4 /\
  cv = py_sum (map value
                 (List.filter (dated_from fromisoformat (ref - 4 * week_us)) orders))
       / 4.
Proof.
  intros H. unfold calculate_current in H. bind_ok H. destruct a as [rec l].
  injection H as <- <- _.
  assert (Hnone : latest_of fromisoformat [] None) by (intros o []).
  destruct (current_window_spec fromisoformat _ orders [] [] None rec l Hnone E)
    as [-> _].
  split; reflexivity.
Qed.

(** X5.  The last order date that [calculate_current] returns is the
    date string of an order whose time stamp is the latest among the
    orders whose date parses, whether or not it lies in the current
    window; it is [None] exactly when no date parses. *)
Theorem last_order_is_latest (fromisoformat : string -> option Z)
    (orders : list order) (reference_date : Z)
    (current_qty current_value : Q) (last : option string) :
  calculate_current fromisoformat orders reference_date
  = Ok (current_qty, current_value, last) ->
  latest_of fromisoformat orders last.
Proof.
  unfold calculate_current. intros H. bind_ok H. destruct a as [recent l].
  injection H as _ _ <-.
  apply (current_window_spec fromisoformat _ orders [] [] None recent l) in E.
  - exact (proj2 E).
  - intros o [].
Qed.

Lemma last_order_is_latest_witness :
  latest_of PyLib.fromisoformat_date chicken_orders (Some "2024-03-20"%string).
Proof.
  apply (last_order_is_latest PyLib.fromisoformat_date chicken_orders ts_2024_03_27
           (80 / 4) (80 / 4)).
  vm_compute. reflexivity.
Defined.

(** X6.  The current rates are the sums over the orders dated at or
    after the reference date minus four weeks, divided by 4.  The window
    has no upper end: an order dated after the reference date is
    counted. *)
Theorem current_rates_from_window (fromisoformat : string -> option Z)
    (orders : list order) (reference_date : Z)
    (current_qty current_value : Q) (last : option string) :
  calculate_current fromisoformat orders reference_date
  = Ok (current_qty, current_value, last) ->
  let recent :=
    List.filter (dated_from fromisoformat (reference_date - 4 * week_us)) orders in
  current_qty = py_sum (map quantity recent) / 4 /\
  current_value = py_sum (map value recent) / 4 /\
  forall o t, In o orders -> order_time fromisoformat o = Some t ->
              (reference_date <= t)%Z -> In o recent.
Proof.
  intros H recent. unfold calculate_current in H. bind_ok H. destruct a as [rec l].
  injection H as <- <- _.
  assert (Hnone : latest_of fromisoformat [] None) by (intros o []).
  destruct (current_window_spec fromisoformat _ orders [] [] None rec l Hnone E)
    as [-> _].
  simpl. fold recent. split; [reflexivity |].
  split; [reflexivity |].
  intros o t Hin Ht Hle. apply filter_In. split; [exact Hin |].
  unfold dated_from. rewrite Ht. apply Z.leb_le. unfold week_us. lia.
Qed.

Lemma current_rates_from_window_witness :
  (80 / 4 = py_sum (map quantity
                      (List.filter (dated_from PyLib.fromisoformat_date
                                      (ts_2024_03_27 - 4 * week_us))
                                   chicken_orders)) / 4)%Q.
Proof.
  refine (proj1 (current_rates_from_window PyLib.fromisoformat_date chicken_orders
                   ts_2024_03_27 (80 / 4) (80 / 4) (Some "2024-03-20"%string) _)).
  vm_compute. reflexivity.
Defined.

(** X7.  When at least one order is dated inside the baseline window
    (from the reference date minus [lookback_weeks] to the reference
    date minus [lookback_weeks - baseline_weeks], both ends included),
    the baseline rates are the sums over those orders divided by
    [max(1, baseline_weeks)]; the other orders do not enter.  When none
    is, the rates come from the first half of the list if it has more
    than four orders and from the whole list otherwise. *)
Theorem baseline_rates_from_window (self : engine)
    (fromisoformat : string -> option Z) (orders : list order)
    (reference_date : Z) (baseline_qty baseline_value : Q) :
  calculate_baseline self fromisoformat orders reference_date
  = Ok (baseline_qty, baseline_value) ->
  let window :=
    List.filter
      (dated_between fromisoformat
         (reference_date - lookback_weeks self * week_us)
         (reference_date - (lookback_weeks self - baseline_weeks self) * week_us))
      orders in
  let weeks := inject_Z (Z.max 1 (baseline_weeks self)) in
  let used :=
    match window with
    | [] => if Nat.ltb 4 (length orders)
            then firstn (Nat.div (length orders) 2) orders
            else orders
    | _ => window
    end in
  baseline_qty = py_sum (map quantity used) / weeks /\
  baseline_value = py_sum (map value used) / weeks /\
  (orders <> [] -> used <> []).
Proof.
  intros H window weeks used. unfold calculate_baseline in H. bind_ok H.
  apply baseline_window_spec in E. fold window in E. subst a.
  injection H as <- <-. split; [reflexivity |]. split; [reflexivity |].
  intros Hne. unfold used. destruct window as [| w ws]; [| discriminate].
  destruct (Nat.ltb_spec 4 (length orders)) as [Hlen | Hlen].
  - intros Hnil. apply (f_equal (@length order)) in Hnil.
    rewrite length_firstn in Hnil. change (length (@nil order)) with 0%nat in Hnil.
    assert (2 <= Nat.div (length orders) 2)%nat
      by (apply Nat.div_le_lower_bound; lia).
    lia.
  - exact Hne.
Qed.

Lemma baseline_rates_from_window_witness :
  (800 / inject_Z (Z.max 1 8)
   = py_sum (map quantity
               match List.filter
                       (dated_between PyLib.fromisoformat_date
                          (ts_2024_03_27 - 12 * week_us)
                          (ts_2024_03_27 - (12 - 8) * week_us))
                       chicken_orders with
               | [] => if Nat.ltb 4 (length chicken_orders)
                       then firstn (Nat.div (length chicken_orders) 2) chicken_orders
                       else chicken_orders
               | w :: ws => w :: ws
               end)
     / inject_Z (Z.max 1 8))%Q.
Proof.
  refine (proj1 (baseline_rates_from_window default_engine PyLib.fromisoformat_date
                   chicken_orders ts_2024_03_27 (800 / inject_Z (Z.max 1 8))
                   (800 / inject_Z (Z.max 1 8)) _)).
  vm_compute. reflexivity.
Defined.

(** *** When [analyze] returns *)

Lemma is_ok_bind {A B : Type} (r : result A) (k : A -> result B) :
  is_ok (Py.bind r k) = true <-> exists a, r = Ok a /\ is_ok (k a) = true.
Proof.
  destruct r as [a | e]; simpl.
  - split; [eauto | intros [a' [Ha H]]; now injection Ha as ->].
  - split; [discriminate | intros [a' [Ha _]]; discriminate].
Qed.

Section Returns.

Variable self : engine.
Variable fromisoformat : string -> option Z.
Variable float_of_str : string -> option Q.

Lemma baseline_window_ok (start stop : Z) (orders : list order) :
  is_ok (baseline_window fromisoformat start stop orders)
  = forallb has_date_string orders.
Proof.
  induction orders as [| o orders IH]; simpl; [reflexivity |].
  unfold has_date_string at 1, parse_date.
  destruct (date o); simpl; try reflexivity.
  destruct (baseline_window fromisoformat start stop orders); simpl in *;
    now rewrite <- IH.
Qed.

Lemma current_window_ok (start : Z) (orders : list order) :
  forall recent last,
  is_ok (current_window fromisoformat start orders recent last)
  = forallb has_date_string orders.
Proof.
  induction orders as [| o orders IH]; intros recent last; simpl; [reflexivity |].
  unfold has_date_string at 1, parse_date.
  destruct (date o); simpl; try reflexivity.
  destruct (fromisoformat (replace_Z s)); apply IH.
Qed.

Lemma sortable_strings (orders : list order) :
  forallb has_date_string orders = true -> sortable (map date orders) = true.
Proof.
  destruct orders as [| o orders]; [reflexivity |]. simpl.
  unfold has_date_string at 1. destruct (date o) as [| | | s]; try discriminate.
  simpl. induction orders as [| o' orders IH]; simpl; [reflexivity |].
  unfold has_date_string at 1. destruct (date o'); try discriminate. simpl. exact IH.
Qed.

Lemma forallb_sort_desc (f : order -> bool) (l : list order) :
  forallb f (sort_desc l) = forallb f l.
Proof.
  apply eq_true_iff_eq. rewrite !forallb_forall.
  split; intros H x Hx; apply H; now apply ChurnProps.sort_desc_In.
Qed.

Lemma analyze_category_ok (cid : pyval) (cat : string) (cat_orders : list order)
    (ref : Z) :
  is_ok (analyze_category self fromisoformat cid cat cat_orders ref)
  = forallb has_date_string cat_orders.
Proof.
  unfold analyze_category, sort_by_date.
  destruct (forallb has_date_string cat_orders) eqn:Hall.
  - rewrite (sortable_strings _ Hall). simpl.
    assert (Hs : forallb has_date_string (sort_desc cat_orders) = true)
      by now rewrite forallb_sort_desc.
    unfold calculate_baseline, calculate_current.
    pose proof (baseline_window_ok
                  (ref - lookback_weeks self * week_us)
                  (ref - (lookback_weeks self - baseline_weeks self) * week_us)
                  (sort_desc cat_orders)) as Hb.
    pose proof (current_window_ok (ref - 4 * week_us) (sort_desc cat_orders) [] None)
      as Hc.
    rewrite Hs in Hb, Hc.
    destruct (baseline_window _ _ _ _); [| discriminate].
    destruct (current_window _ _ _ _ _); [| discriminate]. reflexivity.
  - destruct (sortable (map date cat_orders)); [| reflexivity]. simpl.
    assert (Hs : forallb has_date_string (sort_desc cat_orders) = false)
      by now rewrite forallb_sort_desc.
    unfold calculate_baseline.
    pose proof (baseline_window_ok
                  (ref - lookback_weeks self * week_us)
                  (ref - (lookback_weeks self - baseline_weeks self) * week_us)
                  (sort_desc cat_orders)) as Hb.
    rewrite Hs in Hb.
    destruct (baseline_window _ _ _ _); [discriminate | reflexivity].
Qed.

Lemma analyze_categories_ok (cid : pyval) (cats : list (string * list order))
    (ref : Z) :
  is_ok (analyze_categories self fromisoformat cid cats ref)
  = forallb has_date_string (concat (map snd cats)).
Proof.
  induction cats as [| [cat os] cats IH]; simpl; [reflexivity |].
  rewrite forallb_app. rewrite <- IH, <- (analyze_category_ok cid cat os ref).
  destruct (analyze_category self fromisoformat cid cat os ref); simpl; [| reflexivity].
  destruct (analyze_categories self fromisoformat cid cats ref); reflexivity.
Qed.

Lemma analyze_customers_ok (g : list (pyval * list (string * list order))) (ref : Z) :
  is_ok (analyze_customers self fromisoformat g ref)
  = forallb has_date_string (entries_of g).
Proof.
  induction g as [| [cid cats] g IH]; simpl; [reflexivity |].
  unfold entries_of. simpl. fold (entries_of g).
  rewrite forallb_app. rewrite <- IH, <- (analyze_categories_ok cid cats ref).
  destruct (analyze_categories self fromisoformat cid cats ref); simpl; [| reflexivity].
  destruct (analyze_customers self fromisoformat g ref); reflexivity.
Qed.

End Returns.

(** In the model, where no date arithmetic overflows, the converse
    holds as well. *)
Lemma analyze_ok_iff (self : engine)
    (fromisoformat : string -> option Z) (float_of_str : string -> option Q)
    (now : Z) (orders : list pydict) (reference_date : option string) :
  is_ok (analyze self fromisoformat float_of_str now orders reference_date) = true
  <->
  reference_ok fromisoformat reference_date = true /\
  exists g, parse_orders self float_of_str orders = Ok g /\
            forallb has_date_string (entries_of g) = true.
Proof.
  unfold analyze. rewrite is_ok_bind. split.
  - intros [ref [Href H]]. apply is_ok_bind in H as [g [Hg H]].
    apply is_ok_bind in H as [r [Hr _]]. split.
    + unfold reference_ok. destruct reference_date as [s |]; [| reflexivity].
      destruct (String.eqb s ""); [reflexivity |].
      destruct (fromisoformat (replace_Z s)); [reflexivity | discriminate].
    + exists g. split; [exact Hg |].
      rewrite <- (analyze_customers_ok self fromisoformat g ref), Hr. reflexivity.
  - intros [Href [g [Hg Hall]]].
    assert (Hex : exists ref,
              match reference_date with
              | Some s =>
                  if String.eqb s "" then Ok now
                  else match fromisoformat (replace_Z s) with
                       | Some d => Ok d
                       | None => Raise ValueError
                       end
              | None => Ok now
              end = Ok ref).
    { unfold reference_ok in Href. destruct reference_date as [s |]; [| eauto].
      destruct (String.eqb s ""); [eauto |].
      destruct (fromisoformat (replace_Z s)); [eauto | discriminate]. }
    destruct Hex as [ref Hr]. exists ref. split; [exact Hr |].
    apply is_ok_bind. exists g. split; [exact Hg |].
    pose proof (analyze_customers_ok self fromisoformat g ref) as Hc.
    rewrite Hall in Hc.
    destruct (analyze_customers self fromisoformat g ref); [reflexivity | discriminate].
Qed.

(** X8.  [analyze] returns a report only when the reference date is
    absent, empty or parses, grouping succeeds, and every grouped entry
    has a string as its date: a kept record that has neither [date] nor
    [order_date] makes the whole run raise. *)
Theorem analyze_returns_only_if (self : engine)
    (fromisoformat : string -> option Z) (float_of_str : string -> option Q)
    (now : Z) (orders : list pydict) (reference_date : option string) :
  is_ok (analyze self fromisoformat float_of_str now orders reference_date) = true ->
  reference_ok fromisoformat reference_date = true /\
  exists g, parse_orders self float_of_str orders = Ok g /\
            forallb has_date_string (entries_of g) = true.
Proof.
  apply (proj1 (analyze_ok_iff self fromisoformat float_of_str now orders
                  reference_date)).
Qed.

(** The run on [chicken_batch] returns. *)
Lemma analyze_returns_only_if_witness :
  reference_ok PyLib.fromisoformat_date (Some "2024-03-27"%string) = true /\
  exists g, parse_orders default_engine PyLib.float_of_decimal chicken_batch = Ok g /\
            forallb has_date_string (entries_of g) = true.
Proof.
  apply (analyze_returns_only_if default_engine PyLib.fromisoformat_date
           PyLib.float_of_decimal 0 chicken_batch (Some "2024-03-27"%string)).
  vm_compute. reflexivity.
Defined.

(** *** Alerts and profiles *)

Section AlertsOfProfiles.

Variable self : engine.
Variable fromisoformat : string -> option Z.
Variable float_of_str : string -> option Q.

Lemma analyze_category_alert (cid : pyval) (cat : string) (os : list order)
    (ref : Z) (p : profile) (oa : option alert) :
  analyze_category self fromisoformat cid cat os ref = Ok (p, oa) ->
  p_customer_id p = cid /\ p_category p = cat /\
  p_trend p = detect_trend self fromisoformat (baseline_weekly_qty p)
                (current_weekly_qty p) (last_order_date p) ref /\
  alert_of self fromisoformat ref p = match oa with Some a => [a] | None => [] end.
Proof.
  unfold analyze_category. intros H. bind_ok H. bind_ok H. bind_ok H.
  injection H as <- <-. simpl. repeat split; try reflexivity.
  unfold alert_of. simpl.
  destruct (detect_trend self fromisoformat (fst a0) (fst (fst a1)) (snd a1) ref);
    reflexivity.
Qed.

Lemma analyze_categories_alerts (P : profile -> Prop) (cid : pyval)
    (cats : list (string * list order)) (ref : Z)
    (ps : list (string * profile)) (als : list alert) :
  (forall cat os p oa, In (cat, os) cats ->
     analyze_category self fromisoformat cid cat os ref = Ok (p, oa) -> P p) ->
  analyze_categories self fromisoformat cid cats ref = Ok (ps, als) ->
  List.Forall P (map snd ps) /\
  List.Forall (fun p => p_customer_id p = cid) (map snd ps) /\
  als = flat_map (alert_of self fromisoformat ref) (map snd ps).
Proof.
  revert ps als. induction cats as [| [cat os] cats IH]; intros ps als HP H; simpl in H.
  - injection H as <- <-. repeat constructor.
  - bind_ok H. bind_ok H. injection H as <- <-. destruct a as [p oa].
    destruct a0 as [ps' als'].
    destruct (IH ps' als') as [H1 [H2 H3]]; [| reflexivity |].
    { intros cat' os' p' oa' Hin. apply HP. now right. }
    destruct (analyze_category_alert cid cat os ref p oa E) as [Hc [_ [_ Ha]]].
    simpl. split; [| split].
    + constructor; [| exact H1]. apply (HP cat os p oa); [now left | exact E].
    + constructor; [exact Hc | exact H2].
    + rewrite Ha, <- H3. destruct oa; reflexivity.
Qed.

Lemma analyze_customers_alerts (P : profile -> Prop)
    (g : list (pyval * list (string * list order))) (ref : Z)
    (ps : list (pyval * list (string * profile))) (als : list alert) :
  (forall cid cats cat os p oa, In (cid, cats) g -> In (cat, os) cats ->
     analyze_category self fromisoformat cid cat os ref = Ok (p, oa) -> P p) ->
  analyze_customers self fromisoformat g ref = Ok (ps, als) ->
  List.Forall P (profiles_of ps) /\
  List.Forall (fun p => In (p_customer_id p) (map fst g)) (profiles_of ps) /\
  map fst ps = map fst g /\
  als = flat_map (alert_of self fromisoformat ref) (profiles_of ps).
Proof.
  revert ps als. induction g as [| [cid cats] g IH]; intros ps als HP H; simpl in H.
  - injection H as <- <-. repeat constructor.
  - bind_ok H. bind_ok H. injection H as <- <-. destruct a as [cps cals].
    destruct a0 as [ps' als'].
    destruct (IH ps' als') as [H1 [H2 [H3 H4]]]; [| reflexivity |].
    { intros cid' cats' cat os p oa Hin Hin2 Hc.
      apply (HP cid' cats' cat os p oa); [now right | exact Hin2 | exact Hc]. }
    destruct (analyze_categories_alerts P cid cats ref cps cals) as [G1 [G2 G3]];
      [| exact E |].
    { intros cat os p oa Hin Hc.
      apply (HP cid cats cat os p oa); [now left | exact Hin | exact Hc]. }
    unfold profiles_of. simpl. fold (profiles_of ps').
    split; [| split; [| split]].
    + apply Forall_app. split; assumption.
    + apply Forall_app. split.
      * eapply List.Forall_impl; [| exact G2]. intros p Hp. left. now symmetry.
      * eapply List.Forall_impl; [| exact H2]. intros p Hp. now right.
    + now rewrite H3.
    + rewrite flat_map_app, <- G3, <- H4. reflexivity.
Qed.

End AlertsOfProfiles.

(** *** Rounding *)

Lemma round_half_even_lower (m : Z) (x : Q) :
  inject_Z m <= x -> (m <= round_half_even x)%Z.
Proof.
  intros H. unfold round_half_even.
  assert (Hf : (m <= Qfloor x)%Z).
  { rewrite <- (Qfloor_Z m). now apply Qfloor_resp_le. }
  destruct (x - inject_Z (Qfloor x) ?= 1 # 2); [destruct (Z.even (Qfloor x)) | |]; lia.
Qed.

Lemma round_half_even_upper (m : Z) (x : Q) :
  x <= inject_Z m -> (round_half_even x <= m)%Z.
Proof.
  intros H. unfold round_half_even.
  pose proof (Qfloor_le x) as Hle.
  assert (Hf : (Qfloor x <= m)%Z).
  { rewrite <- (Qfloor_Z m). now apply Qfloor_resp_le. }
  destruct (Z.eq_dec (Qfloor x) m) as [Heq | Hne].
  - assert (Hx : x - inject_Z (Qfloor x) <= 0) by (rewrite Heq; lra).
    destruct (x - inject_Z (Qfloor x) ?= 1 # 2) eqn:Hc.
    + apply Qeq_alt in Hc. lra.
    + lia.
    + apply Qgt_alt in Hc. lra.
  - destruct (x - inject_Z (Qfloor x) ?= 1 # 2); [destruct (Z.even (Qfloor x)) | |]; lia.
Qed.

Lemma scale_pos (n : nat) : 0 < inject_Z (10 ^ Z.of_nat n).
Proof.
  change 0 with (inject_Z 0). rewrite <- Zlt_Qlt. apply Z.pow_pos_nonneg; lia.
Qed.

Lemma py_round_lower (m : Z) (x : Q) (n : nat) :
  inject_Z m / inject_Z (10 ^ Z.of_nat n) <= x ->
  inject_Z m / inject_Z (10 ^ Z.of_nat n) <= py_round x n.
Proof.
  intros H. unfold py_round. pose proof (scale_pos n) as Hs.
  set (s := inject_Z (10 ^ Z.of_nat n)) in *.
  assert (Hm : inject_Z m <= x * s).
  { assert (E : inject_Z m == inject_Z m / s * s) by (field; lra).
    rewrite E. apply Qmult_le_compat_r; [exact H | lra]. }
  unfold Qdiv. apply Qmult_le_compat_r.
  - rewrite <- Zle_Qle. now apply round_half_even_lower.
  - apply Qlt_le_weak, Qinv_lt_0_compat. exact Hs.
Qed.

Lemma py_round_upper (m : Z) (x : Q) (n : nat) :
  x <= inject_Z m / inject_Z (10 ^ Z.of_nat n) ->
  py_round x n <= inject_Z m / inject_Z (10 ^ Z.of_nat n).
Proof.
  intros H. unfold py_round. pose proof (scale_pos n) as Hs.
  set (s := inject_Z (10 ^ Z.of_nat n)) in *.
  assert (Hm : x * s <= inject_Z m).
  { assert (E : inject_Z m == inject_Z m / s * s) by (field; lra).
    rewrite E. apply Qmult_le_compat_r; [exact H | lra]. }
  unfold Qdiv. apply Qmult_le_compat_r.
  - rewrite <- Zle_Qle. now apply round_half_even_upper.
  - apply Qlt_le_weak, Qinv_lt_0_compat. exact Hs.
Qed.

(** *** The alerts of a report *)

Lemma alert_before_false (a b : alert) :
  alert_before b a = false <-> alert_le a b.
Proof.
  unfold alert_before, alert_le.
  destruct (Z.ltb_spec (severity_order (a_severity b)) (severity_order (a_severity a)));
    simpl.
  - split; [discriminate | intros [H1 | [H1 _]]; lia].
  - destruct (Z.eqb_spec (severity_order (a_severity b)) (severity_order (a_severity a)));
      simpl.
    + destruct (ChurnProps.Qle_bool_spec (- estimated_lost_revenue a)
                  (- estimated_lost_revenue b)); simpl.
      * split; [intros _; right; split; [lia | lra] | reflexivity].
      * split; [discriminate | intros [H1 | [_ H1]]; [lia | lra]].
    + split; [intros _; left; lia | reflexivity].
Qed.

Lemma alert_before_true (a b : alert) :
  alert_before b a = true -> alert_le b a.
Proof.
  unfold alert_before, alert_le. intros H.
  apply orb_true_iff in H as [H | H].
  - left. now apply Z.ltb_lt.
  - apply andb_true_iff in H as [H1 H2]. right. split; [now apply Z.eqb_eq |].
    destruct (ChurnProps.Qle_bool_spec (- estimated_lost_revenue a)
                (- estimated_lost_revenue b)); [discriminate | lra].
Qed.

Lemma alert_le_trans (a b c : alert) : alert_le a b -> alert_le b c -> alert_le a c.
Proof.
  unfold alert_le. intros [H1 | [H1 H1']] [H2 | [H2 H2']].
  - left. lia.
  - left. lia.
  - left. lia.
  - right. split; [lia | lra].
Qed.

Lemma insert_alert_sorted (a : alert) (l : list alert) :
  StronglySorted alert_le l -> StronglySorted alert_le (insert_alert a l).
Proof.
  induction l as [| y l IH]; intros Hs; simpl.
  - repeat constructor.
  - inversion Hs as [| ? ? Hl Hy]; subst.
    destruct (alert_before y a) eqn:E.
    + constructor; [now apply IH |].
      apply List.Forall_forall. intros x Hx.
      apply ChurnProps.insert_alert_In in Hx as [-> | Hx].
      * now apply alert_before_true.
      * rewrite List.Forall_forall in Hy. now apply Hy.
    + apply alert_before_false in E. constructor; [exact Hs |].
      constructor; [exact E |].
      eapply List.Forall_impl; [| exact Hy]. intros x Hx.
      now apply (alert_le_trans a y x).
Qed.

Lemma sort_alerts_sorted (l : list alert) : StronglySorted alert_le (sort_alerts l).
Proof.
  induction l as [| a l IH]; simpl; [constructor | now apply insert_alert_sorted].
Qed.

Lemma insert_alert_perm (a : alert) (l : list alert) :
  Permutation (insert_alert a l) (a :: l).
Proof.
  induction l as [| y l IH]; simpl; [reflexivity |].
  destruct (alert_before y a); [| reflexivity].
  rewrite IH. apply perm_swap.
Qed.

Lemma sort_alerts_perm (l : list alert) : Permutation (sort_alerts l) l.
Proof.
  induction l as [| a l IH]; simpl; [reflexivity |].
  now rewrite insert_alert_perm, IH.
Qed.

Section Report.

Variable self : engine.
Variable fromisoformat : string -> option Z.
Variable float_of_str : string -> option Q.

Lemma analyze_inv (now : Z) (orders : list pydict) (reference_date : option string)
    (rep : report) :
  analyze self fromisoformat float_of_str now orders reference_date = Ok rep ->
  exists ref g ps als,
    reference_time fromisoformat now reference_date = Some ref /\
    parse_orders self float_of_str orders = Ok g /\
    analyze_customers self fromisoformat g ref = Ok (ps, als) /\
    alerts rep = sort_alerts als /\ customer_profiles rep = ps.
Proof.
  unfold analyze. intros H. bind_ok H. bind_ok H. bind_ok H.
  destruct a1 as [ps als]. injection H as <-.
  exists a, a0, ps, als. repeat split; try assumption.
  unfold reference_time. destruct reference_date as [s |]; [| congruence].
  destruct (String.eqb s ""); [congruence |].
  destruct (fromisoformat (replace_Z s)); [congruence | discriminate].
Qed.

Lemma calculate_current_nonneg (orders : list order) (ref : Z) (cq cv : Q)
    (last : option string) :
  (forall o, In o orders -> 0 <= quantity o) ->
  calculate_current fromisoformat orders ref = Ok (cq, cv, last) ->
  0 <= cq.
Proof.
  intros Hq H.
  destruct (current_rates_window_aux fromisoformat orders ref cq cv last H) as [-> _].
  apply Qle_shift_div_l; [reflexivity |]. rewrite Qmult_0_l.
  apply ChurnProps.py_sum_nonneg, List.Forall_forall.
  intros q Hin. apply in_map_iff in Hin as [o [<- Ho]]. apply Hq.
  now apply filter_In in Ho as [Ho _].
Qed.

End Report.

(** X9.  The alerts of a report come out in the order of their sort
    key: of two alerts the earlier one has the more urgent severity, or
    the same severity and an estimated lost revenue that is not
    smaller. *)
Theorem alerts_sorted_by_urgency (self : engine)
    (fromisoformat : string -> option Z) (float_of_str : string -> option Q)
    (now : Z) (orders : list pydict) (reference_date : option string)
    (rep : report) :
  analyze self fromisoformat float_of_str now orders reference_date = Ok rep ->
  StronglySorted alert_le (alerts rep).
Proof.
  intros H.
  destruct (analyze_inv self fromisoformat float_of_str now orders reference_date
              rep H) as [ref [g [ps [als [_ [_ [_ [-> _]]]]]]]].
  apply sort_alerts_sorted.
Qed.

Lemma alerts_sorted_by_urgency_witness :
  alert_severities (run two_alert_batch "2024-03-27") = [Critical; Warning] /\
  match run two_alert_batch "2024-03-27" with
  | Ok rep => StronglySorted alert_le (alerts rep)
  | Raise _ => False
  end.
Proof.
  split; [vm_compute; reflexivity |].
  destruct (run two_alert_batch "2024-03-27") as [rep | e] eqn:E.
  - exact (alerts_sorted_by_urgency default_engine PyLib.fromisoformat_date
             PyLib.float_of_decimal 0 two_alert_batch (Some "2024-03-27"%string)
             rep E).
  - assert (Hok : is_ok (run two_alert_batch "2024-03-27") = true)
      by (vm_compute; reflexivity).
    rewrite E in Hok. discriminate Hok.
Defined.

(** X10.  The alerts of a report are, up to order, the alerts built
    from its profiles: one for each profile whose trend is stopped or
    declining, none for the others.  So every alert has one of these two
    trends as its signal type, and there are as many alerts as such
    profiles. *)
Theorem alerts_match_profiles (self : engine)
    (fromisoformat : string -> option Z) (float_of_str : string -> option Q)
    (now : Z) (orders : list pydict) (reference_date : option string)
    (rep : report) :
  analyze self fromisoformat float_of_str now orders reference_date = Ok rep ->
  exists ref,
    reference_time fromisoformat now reference_date = Some ref /\
    Permutation (alerts rep)
      (flat_map (alert_of self fromisoformat ref)
         (profiles_of (customer_profiles rep))) /\
    (forall a, In a (alerts rep) -> unhealthy (signal_type a) = true) /\
    length (alerts rep)
    = length (List.filter (fun p => unhealthy (p_trend p))
                (profiles_of (customer_profiles rep))).
Proof.
  intros H.
  destruct (analyze_inv self fromisoformat float_of_str now orders reference_date
              rep H) as [ref [g [ps [als [Href [_ [Hc [-> ->]]]]]]]].
  destruct (analyze_customers_alerts self fromisoformat (fun _ => True) g ref ps als)
    as [_ [_ [_ Hals]]]; [auto | exact Hc |].
  exists ref. split; [exact Href |].
  assert (Hperm : Permutation (sort_alerts als)
                    (flat_map (alert_of self fromisoformat ref) (profiles_of ps)))
    by (rewrite sort_alerts_perm, Hals; reflexivity).
  split; [exact Hperm |]. split.
  - intros a Ha. apply (Permutation_in _ Hperm) in Ha.
    apply in_flat_map in Ha as [p [_ Hp]]. unfold alert_of in Hp.
    destruct (unhealthy (p_trend p)) eqn:Hu; [| destruct Hp].
    destruct Hp as [<- | []]. exact Hu.
  - rewrite (Permutation_length Hperm). clear.
    induction (profiles_of ps) as [| p l IH]; simpl; [reflexivity |].
    unfold alert_of at 1. destruct (unhealthy (p_trend p)); simpl; now rewrite IH.
Qed.

Lemma alerts_match_profiles_witness :
  match run chicken_batch "2024-03-27" with
  | Ok rep =>
      length (alerts rep)
      = length (List.filter (fun p => unhealthy (p_trend p))
                  (profiles_of (customer_profiles rep)))
  | Raise _ => False
  end.
Proof.
  destruct (run chicken_batch "2024-03-27") as [rep | e] eqn:E.
  - destruct (alerts_match_profiles default_engine PyLib.fromisoformat_date
                PyLib.float_of_decimal 0 chicken_batch (Some "2024-03-27"%string)
                rep E) as [ref [_ [_ [_ Hlen]]]].
    exact Hlen.
  - assert (Hok : is_ok (run chicken_batch "2024-03-27") = true)
      by (vm_compute; reflexivity).
    rewrite E in Hok. discriminate Hok.
Defined.

Lemma build_alert_competitor (lookback baseline : Z)
    (fromisoformat : string -> option Z) (p : profile) (bv cv : Q) (ref : Z) :
  let a := build_alert (init lookback baseline) fromisoformat p bv cv ref in
  competitor_likely a = true ->
  a_severity a = Critical /\ 70 <= drop_percentage a.
Proof.
  intros a. unfold a, build_alert. simpl. unfold detect_competitor_signal.
  intros H.
  assert (Hb : 0 < baseline_weekly_qty p /\
               current_weekly_qty p < baseline_weekly_qty p * 0.3).
  { destruct (p_trend p); try discriminate;
      apply andb_true_iff in H as [H1 H2];
      destruct (ChurnProps.Qle_bool_spec (baseline_weekly_qty p) 0);
      try discriminate;
      destruct (ChurnProps.Qle_bool_spec (baseline_weekly_qty p * 0.3)
                  (current_weekly_qty p)); try discriminate; split; lra. }
  destruct Hb as [Hb Hc].
  assert (Hd : 70 <= drop_pct (baseline_weekly_qty p) (current_weekly_qty p)).
  { rewrite (ChurnProps.drop_pct_positive _ _ Hb).
    assert (Hq : 0.7 <= (baseline_weekly_qty p - current_weekly_qty p)
                        / baseline_weekly_qty p)
      by (apply Qle_shift_div_l; [exact Hb | lra]).
    lra. }
  split.
  - unfold severity_of. simpl.
    destruct (ChurnProps.Qle_bool_spec 70
                (drop_pct (baseline_weekly_qty p) (current_weekly_qty p)));
      [| contradiction].
    now rewrite orb_true_r.
  - assert (E : inject_Z 700 / inject_Z (10 ^ Z.of_nat 1) == 70) by reflexivity.
    rewrite <- E. apply py_round_lower. rewrite E. exact Hd.
Qed.

Lemma in_alerts_build (self : engine) (fromisoformat : string -> option Z)
    (ref : Z) (ps : list profile) (a : alert) :
  In a (flat_map (alert_of self fromisoformat ref) ps) ->
  exists p, In p ps /\
    a = build_alert self fromisoformat p (baseline_weekly_value p)
          (current_weekly_value p) ref.
Proof.
  intros Ha. apply in_flat_map in Ha as [p [Hp Ha]]. exists p. split; [exact Hp |].
  unfold alert_of in Ha. destruct (unhealthy (p_trend p)); [| destruct Ha].
  destruct Ha as [<- | []]. reflexivity.
Qed.

(** X11.  For an engine built by [init], an alert that is flagged
    [competitor_likely] is critical and its drop percentage is at least
    70: the current rate is below three tenths of a positive
    baseline. *)
Theorem competitor_likely_is_critical (lookback baseline : Z)
    (fromisoformat : string -> option Z) (float_of_str : string -> option Q)
    (now : Z) (orders : list pydict) (reference_date : option string)
    (rep : report) (a : alert) :
  analyze (init lookback baseline) fromisoformat float_of_str now orders
    reference_date = Ok rep ->
  In a (alerts rep) -> competitor_likely a = true ->
  a_severity a = Critical /\ 70 <= drop_percentage a.
Proof.
  intros H Ha Hc.
  destruct (analyze_inv _ _ _ _ _ _ _ H) as [ref [g [ps [als [_ [_ [Hcust [Hal _]]]]]]]].
  destruct (analyze_customers_alerts (init lookback baseline) fromisoformat
              (fun _ => True) g ref ps als) as [_ [_ [_ Hals]]];
    [auto | exact Hcust |].
  rewrite Hal in Ha. apply (Permutation_in _ (sort_alerts_perm als)) in Ha.
  rewrite Hals in Ha. apply in_alerts_build in Ha as [p [_ ->]].
  now apply build_alert_competitor.
Qed.

Lemma competitor_likely_is_critical_witness :
  match run chicken_batch "2024-03-27" with
  | Ok rep => forall a, In a (alerts rep) -> competitor_likely a = true ->
                        a_severity a = Critical /\ 70 <= drop_percentage a
  | Raise _ => False
  end.
Proof.
  destruct (run chicken_batch "2024-03-27") as [rep | e] eqn:E.
  - intros a. exact (competitor_likely_is_critical 12 8 PyLib.fromisoformat_date
                       PyLib.float_of_decimal 0 chicken_batch
                       (Some "2024-03-27"%string) rep a E).
  - assert (Hok : is_ok (run chicken_batch "2024-03-27") = true)
      by (vm_compute; reflexivity).
    rewrite E in Hok. discriminate Hok.
Defined.

Lemma drop_pct_upper (b c : Q) : 0 <= c -> drop_pct b c <= 100.
Proof.
  intros Hc. unfold drop_pct.
  destruct (ChurnProps.Qle_bool_spec b 0) as [Hb | Hb]; simpl; [discriminate |].
  assert (Hq : (b - c) / b <= 1) by (apply Qle_shift_div_r; lra).
  lra.
Qed.

Lemma build_alert_discount (lookback baseline : Z)
    (fromisoformat : string -> option Z) (p : profile) (bv cv : Q) (ref : Z) :
  let a := build_alert (init lookback baseline) fromisoformat p bv cv ref in
  0 <= current_weekly_qty p ->
  drop_percentage a <= 100 /\
  recommended_discount a <= 20 /\
  (a_severity a = Warning -> recommended_discount a <= 8.5).
Proof.
  intros a Hc. unfold a, build_alert. simpl.
  set (drop := drop_pct (baseline_weekly_qty p) (current_weekly_qty p)).
  assert (Hd : drop <= 100) by now apply drop_pct_upper.
  assert (E100 : inject_Z 1000 / inject_Z (10 ^ Z.of_nat 1) == 100) by reflexivity.
  assert (E70 : inject_Z 700 / inject_Z (10 ^ Z.of_nat 1) == 70) by reflexivity.
  assert (Hr : py_round drop 1 <= 100)
    by (rewrite <- E100; apply py_round_upper; rewrite E100; exact Hd).
  assert (Hr70 : drop <= 70 -> py_round drop 1 <= 70)
    by (intros H70; rewrite <- E70; apply py_round_upper; rewrite E70; exact H70).
  clear E100 E70.
  split; [exact Hr |].
  unfold severity_of. simpl.
  destruct (match p_trend p with Stopped => true | _ => false end
            || Qle_bool 70 drop)%bool eqn:Hcrit.
  - simpl. split; [| discriminate].
    eapply Qle_trans; [apply Q.le_min_r |].
    assert (Hten : py_round drop 1 / 10 <= 10)
      by (apply Qle_shift_div_r; [reflexivity | lra]).
    lra.
  - apply orb_false_iff in Hcrit as [_ Hcrit].
    destruct (ChurnProps.Qle_bool_spec 70 drop) as [| Hlt]; [discriminate |].
    assert (Hr70' : py_round drop 1 <= 70) by (apply Hr70; lra). clear Hr70.
    destruct (Qle_bool 40 drop); simpl.
    + assert (Htw : py_round drop 1 / 20 <= 3.5)
        by (apply Qle_shift_div_r; [reflexivity | lra]).
      assert (Hw : Qmin 15 (5 + py_round drop 1 / 20) <= 8.5)
        by (eapply Qle_trans; [apply Q.le_min_r |]; lra).
      split; [lra | intros _; exact Hw].
    + split; [discriminate | discriminate].
Qed.

(** X12.  For an engine built by [init] and a batch whose grouped
    quantities are not negative, every alert has a drop percentage of
    at most 100 and a recommended discount of at most 20 (at most 8.5
    for a warning): the caps of 25 and 15 in the discount rules are
    never reached. *)
Theorem discount_at_most_twenty (lookback baseline : Z)
    (fromisoformat : string -> option Z) (float_of_str : string -> option Q)
    (now : Z) (orders : list pydict) (reference_date : option string)
    (g : list (pyval * list (string * list order))) (rep : report) (a : alert) :
  parse_orders (init lookback baseline) float_of_str orders = Ok g ->
  (forall cid cats cat os o,
     In (cid, cats) g -> In (cat, os) cats -> In o os -> 0 <= quantity o) ->
  analyze (init lookback baseline) fromisoformat float_of_str now orders
    reference_date = Ok rep ->
  In a (alerts rep) ->
  drop_percentage a <= 100 /\
  recommended_discount a <= 20 /\
  (a_severity a = Warning -> recommended_discount a <= 8.5).
Proof.
  intros Hg Hq H Ha.
  destruct (analyze_inv _ _ _ _ _ _ _ H)
    as [ref [g' [ps [als [_ [Hg' [Hcust [Hal _]]]]]]]].
  rewrite Hg in Hg'. injection Hg' as <-.
  destruct (analyze_customers_alerts (init lookback baseline) fromisoformat
              (fun p => 0 <= current_weekly_qty p) g ref ps als)
    as [HP [_ [_ Hals]]]; [| exact Hcust |].
  { intros cid cats cat os p oa Hin1 Hin2 Hc. unfold analyze_category in Hc.
    bind_ok Hc. bind_ok Hc. bind_ok Hc. injection Hc as <- _. simpl.
    unfold sort_by_date in E. destruct (sortable (map date os)); [| discriminate].
    injection E as <-. destruct a2 as [[cq cv] last]. simpl.
    apply (calculate_current_nonneg fromisoformat (sort_desc os) ref cq cv last);
      [| exact E1].
    intros o Ho. apply (proj1 (ChurnProps.sort_desc_In o os)) in Ho.
    exact (Hq cid cats cat os o Hin1 Hin2 Ho). }
  rewrite Hal in Ha. apply (Permutation_in _ (sort_alerts_perm als)) in Ha.
  rewrite Hals in Ha. apply in_alerts_build in Ha as [p [Hp ->]].
  apply build_alert_discount. rewrite List.Forall_forall in HP. now apply HP.
Qed.

Lemma discount_at_most_twenty_witness :
  match run chicken_batch "2024-03-27" with
  | Ok rep => forall a, In a (alerts rep) ->
                drop_percentage a <= 100 /\
                recommended_discount a <= 20 /\
                (a_severity a = Warning -> recommended_discount a <= 8.5)
  | Raise _ => False
  end.
Proof.
  destruct (run chicken_batch "2024-03-27") as [rep | e] eqn:E.
  - intros a.
    apply (discount_at_most_twenty 12 8 PyLib.fromisoformat_date
             PyLib.float_of_decimal 0 chicken_batch (Some "2024-03-27"%string)
             chicken_grouped rep a).
    + vm_compute. reflexivity.
    + intros cid cats cat os o Hg Hc Ho.
      destruct Hg as [Hg | []]. injection Hg as <- <-.
      destruct Hc as [Hc | []]. injection Hc as <- <-.
      destruct Ho as [<- | [<- | []]]; vm_compute; discriminate.
    + exact E.
  - assert (Hok : is_ok (run chicken_batch "2024-03-27") = true)
      by (vm_compute; reflexivity).
    rewrite E in Hok. discriminate Hok.
Defined.

(** *** Summary and recommendations *)

Lemma count_severity_total (l : list alert) :
  length l
  = (count_severity Critical l + count_severity Warning l + count_severity Watch l)%nat.
Proof.
  unfold count_severity. induction l as [| a l IH]; simpl; [reflexivity |].
  destruct (a_severity a); simpl; lia.
Qed.

Lemma filter_length_le {A : Type} (f h : A -> bool) (l : list A) :
  (forall x, In x l -> f x = true -> h x = true) ->
  (length (List.filter f l) <= length (List.filter h l))%nat.
Proof.
  induction l as [| x l IH]; intros H; simpl; [lia |].
  assert (IH' : (length (List.filter f l) <= length (List.filter h l))%nat)
    by (apply IH; intros y Hy; apply H; now right).
  destruct (f x) eqn:Hf.
  - rewrite (H x (or_introl eq_refl) Hf). simpl. lia.
  - destruct (h x); simpl; lia.
Qed.

Lemma key_set_fold (l : list pyval) :
  forall acc, List.NoDup acc ->
  List.NoDup (fold_left
           (fun acc k => if existsb (fun k' => key_eqb k' k) acc then acc else acc ++ [k])
           l acc) /\
  forall k, In k (fold_left
                    (fun acc k => if existsb (fun k' => key_eqb k' k) acc
                                  then acc else acc ++ [k])
                    l acc) -> In k acc \/ In k l.
Proof.
  induction l as [| x l IH]; intros acc Hnd; simpl.
  - split; [exact Hnd | auto].
  - destruct (existsb (fun k' => key_eqb k' x) acc) eqn:E.
    + destruct (IH acc Hnd) as [H1 H2]. split; [exact H1 |].
      intros k Hk. destruct (H2 k Hk); auto.
    + assert (Hnd' : List.NoDup (acc ++ [x])).
      { apply List.NoDup_app; [exact Hnd | repeat constructor; intros [] |].
        intros y Hy [Hyx | []]. subst y.
        assert (Hex : existsb (fun k' => key_eqb k' x) acc = true)
          by (apply existsb_exists; exists x; split; [exact Hy | apply key_eqb_refl]).
        congruence. }
      destruct (IH (acc ++ [x]) Hnd') as [H1 H2]. split; [exact H1 |].
      intros k Hk. destruct (H2 k Hk) as [Hin | Hin]; [| auto].
      apply in_app_or in Hin as [Hin | [<- | []]]; auto.
Qed.

Lemma key_set_length (l keys : list pyval) :
  (forall k, In k l -> In k keys) -> (length (key_set l) <= length keys)%nat.
Proof.
  intros H. destruct (key_set_fold l [] (List.NoDup_nil _)) as [Hnd Hin].
  apply List.NoDup_incl_length; [exact Hnd |].
  intros k Hk. destruct (Hin k Hk) as [[] | Hl]. now apply H.
Qed.

Lemma recommend_spec (l : list alert) :
  forall recs,
  map priority (recommend l recs)
  = map priority recs ++ seq (length recs + 1) (length l) /\
  map recommendation_body (recommend l recs)
  = map recommendation_body recs ++ map alert_body l.
Proof.
  induction l as [| a l IH]; intros recs; simpl.
  - now rewrite !app_nil_r.
  - destruct (IH (recs ++ [{| priority := length recs + 1;
                              r_customer_id := a_customer_id a;
                              r_category := a_category a;
                              r_action := recommended_action a;
                              r_discount := recommended_discount a;
                              potential_save := estimated_lost_revenue a |}]))
      as [H1 H2].
    rewrite H1, H2, !map_app, length_app. simpl. rewrite <- !app_assoc. simpl.
    split; [| reflexivity].
    replace (length recs + 1 + 1)%nat with (S (length recs + 1)) by lia. reflexivity.
Qed.

Lemma analyze_full_inv (self : engine) (fromisoformat : string -> option Z)
    (float_of_str : string -> option Q) (now : Z) (orders : list pydict)
    (reference_date : option string) (fr : full_report) :
  analyze_full self fromisoformat float_of_str now orders reference_date = Ok fr ->
  exists g,
    parse_orders self float_of_str orders = Ok g /\
    analyze self fromisoformat float_of_str now orders reference_date
    = Ok {| alerts := f_alerts fr; customer_profiles := f_customer_profiles fr |} /\
    f_summary fr = summary_of g (f_alerts fr) /\
    f_recommendations fr = recommendations_of (f_alerts fr).
Proof.
  unfold analyze_full, analyze. intros H. bind_ok H. bind_ok H. bind_ok H.
  injection H as <-. exists a0. simpl. rewrite E1. simpl. repeat split.
Qed.

(** X13.  In the summary of a report of an engine built by [init], the
    number of alerts is the sum of the critical, warning and watch
    counts; the customers with alerts are no more than the customers,
    which are as many as the profile map has entries; and the alerts
    flagged as competitor signals are no more than the critical
    ones. *)
Theorem summary_counts_consistent (lookback baseline : Z)
    (fromisoformat : string -> option Z) (float_of_str : string -> option Q)
    (now : Z) (orders : list pydict) (reference_date : option string)
    (fr : full_report) :
  analyze_full (init lookback baseline) fromisoformat float_of_str now orders
    reference_date = Ok fr ->
  let s := f_summary fr in
  total_alerts s = length (f_alerts fr) /\
  total_alerts s = (critical_alerts s + warning_alerts s + watch_alerts s)%nat /\
  (customers_with_alerts s <= total_customers s)%nat /\
  total_customers s = length (f_customer_profiles fr) /\
  (competitor_signals s <= critical_alerts s)%nat.
Proof.
  intros H s. destruct (analyze_full_inv _ _ _ _ _ _ _ H) as [g [Hg [Ha [Hs _]]]].
  unfold s. rewrite Hs. simpl.
  destruct (analyze_inv _ _ _ _ _ _ _ Ha)
    as [ref [g' [ps [als [_ [Hg' [Hcust [Hal Hps]]]]]]]].
  rewrite Hg in Hg'. injection Hg' as <-. simpl in Hal, Hps.
  destruct (analyze_customers_alerts (init lookback baseline) fromisoformat
              (fun _ => True) g ref ps als)
    as [_ [Hkeys [Hfst Hals]]]; [auto | exact Hcust |].
  assert (Hbuild : forall a, In a (f_alerts fr) ->
            exists p, In p (profiles_of ps) /\
              a = build_alert (init lookback baseline) fromisoformat p
                    (baseline_weekly_value p) (current_weekly_value p) ref).
  { intros a Hin. rewrite Hal in Hin.
    apply (Permutation_in _ (sort_alerts_perm als)) in Hin. rewrite Hals in Hin.
    now apply in_alerts_build in Hin. }
  split; [reflexivity |]. split; [apply count_severity_total |]. split; [| split].
  - rewrite <- (length_map fst g). apply key_set_length.
    intros k Hk. apply in_map_iff in Hk as [a [<- Hin]].
    destruct (Hbuild a Hin) as [p [Hp ->]]. simpl.
    rewrite List.Forall_forall in Hkeys. now apply Hkeys.
  - rewrite Hps, <- (length_map fst ps), Hfst, length_map. reflexivity.
  - unfold count_severity. apply filter_length_le. intros a Hin Hc.
    destruct (Hbuild a Hin) as [p [_ Hb]].
    assert (Hcr : a_severity a = Critical)
      by (rewrite Hb in Hc |- *; now apply build_alert_competitor).
    now rewrite Hcr.
Qed.

Lemma summary_counts_consistent_witness :
  match run_full two_alert_batch "2024-03-27" with
  | Ok fr =>
      total_alerts (f_summary fr) = 2%nat /\
      (customers_with_alerts (f_summary fr) <= total_customers (f_summary fr))%nat /\
      (competitor_signals (f_summary fr) <= critical_alerts (f_summary fr))%nat
  | Raise _ => False
  end.
Proof.
  destruct (run_full two_alert_batch "2024-03-27") as [fr | e] eqn:E.
  - destruct (summary_counts_consistent 12 8 PyLib.fromisoformat_date
                PyLib.float_of_decimal 0 two_alert_batch (Some "2024-03-27"%string)
                fr E) as [H1 [_ [H3 [_ H5]]]].
    split; [| split; assumption].
    assert (Hn : match run_full two_alert_batch "2024-03-27" with
                 | Ok fr => total_alerts (f_summary fr)
                 | Raise _ => 0%nat
                 end = 2%nat) by (vm_compute; reflexivity).
    now rewrite E in Hn.
  - assert (Hok : is_ok (run_full two_alert_batch "2024-03-27") = true)
      by (vm_compute; reflexivity).
    rewrite E in Hok. discriminate Hok.
Defined.

(** X14.  The recommendations are made from the first ten alerts of
    the report, in their order (most urgent first), and are numbered
    1, 2, ... : there are [min(10, number of alerts)] of them, and each
    carries the customer, category, action, discount and lost revenue
    of its alert. *)
Theorem recommendations_follow_alerts (self : engine)
    (fromisoformat : string -> option Z) (float_of_str : string -> option Q)
    (now : Z) (orders : list pydict) (reference_date : option string)
    (fr : full_report) :
  analyze_full self fromisoformat float_of_str now orders reference_date = Ok fr ->
  map priority (f_recommendations fr)
  = seq 1 (Nat.min 10 (length (f_alerts fr))) /\
  map recommendation_body (f_recommendations fr)
  = map alert_body (firstn 10 (f_alerts fr)) /\
  StronglySorted alert_le (f_alerts fr).
Proof.
  intros H. destruct (analyze_full_inv _ _ _ _ _ _ _ H) as [g [_ [Ha [_ Hr]]]].
  rewrite Hr. unfold recommendations_of.
  destruct (recommend_spec (firstn 10 (f_alerts fr)) []) as [H1 H2].
  rewrite H1, H2, length_firstn. simpl. split; [reflexivity |].
  split; [reflexivity |].
  destruct (analyze_inv _ _ _ _ _ _ _ Ha) as [ref [g' [ps [als [_ [_ [_ [Hal _]]]]]]]].
  simpl in Hal. rewrite Hal. apply sort_alerts_sorted.
Qed.

Lemma recommendations_follow_alerts_witness :
  match run_full two_alert_batch "2024-03-27" with
  | Ok fr =>
      map priority (f_recommendations fr)
      = seq 1 (Nat.min 10 (length (f_alerts fr))) /\
      map recommendation_body (f_recommendations fr)
      = map alert_body (firstn 10 (f_alerts fr))
  | Raise _ => False
  end.
Proof.
  destruct (run_full two_alert_batch "2024-03-27") as [fr | e] eqn:E.
  - destruct (recommendations_follow_alerts default_engine PyLib.fromisoformat_date
                PyLib.float_of_decimal 0 two_alert_batch (Some "2024-03-27"%string)
                fr E) as [H1 [H2 _]].
    split; assumption.
  - assert (Hok : is_ok (run_full two_alert_batch "2024-03-27") = true)
      by (vm_compute; reflexivity).
    rewrite E in Hok. discriminate Hok.
Defined.

End ChurnExtra.

(** ** Further properties of the competitor engine *)

Module CompetitorExtra.

Import Competitor CompetitorSignals Spec Views Examples Batches.

Local Open Scope Q_scope.

(** *** Win-back probability *)

Lemma clamp_mono (a b : Q) : a <= b -> Qmax 0.1 (Qmin 0.9 a) <= Qmax 0.1 (Qmin 0.9 b).
Proof.
  intros H. apply Q.max_le_compat_l. now apply Q.min_le_compat_l.
Qed.

Lemma Qdiv_le_const (a b c : Q) : 0 < c -> a <= b -> a / c <= b / c.
Proof.
  intros Hc H. unfold Qdiv. apply Qmult_le_compat_r; [exact H |].
  apply Qlt_le_weak. now apply Qinv_lt_0_compat.
Qed.

Lemma Qmin_mono_r (c a b : Q) : a <= b -> Qmin c a <= Qmin c b.
Proof. apply Q.min_le_compat_l. Qed.

(** X15.  The win-back probability never rises when the signal
    strength, the weeks since the loss or the competitor advantage
    rise, and never falls when the sensitivity score rises; from ten
    weeks on the time since the loss no longer matters. *)
Theorem win_back_monotone (s sens adv : Q) (w : Z) :
  (forall s', s <= s' ->
     calculate_win_back_probability s' w sens adv
     <= calculate_win_back_probability s w sens adv) /\
  (forall w', (w <= w')%Z ->
     calculate_win_back_probability s w' sens adv
     <= calculate_win_back_probability s w sens adv) /\
  (forall adv', adv <= adv' ->
     calculate_win_back_probability s w sens adv'
     <= calculate_win_back_probability s w sens adv) /\
  (forall sens', sens <= sens' ->
     calculate_win_back_probability s w sens adv
     <= calculate_win_back_probability s w sens' adv) /\
  ((10 <= w)%Z ->
     calculate_win_back_probability s w sens adv
     == calculate_win_back_probability s 10 sens adv).
Proof.
  unfold calculate_win_back_probability. repeat split.
  - intros s' Hs. apply clamp_mono.
    pose proof (Qdiv_le_const s s' 100 eq_refl Hs) as Hd. revert Hd.
    generalize (s / 100), (s' / 100), (adv / 100),
      (Qmin 0.3 (inject_Z w * 0.03)). intros q q' qa m Hd.
    destruct (negb (Qle_bool sens 60)); [| destruct (negb (Qle_bool sens 40))]; lra.
  - intros w' Hw. apply clamp_mono.
    assert (Hm : Qmin 0.3 (inject_Z w * 0.03) <= Qmin 0.3 (inject_Z w' * 0.03)).
    { apply Qmin_mono_r. rewrite Zle_Qle in Hw. lra. }
    revert Hm.
    generalize (s / 100), (adv / 100), (Qmin 0.3 (inject_Z w * 0.03)),
      (Qmin 0.3 (inject_Z w' * 0.03)). intros q qa m m' Hm.
    destruct (negb (Qle_bool sens 60)); [| destruct (negb (Qle_bool sens 40))]; lra.
  - intros adv' Ha. apply clamp_mono.
    pose proof (Qdiv_le_const adv adv' 100 eq_refl Ha) as Hd. revert Hd.
    generalize (s / 100), (adv / 100), (adv' / 100),
      (Qmin 0.3 (inject_Z w * 0.03)). intros q qa qa' m Hd.
    destruct (negb (Qle_bool sens 60)); [| destruct (negb (Qle_bool sens 40))]; lra.
  - intros sens' Hs. apply clamp_mono.
    generalize (s / 100), (adv / 100), (Qmin 0.3 (inject_Z w * 0.03)). intros q qa m.
    destruct (ChurnProps.Qle_bool_spec sens 60), (ChurnProps.Qle_bool_spec sens' 60),
      (ChurnProps.Qle_bool_spec sens 40), (ChurnProps.Qle_bool_spec sens' 40);
      simpl; lra.
  - intros Hw.
    assert (Hm : Qmin 0.3 (inject_Z w * 0.03) == Qmin 0.3 (inject_Z 10 * 0.03)).
    { rewrite Zle_Qle in Hw. rewrite !Q.min_l; [reflexivity | discriminate | ].
      change (inject_Z 10) with 10 in Hw. lra. }
    apply Q.max_compat; [reflexivity |]. apply Q.min_compat; [reflexivity |].
    destruct (negb (Qle_bool sens 60)); [| destruct (negb (Qle_bool sens 40))];
      rewrite Hm; reflexivity.
Qed.

(** *** Order patterns *)

Ltac bind_step H :=
  match type of H with
  | Py.bind ?r ?k = Ok _ =>
      let E := fresh "E" in
      let a := fresh "a" in
      destruct r as [a | ?] eqn:E;
      [ change (Py.bind (Ok a) k) with (k a) in H; cbv beta in H
      | discriminate H ]
  end.

Ltac bool_step :=
  match goal with
  | |- context [Qle_bool ?x ?y] => destruct (ChurnProps.Qle_bool_spec x y)
  | |- context [Qeq_bool ?x ?y] => destruct (ChurnProps.Qeq_bool_spec x y)
  | |- context [Nat.leb ?x ?y] => destruct (Nat.leb_spec x y)
  end; cbn [negb andb app].

Lemma insert_asc_perm (o : pydict) (l : list pydict) :
  Permutation (insert_asc o l) (o :: l).
Proof.
  induction l as [| y l IH]; simpl; [reflexivity |].
  destruct (key_before y o); [| reflexivity]. rewrite IH. apply perm_swap.
Qed.

Lemma sorted_by_date_perm (orders sorted : list pydict) :
  sorted_by_date orders = Ok sorted -> Permutation sorted orders.
Proof.
  unfold sorted_by_date. destruct (Churn.sortable _); [| discriminate].
  intros H. injection H as <-.
  induction orders as [| o l IH]; simpl; [reflexivity |].
  now rewrite insert_asc_perm, IH.
Qed.

Lemma halves_lengths {A : Type} (l : list A) :
  let mid := Nat.div (length l) 2 in
  let early := if Nat.ltb 0 mid then firstn mid l else l in
  let recent := if Nat.ltb 0 mid then skipn mid l else [] in
  (recent = [] \/ length early <= length recent)%nat /\
  (length l < 2 -> recent = [] /\ length early <= 1)%nat /\
  (3 <= length early -> 6 <= length l)%nat /\
  early ++ recent = l.
Proof.
  intros mid early recent. unfold early, recent.
  assert (Hmid : (2 * mid <= length l)%nat)
    by (unfold mid; apply Nat.Div0.mul_div_le).
  assert (Hmid' : (length l < 2 -> mid = 0)%nat).
  { intros Hlt. unfold mid. apply Nat.div_small. exact Hlt. }
  destruct (Nat.ltb_spec 0 mid) as [Hpos | Hzero].
  - split; [| split; [| split]].
    + right. rewrite length_firstn, length_skipn. lia.
    + intros Hlt. lia.
    + rewrite length_firstn. lia.
    + apply firstn_skipn.
  - assert (Hl : (length l < 2)%nat).
    { destruct (Nat.lt_ge_cases (length l) 2) as [Hlt | Hge]; [exact Hlt |].
      exfalso. assert (1 <= mid)%nat; [| lia].
      unfold mid. apply (Nat.div_le_lower_bound (length l) 2 1); lia. }
    split; [| split; [| split]].
    + now left.
    + intros _. split; [reflexivity | lia].
    + lia.
    + apply app_nil_r.
Qed.

Lemma sum_field_zero (key : string) (l : list pydict) (acc q : Q) :
  sum_field key l acc = Ok q -> l = [] -> q = acc.
Proof. intros H ->. simpl in H. now injection H as <-. Qed.

Ltac patterns_cases a0 a1 :=
  destruct (ChurnProps.Qle_bool_spec a0 0);
  destruct (ChurnProps.Qle_bool_spec a1 0);
  destruct (ChurnProps.Qeq_bool_spec a1 0);
  cbn [negb andb app]; repeat bool_step.

(** The signal lists that [analyze_order_patterns] can return. *)
Lemma patterns_shape (orders : list pydict) (cat : string) (p : patterns) :
  analyze_order_patterns orders cat = Ok p ->
  ((length orders < 2)%nat -> signals_of p = []) /\
  (signals_of p = [] \/
   (exists f, 0.3 < f /\ f < 0.7 /\
      (signals_of p = [volume_split f] \/
       signals_of p = [volume_split f; promo_only])) \/
   (signals_of p = [complete_loss] /\ (6 <= length orders)%nat) \/
   signals_of p = [promo_only]).
Proof.
  intros H. unfold analyze_order_patterns in H.
  destruct orders as [| o0 rest];
    [injection H as <-; split; [reflexivity | left; reflexivity] |].
  bind_step H.
  pose proof (Permutation_length (sorted_by_date_perm _ _ E)) as Hlen.
  destruct (halves_lengths a) as [Hh [Hshort [Hsix _]]]. cbv zeta in Hh, Hshort, Hsix.
  set (early := if Nat.ltb 0 (Nat.div (length a) 2)
                then firstn (Nat.div (length a) 2) a else a) in *.
  set (recent := if Nat.ltb 0 (Nat.div (length a) 2)
                 then skipn (Nat.div (length a) 2) a else []) in *.
  rewrite Hlen in Hshort, Hsix.
  set (N := length (o0 :: rest)) in *.
  bind_step H. bind_step H. bind_step H. bind_step H.
  apply (f_equal (fun r => match r with Ok x => signals_of x | Raise _ => [] end)) in H.
  cbv beta iota zeta in H. unfold signals_of at 1 in H.
  rewrite <- H. clear H p.
  assert (Hrq : (N < 2)%nat -> a1 = 0 /\ (length early <= 1)%nat).
  { intros Hs. destruct (Hshort Hs) as [Hnil Hle]. split; [| exact Hle].
    exact (sum_field_zero _ _ _ _ E1 Hnil). }
  assert (Hfreq : (1 <= length recent)%nat ->
                  inject_Z (Z.of_nat (length early)) * 0.5
                  <= inject_Z (Z.of_nat (length recent * 2))).
  { intros H1. destruct Hh as [Hnil | Hle]; [rewrite Hnil in H1; simpl in H1; lia |].
    assert (Hz : (Z.of_nat (length early) <= Z.of_nat (length recent * 2))%Z) by lia.
    rewrite Zle_Qle in Hz.
    assert (H0 : 0 <= inject_Z (Z.of_nat (length early)))
      by (change 0 with (inject_Z 0); rewrite <- Zle_Qle; lia).
    lra. }
  clear Hh Hshort Hlen E0 E1 E2 E3 E.
  set (ne := length early) in *. set (nr := length recent) in *.
  clearbody ne nr N. clear early recent.
  assert (Hfd : (Nat.leb 2 ne && Nat.leb 1 nr)%bool = true ->
                negb (Qle_bool (inject_Z (Z.of_nat ne) * 0.5)
                               (inject_Z (Z.of_nat (nr * 2)))) = false).
  { intros Hc. apply andb_prop in Hc as [_ Hc]. apply Nat.leb_le in Hc.
    apply negb_false_iff, Qle_bool_iff. auto. }
  destruct (Nat.leb 2 ne && Nat.leb 1 nr)%bool;
    [rewrite (Hfd eq_refl) |]; clear Hfd Hfreq.
  all: split;
    [ intros Hs; destruct (Hrq Hs) as [-> Hne]; clear Hrq Hsix;
      patterns_cases a0 0; try reflexivity; try (exfalso; lra); exfalso; lia
    | clear Hrq ].
  all: patterns_cases a0 a1;
    try (left; reflexivity);
    try (right; right; left; split; [reflexivity | auto]);
    try (right; right; right; reflexivity);
    try (exfalso; lra).
  all: right; left; exists (Qabs ((a1 - a0) / a0));
    (split; [| split]; [| | first [left; reflexivity | right; reflexivity]]);
    generalize dependent ((a1 - a0) / a0); intros v; intros;
    rewrite Qabs_neg by lra; lra.
Qed.

(** X16.  The frequency_drop signal is never reported: the later half
    of the sorted orders is never shorter than the earlier half, so
    twice its length is never below half the earlier length. *)
Theorem frequency_drop_never_reported (orders : list pydict) (cat : string)
    (p : patterns) (s : signal) :
  analyze_order_patterns orders cat = Ok p ->
  In s (signals_of p) ->
  s_type s <> "frequency_drop"%string.
Proof.
  intros H Hin.
  destruct (patterns_shape orders cat p H) as [_ Hs].
  destruct Hs as [E | [[f [_ [_ [E | E]]]] | [[E _] | E]]];
    rewrite E in Hin; simpl in Hin;
    repeat (destruct Hin as [<- | Hin]; [discriminate |]); contradiction.
Qed.

Lemma frequency_drop_never_reported_witness :
  s_type promo_only <> "frequency_drop"%string.
Proof.
  apply (frequency_drop_never_reported split_orders "cola" split_patterns promo_only).
  - vm_compute. reflexivity.
  - vm_compute. right. left. reflexivity.
Defined.

(** X17.  Every reported signal has a strength above 30 and at most
    95.  A volume_split signal reports a drop between 30% and 70% and
    its strength is that percentage: the cap at 80 never applies. *)
Theorem signal_strength_bounds (orders : list pydict) (cat : string)
    (p : patterns) (s : signal) :
  analyze_order_patterns orders cat = Ok p ->
  In s (signals_of p) ->
  30 < strength s /\ strength s <= 95 /\
  (s_type s = "volume_split"%string ->
   exists f, description s = VolumeDropped f /\ 0.3 < f /\ f < 0.7 /\
             strength s == f * 100).
Proof.
  intros H Hin.
  destruct (patterns_shape orders cat p H) as [_ Hs].
  assert (Hv : forall f, 0.3 < f -> f < 0.7 ->
               30 < strength (volume_split f) /\ strength (volume_split f) <= 95 /\
               (s_type (volume_split f) = "volume_split"%string ->
                exists f', description (volume_split f) = VolumeDropped f' /\
                           0.3 < f' /\ f' < 0.7 /\
                           strength (volume_split f) == f' * 100)).
  { intros f Hlo Hhi. unfold volume_split. simpl.
    assert (Hm : Qmin 80 (f * 100) == f * 100) by (apply Q.min_r; lra).
    split; [rewrite Hm; lra |]. split; [rewrite Hm; lra |].
    intros _. exists f. split; [reflexivity |]. split; [exact Hlo |].
    split; [exact Hhi | exact Hm]. }
  assert (Hc : 30 < strength complete_loss /\ strength complete_loss <= 95 /\
               (s_type complete_loss = "volume_split"%string ->
                exists f', description complete_loss = VolumeDropped f' /\
                           0.3 < f' /\ f' < 0.7 /\
                           strength complete_loss == f' * 100)).
  { simpl. split; [lra |]. split; [lra | discriminate]. }
  assert (Hp : 30 < strength promo_only /\ strength promo_only <= 95 /\
               (s_type promo_only = "volume_split"%string ->
                exists f', description promo_only = VolumeDropped f' /\
                           0.3 < f' /\ f' < 0.7 /\
                           strength promo_only == f' * 100)).
  { simpl. split; [lra |]. split; [lra | discriminate]. }
  destruct Hs as [E | [[f [Hlo [Hhi [E | E]]]] | [[E _] | E]]];
    rewrite E in Hin; simpl in Hin;
    repeat (destruct Hin as [<- | Hin]; [auto |]); contradiction.
Qed.

Lemma signal_strength_bounds_witness :
  30 < strength (volume_split (Qabs ((10 - 20) / 20))) /\
  strength (volume_split (Qabs ((10 - 20) / 20))) <= 95 /\
  (s_type (volume_split (Qabs ((10 - 20) / 20))) = "volume_split"%string ->
   exists f, description (volume_split (Qabs ((10 - 20) / 20))) = VolumeDropped f /\
             0.3 < f /\ f < 0.7 /\
             strength (volume_split (Qabs ((10 - 20) / 20))) == f * 100).
Proof.
  apply (signal_strength_bounds split_orders "cola" split_patterns).
  - vm_compute. reflexivity.
  - vm_compute. left. reflexivity.
Defined.

(** X18.  A complete_loss signal is reported alone, and only for a
    history of six orders or more. *)
Theorem complete_loss_is_alone (orders : list pydict) (cat : string)
    (p : patterns) (s : signal) :
  analyze_order_patterns orders cat = Ok p ->
  In s (signals_of p) ->
  s_type s = "complete_loss"%string ->
  signals_of p = [complete_loss] /\ (6 <= length orders)%nat.
Proof.
  intros H Hin Ht.
  destruct (patterns_shape orders cat p H) as [_ Hs].
  destruct Hs as [E | [[f [_ [_ [E | E]]]] | [[E Hn] | E]]];
    try (split; [exact E | exact Hn]);
    rewrite E in Hin; simpl in Hin;
    repeat (destruct Hin as [<- | Hin]; [discriminate Ht |]); contradiction.
Qed.

Lemma complete_loss_is_alone_witness :
  signals_of lost_patterns = [complete_loss] /\ (6 <= length lost_orders)%nat.
Proof.
  apply (complete_loss_is_alone lost_orders "cola" lost_patterns complete_loss).
  - vm_compute. reflexivity.
  - vm_compute. left. reflexivity.
  - reflexivity.
Defined.

(** X19.  A history of fewer than two orders gives no signal. *)
Theorem short_history_no_signal (orders : list pydict) (cat : string)
    (p : patterns) :
  analyze_order_patterns orders cat = Ok p ->
  (length orders < 2)%nat ->
  signals_of p = [].
Proof.
  intros H Hn. exact (proj1 (patterns_shape orders cat p H) Hn).
Qed.

Lemma short_history_no_signal_witness :
  signals_of (patterns_on [record "C1" "Cola" (PNum 10) (PNum 30) "2024-01-03"]) = [].
Proof.
  apply (short_history_no_signal
           [record "C1" "Cola" (PNum 10) (PNum 30) "2024-01-03"] "cola").
  - vm_compute. reflexivity.
  - simpl. lia.
Defined.

(** *** The two halves *)

Lemma fold_Qplus_acc (l : list Q) (acc : Q) :
  fold_left Qplus l acc == acc + fold_left Qplus l 0.
Proof.
  revert acc. induction l as [| x l IH]; intros acc; simpl; [lra |].
  rewrite (IH (acc + x)), (IH (0 + x)). lra.
Qed.

Lemma py_sum_cons (x : Q) (l : list Q) : py_sum (x :: l) == x + py_sum l.
Proof. unfold py_sum. simpl. rewrite fold_Qplus_acc. lra. Qed.

Lemma py_sum_app (l l' : list Q) : py_sum (l ++ l') == py_sum l + py_sum l'.
Proof.
  induction l as [| x l IH]; simpl.
  - unfold py_sum at 2. simpl. lra.
  - rewrite !py_sum_cons, IH. lra.
Qed.

Lemma py_sum_perm (l l' : list Q) : Permutation l l' -> py_sum l == py_sum l'.
Proof.
  induction 1 as [| x l l' _ IH | x y l | l l' l'' _ IH1 _ IH2].
  - reflexivity.
  - rewrite !py_sum_cons, IH. reflexivity.
  - rewrite !py_sum_cons. lra.
  - now rewrite IH1.
Qed.

Lemma sum_field_total (key : string) (l : list pydict) (acc q : Q) :
  sum_field key l acc = Ok q -> q == acc + field_total key l.
Proof.
  revert acc. induction l as [| o l IH]; intros acc H; simpl in H.
  - injection H as <-. unfold field_total, py_sum. simpl. lra.
  - unfold field_total. simpl map. rewrite py_sum_cons.
    destruct (as_number (get_or o key (PNum 0))) as [x |]; [| discriminate].
    apply IH in H. rewrite H. unfold field_total. simpl. lra.
Qed.

Lemma sum_field_ok (key : string) (l : list pydict) (acc : Q) :
  is_ok (sum_field key l acc) = forallb (numeric_field key) l.
Proof.
  revert acc. induction l as [| o l IH]; intros acc; simpl; [reflexivity |].
  unfold numeric_field at 1.
  destruct (as_number (get_or o key (PNum 0))); simpl; [apply IH | reflexivity].
Qed.

Lemma forallb_perm {A : Type} (f : A -> bool) (l l' : list A) :
  Permutation l l' -> forallb f l = forallb f l'.
Proof.
  induction 1 as [| x l l' _ IH | x y l | l l' l'' _ IH1 _ IH2]; simpl.
  - reflexivity.
  - now rewrite IH.
  - destruct (f x), (f y); reflexivity.
  - now rewrite IH1.
Qed.

(** X20.  Splitting the history in two halves loses no order: the
    quantities and values of the halves add up to the totals over the
    orders given. *)
Theorem halves_conserve_totals (orders : list pydict) (cat : string)
    (early_qty recent_qty early_value recent_value pct : Q) (signals : list signal) :
  analyze_order_patterns orders cat
  = Ok (Patterns early_qty recent_qty early_value recent_value pct signals) ->
  early_qty + recent_qty == field_total "quantity" orders /\
  early_value + recent_value == field_total "value" orders.
Proof.
  intros H. unfold analyze_order_patterns in H.
  destruct orders as [| o0 rest]; [discriminate |].
  bind_step H.
  pose proof (sorted_by_date_perm _ _ E) as Hperm.
  destruct (halves_lengths a) as [_ [_ [_ Happ]]]. cbv zeta in Happ.
  set (early := if Nat.ltb 0 (Nat.div (length a) 2)
                then firstn (Nat.div (length a) 2) a else a) in *.
  set (recent := if Nat.ltb 0 (Nat.div (length a) 2)
                 then skipn (Nat.div (length a) 2) a else []) in *.
  bind_step H. bind_step H. bind_step H. bind_step H.
  assert (Hq : forall key, field_total key early + field_total key recent
                           == field_total key (o0 :: rest)).
  { intros key. unfold field_total. rewrite <- py_sum_app, <- map_app, Happ.
    apply py_sum_perm. now apply Permutation_map. }
  apply sum_field_total in E0, E1, E2, E3.
  assert (H0 : a0 = early_qty /\ a1 = recent_qty /\ a2 = early_value /\
               a3 = recent_value) by (repeat split; congruence).
  destruct H0 as [<- [<- [<- <-]]].
  rewrite E0, E1, E2, E3, <- !Hq. split; lra.
Qed.

Lemma halves_conserve_totals_witness :
  20 + 10 == field_total "quantity" split_orders /\
  60 + 20 == field_total "value" split_orders.
Proof.
  apply (halves_conserve_totals split_orders "cola" 20 10 60 20
           ((10 - 20) / 20 * 100)
           [volume_split (Qabs ((10 - 20) / 20)); promo_only]).
  vm_compute. reflexivity.
Defined.

(** In the model, where no division overflows, the function returns
    exactly when the keys can be sorted and the fields are numbers. *)
Lemma order_patterns_ok (orders : list pydict) (cat : string) :
  is_ok (analyze_order_patterns orders cat)
  = (Churn.sortable (map date_key orders)
     && forallb (numeric_field "quantity") orders
     && forallb (numeric_field "value") orders)%bool.
Proof.
  unfold analyze_order_patterns.
  destruct orders as [| o0 rest]; [reflexivity |].
  unfold sorted_by_date at 1.
  destruct (Churn.sortable (map date_key (o0 :: rest))) eqn:Es; [| reflexivity].
  assert (Hperm : Permutation (fold_right insert_asc [] (o0 :: rest)) (o0 :: rest)).
  { apply sorted_by_date_perm. unfold sorted_by_date. now rewrite Es. }
  set (a := fold_right insert_asc [] (o0 :: rest)) in *.
  change (Py.bind (Ok a) ?k) with (k a). cbv beta.
  destruct (halves_lengths a) as [_ [_ [_ Happ]]]. cbv zeta in Happ.
  set (early := if Nat.ltb 0 (Nat.div (length a) 2)
                then firstn (Nat.div (length a) 2) a else a) in *.
  set (recent := if Nat.ltb 0 (Nat.div (length a) 2)
                 then skipn (Nat.div (length a) 2) a else []) in *.
  assert (Hall : forall key, forallb (numeric_field key) (o0 :: rest)
                 = (forallb (numeric_field key) early
                    && forallb (numeric_field key) recent)%bool).
  { intros key. rewrite <- forallb_app, Happ. symmetry. now apply forallb_perm. }
  rewrite !Hall, <- !(sum_field_ok _ _ 0).
  destruct (sum_field "quantity" early 0) as [a0 | ?]; [| reflexivity].
  change (Py.bind (Ok a0) ?k) with (k a0). cbv beta.
  destruct (sum_field "quantity" recent 0) as [a1 | ?]; [| reflexivity].
  change (Py.bind (Ok a1) ?k) with (k a1). cbv beta.
  destruct (sum_field "value" early 0) as [a2 | ?]; [| reflexivity].
  change (Py.bind (Ok a2) ?k) with (k a2). cbv beta.
  destruct (sum_field "value" recent 0) as [a3 | ?]; reflexivity.
Qed.

(** X21.  [analyze_order_patterns] returns only when the date keys
    can be sorted (with two or more orders: all strings or all numbers)
    and every quantity and value is absent or a number; a record with
    another quantity or value makes it raise. *)
Theorem order_patterns_returns_only_if (orders : list pydict) (cat : string) :
  is_ok (analyze_order_patterns orders cat) = true ->
  Churn.sortable (map date_key orders) = true /\
  forallb (numeric_field "quantity") orders = true /\
  forallb (numeric_field "value") orders = true.
Proof.
  rewrite order_patterns_ok. intros H.
  apply andb_prop in H as [H Hv]. apply andb_prop in H as [Hs Hq].
  split; [exact Hs |]. split; [exact Hq | exact Hv].
Qed.

Lemma order_patterns_returns_only_if_witness :
  Churn.sortable (map date_key split_orders) = true /\
  forallb (numeric_field "quantity") split_orders = true /\
  forallb (numeric_field "value") split_orders = true.
Proof.
  apply (order_patterns_returns_only_if split_orders "cola").
  vm_compute. reflexivity.
Defined.

(** *** The inferred competitor *)

Lemma best_archetype_spec (cat : string) (sts : list string)
    (table : list archetype) (best : string * Z * Q) :
  let score := archetype_score cat sts in
  let r := best_archetype cat sts table best in
  (r = best /\ forall b, In b table -> (score b <= snd (fst best))%Z) \/
  (exists l1 a l2,
     table = l1 ++ a :: l2 /\
     r = (comp_type a, score a, typical_advantage a) /\
     (snd (fst best) < score a)%Z /\
     (forall b, In b l1 -> (score b < score a)%Z) /\
     (forall b, In b l2 -> (score b <= score a)%Z)).
Proof.
  intros score. revert best.
  induction table as [| a t IH]; intros best; cbn zeta.
  - left. split; [reflexivity | intros b []].
  - simpl best_archetype. fold score.
    destruct (Z.ltb_spec (snd (fst best)) (score a)) as [Hlt | Hge].
    + destruct (IH (comp_type a, score a, typical_advantage a))
        as [[Hr Hall] | [l1 [a' [l2 [Ht [Hr [Hlt' [H1 H2]]]]]]]]; right.
      * exists [], a, t. simpl in Hall.
        split; [reflexivity |]. split; [exact Hr |]. split; [exact Hlt |].
        split; [intros b [] | exact Hall].
      * simpl in Hlt'. exists (a :: l1), a', l2.
        split; [rewrite Ht; reflexivity |]. split; [exact Hr |]. split; [lia |].
        split; [| exact H2].
        intros b [<- | Hb]; [exact Hlt' | now apply H1].
    + destruct (IH best) as [[Hr Hall] | [l1 [a' [l2 [Ht [Hr [Hlt' [H1 H2]]]]]]]].
      * left. split; [exact Hr |]. intros b [<- | Hb]; [exact Hge | now apply Hall].
      * right. exists (a :: l1), a', l2.
        split; [rewrite Ht; reflexivity |]. split; [exact Hr |]. split; [exact Hlt' |].
        split; [| exact H2].
        intros b [<- | Hb]; [lia | now apply H1].
Qed.

(** X22.  [infer_competitor_type] returns the archetype with the
    highest score and its typical advantage; among equal scores the
    archetype listed first wins; when every score is 0 it returns
    "unknown" with an advantage of 10. *)
Theorem inferred_competitor_best_scoring (cat : string) (signals : list signal) :
  let score := archetype_score cat (map s_type signals) in
  (infer_competitor_type cat signals = ("unknown"%string, 10) /\
   forall b, In b competitor_patterns -> (score b <= 0)%Z) \/
  (exists l1 a l2,
     competitor_patterns = l1 ++ a :: l2 /\
     infer_competitor_type cat signals = (comp_type a, typical_advantage a) /\
     (0 < score a)%Z /\
     (forall b, In b l1 -> (score b < score a)%Z) /\
     (forall b, In b l2 -> (score b <= score a)%Z)).
Proof.
  intros score. unfold infer_competitor_type.
  destruct (best_archetype_spec cat (map s_type signals) competitor_patterns
              ("unknown"%string, 0%Z, 10))
    as [[Hr Hall] | [l1 [a [l2 [Ht [Hr [Hlt [H1 H2]]]]]]]]; cbv zeta.
  - left. rewrite Hr. split; [reflexivity | exact Hall].
  - right. exists l1, a, l2. rewrite Hr.
    split; [exact Ht |]. split; [reflexivity |]. split; [exact Hlt |].
    split; [exact H1 | exact H2].
Qed.

Lemma archetype_score_no_match (cat : string) (sts : list string) (a : archetype) :
  forallb (fun ind => negb (existsb (fun st => contains ind st) sts)) (indicators a) = true ->
  archetype_score cat sts a = archetype_score cat [] a.
Proof.
  unfold archetype_score.
  generalize (if existsb (String.eqb cat) (categories a) then 30%Z else 0%Z).
  induction (indicators a) as [| ind l IH]; intros z H; simpl; [reflexivity |].
  simpl in H. apply andb_prop in H as [H1 H2].
  apply negb_true_iff in H1. rewrite H1. now apply IH.
Qed.

Lemma best_archetype_ext (cat : string) (sts sts' : list string)
    (table : list archetype) (best : string * Z * Q) :
  (forall a, In a table -> archetype_score cat sts a = archetype_score cat sts' a) ->
  best_archetype cat sts table best = best_archetype cat sts' table best.
Proof.
  revert best. induction table as [| a t IH]; intros best H; simpl; [reflexivity |].
  rewrite (H a (or_introl eq_refl)). apply IH. intros b Hb. apply H. now right.
Qed.

Lemma infer_without_indicators (cat : string) (signals : list signal) :
  forallb (fun a => forallb (fun ind => negb (existsb (fun st => contains ind st)
                                                (map s_type signals)))
                      (indicators a))
          competitor_patterns = true ->
  infer_competitor_type cat signals = infer_competitor_type cat [].
Proof.
  intros H. unfold infer_competitor_type. cbv zeta.
  rewrite (best_archetype_ext cat (map s_type signals) (map s_type [])); [reflexivity |].
  intros a Ha. rewrite forallb_forall in H. specialize (H a Ha).
  now apply archetype_score_no_match.
Qed.

(** X23.  No signal that [analyze_order_patterns] reports matches an
    indicator of an archetype: on its signals the inferred competitor
    is the one inferred from the category alone. *)
Theorem reported_signals_match_no_indicator (orders : list pydict)
    (cat cat' : string) (p : patterns) :
  analyze_order_patterns orders cat = Ok p ->
  infer_competitor_type cat' (signals_of p) = infer_competitor_type cat' [].
Proof.
  intros H.
  destruct (patterns_shape orders cat p H) as [_ Hs].
  destruct Hs as [E | [[f [_ [_ [E | E]]]] | [[E _] | E]]]; rewrite E;
    apply infer_without_indicators; reflexivity.
Qed.

Lemma reported_signals_match_no_indicator_witness :
  infer_competitor_type "cola" (signals_of split_patterns)
  = infer_competitor_type "cola" [].
Proof.
  apply (reported_signals_match_no_indicator split_orders "cola" "cola" split_patterns).
  vm_compute. reflexivity.
Defined.

(** *** Counting signals *)

Lemma count_of_cons (key : competitor_signal -> string) (k : string)
    (s : competitor_signal) (l : list competitor_signal) :
  count_of key k (s :: l)
  = ((if String.eqb (key s) k then 1 else 0) + count_of key k l)%nat.
Proof. unfold count_of. simpl. destruct (String.eqb (key s) k); reflexivity. Qed.

Lemma count_fold_lookup (key : competitor_signal -> string) (k : string)
    (signals : list competitor_signal) (counts : list (string * nat)) :
  lookup_key String.eqb k
    (fold_left (fun c s => count_one (key s) c) signals counts)
  = if Nat.eqb (count_of key k signals) 0 then lookup_key String.eqb k counts
    else Some (default 0 (lookup_key String.eqb k counts)
               + count_of key k signals)%nat.
Proof.
  revert counts. induction signals as [| s l IH]; intros counts; [reflexivity |].
  simpl fold_left. rewrite IH, count_of_cons. unfold count_one.
  rewrite (ChurnExtra.lookup_update_default String.eqb String.eqb_sym
             ChurnExtra.string_eqb_trans).
  destruct (String.eqb (key s) k) eqn:E.
  - apply String.eqb_eq in E. rewrite E.
    destruct (Nat.eqb_spec (count_of key k l) 0) as [H0 | Hn]; simpl.
    + rewrite H0. f_equal. lia.
    + f_equal. lia.
  - simpl. reflexivity.
Qed.

Lemma count_fold_distinct (key : competitor_signal -> string)
    (signals : list competitor_signal) (counts : list (string * nat)) :
  distinct_keys String.eqb (map fst counts) ->
  distinct_keys String.eqb
    (map fst (fold_left (fun c s => count_one (key s) c) signals counts)).
Proof.
  revert counts. induction signals as [| s l IH]; intros counts H; [exact H |].
  simpl. apply IH. now apply ChurnExtra.update_default_distinct.
Qed.

Lemma distinct_keys_NoDup (keys : list string) :
  distinct_keys String.eqb keys -> List.NoDup keys.
Proof.
  unfold distinct_keys. induction 1 as [| k l Hk _ IH]; constructor; [| exact IH].
  intros Hin. rewrite List.Forall_forall in Hk. specialize (Hk k Hin).
  now rewrite String.eqb_refl in Hk.
Qed.

Lemma lookup_key_In (k : string) (n : nat) (d : list (string * nat)) :
  List.NoDup (map fst d) ->
  (In (k, n) d <-> lookup_key String.eqb k d = Some n).
Proof.
  unfold lookup_key. induction d as [| [k' v] d IH]; simpl; intros Hnd.
  - split; [intros [] | discriminate].
  - inversion Hnd as [| ? ? Hk Hd]; subst.
    destruct (String.eqb k' k) eqn:E; simpl.
    + apply String.eqb_eq in E. subst k'. split.
      * intros [H | H]; [now injection H as -> |].
        exfalso. apply Hk. apply (in_map fst) in H. exact H.
      * intros H. injection H as ->. now left.
    + rewrite <- (IH Hd). split; [| now right].
      intros [H | H]; [| exact H].
      injection H as -> ->. now rewrite String.eqb_refl in E.
Qed.

Lemma count_by_key_NoDup (signals : list competitor_signal)
    (key : competitor_signal -> string) :
  List.NoDup (map fst (_count_by_key signals key)).
Proof.
  apply distinct_keys_NoDup. unfold _count_by_key.
  apply count_fold_distinct. constructor.
Qed.

Lemma count_by_key_In (signals : list competitor_signal)
    (key : competitor_signal -> string) (k : string) (n : nat) :
  In (k, n) (_count_by_key signals key)
  <-> n = count_of key k signals /\ (0 < n)%nat.
Proof.
  rewrite (lookup_key_In k n _ (count_by_key_NoDup signals key)).
  unfold _count_by_key. rewrite count_fold_lookup.
  destruct (Nat.eqb_spec (count_of key k signals) 0) as [H0 | Hn].
  - unfold lookup_key. simpl. split; [discriminate | lia].
  - unfold lookup_key. simpl. split.
    + intros H. injection H as <-. lia.
    + intros [-> _]. reflexivity.
Qed.

(** X24.  [_count_by_key] lists every value of the attribute that
    occurs among the signals once, with the number of signals that
    carry it, and nothing else. *)
Theorem count_by_key_counts (signals : list competitor_signal)
    (key : competitor_signal -> string) :
  List.NoDup (map fst (_count_by_key signals key)) /\
  forall k n, In (k, n) (_count_by_key signals key)
              <-> n = count_of key k signals /\ (0 < n)%nat.
Proof.
  split; [apply count_by_key_NoDup | intros k n; apply count_by_key_In].
Qed.

Lemma insert_by_count_perm (c : string * nat) (l : list (string * nat)) :
  Permutation (insert_by_count c l) (c :: l).
Proof.
  induction l as [| y l IH]; simpl; [reflexivity |].
  destruct (Nat.ltb (snd c) (snd y)); [| reflexivity].
  rewrite IH. apply perm_swap.
Qed.

Lemma sort_by_count_perm (l : list (string * nat)) :
  Permutation (fold_right insert_by_count [] l) l.
Proof.
  induction l as [| c l IH]; simpl; [reflexivity |].
  now rewrite insert_by_count_perm, IH.
Qed.

Lemma insert_by_count_sorted (c : string * nat) (l : list (string * nat)) :
  StronglySorted (fun x y => (snd y <= snd x)%nat) l ->
  StronglySorted (fun x y => (snd y <= snd x)%nat) (insert_by_count c l).
Proof.
  induction 1 as [| y l Hs IH Hy]; simpl; [repeat constructor |].
  destruct (Nat.ltb_spec (snd c) (snd y)) as [Hlt | Hge].
  - constructor; [exact IH |].
    rewrite List.Forall_forall. intros z Hz.
    apply (Permutation_in _ (insert_by_count_perm c l)) in Hz.
    destruct Hz as [<- | Hz]; [lia |].
    rewrite List.Forall_forall in Hy. now apply Hy.
  - constructor; [now constructor |].
    constructor; [exact Hge |].
    rewrite List.Forall_forall in Hy |- *. intros z Hz. specialize (Hy z Hz). lia.
Qed.

Lemma sort_by_count_sorted (l : list (string * nat)) :
  StronglySorted (fun x y => (snd y <= snd x)%nat) (fold_right insert_by_count [] l).
Proof.
  induction l as [| c l IH]; simpl; [constructor |].
  now apply insert_by_count_sorted.
Qed.

Lemma StronglySorted_map {A B : Type} (R : A -> A -> Prop) (R' : B -> B -> Prop)
    (f : A -> B) (l : list A) :
  (forall x y, In x l -> In y l -> R x y -> R' (f x) (f y)) ->
  StronglySorted R l -> StronglySorted R' (map f l).
Proof.
  intros Hf Hs. induction Hs as [| x l Hs IH Hx]; simpl; constructor.
  - apply IH. intros a b Ha Hb. apply Hf; now right.
  - rewrite List.Forall_forall in Hx |- *. intros y Hy.
    apply in_map_iff in Hy as [z [<- Hz]].
    apply Hf; [now left | now right | now apply Hx].
Qed.

Lemma StronglySorted_app {A : Type} (R : A -> A -> Prop) (l1 l2 : list A) :
  StronglySorted R (l1 ++ l2) ->
  StronglySorted R l1 /\ forall x y, In x l1 -> In y l2 -> R x y.
Proof.
  induction l1 as [| a l1 IH]; simpl; intros H.
  - split; [constructor | intros x y []].
  - inversion H as [| ? ? Hs Ha]; subst. destruct (IH Hs) as [Hs1 Hc].
    rewrite List.Forall_forall in Ha. split.
    + constructor; [exact Hs1 |]. rewrite List.Forall_forall.
      intros y Hy. apply Ha. apply in_or_app. now left.
    + intros x y [<- | Hx] Hy; [| now apply Hc].
      apply Ha. apply in_or_app. now right.
Qed.

(** X25.  [_get_top_categories] returns at most [top_n] categories,
    each once and each the category of some signal, in the order of
    falling signal counts; no category left out has more signals than
    one returned, and a category with signals is left out only when the
    list is full. *)
Theorem top_categories_ranked (signals : list competitor_signal) (top_n : nat) :
  let top := _get_top_categories signals top_n in
  let count := fun c => count_of cs_category c signals in
  (length top <= top_n)%nat /\
  List.NoDup top /\
  (forall c, In c top -> (0 < count c)%nat) /\
  StronglySorted (fun c c' => (count c' <= count c)%nat) top /\
  (forall c c', In c top -> ~ In c' top -> (count c' <= count c)%nat) /\
  (forall c', (0 < count c')%nat -> ~ In c' top -> length top = top_n).
Proof.
  intros top count. unfold _get_top_categories in top. cbv zeta in top.
  set (counts := _count_by_key signals cs_category) in *.
  set (sorted := fold_right insert_by_count [] counts) in *.
  assert (Hperm : Permutation sorted counts) by apply sort_by_count_perm.
  assert (Hin : forall x, In x sorted -> snd x = count (fst x) /\ (0 < count (fst x))%nat).
  { intros [k n] Hx. apply (Permutation_in _ Hperm) in Hx.
    apply count_by_key_In in Hx as [-> Hpos]. simpl. split; [reflexivity | exact Hpos]. }
  assert (Hnd : List.NoDup (map fst sorted)).
  { apply (Permutation_NoDup (l := map fst counts)).
    - apply Permutation_map. now symmetry.
    - apply count_by_key_NoDup. }
  assert (Hsorted : StronglySorted (fun c c' => (count c' <= count c)%nat)
                      (map fst sorted)).
  { apply (StronglySorted_map (fun x y => (snd y <= snd x)%nat)).
    - intros x y Hx Hy Hxy.
      destruct (Hin x Hx) as [Ex _], (Hin y Hy) as [Ey _]. now rewrite <- Ex, <- Ey.
    - apply sort_by_count_sorted. }
  assert (Hall : forall c, (0 < count c)%nat -> In c (map fst sorted)).
  { intros c Hc. apply in_map_iff. exists (c, count c). split; [reflexivity |].
    apply (Permutation_in _ (Permutation_sym Hperm)).
    apply count_by_key_In. split; [reflexivity | exact Hc]. }
  assert (Hkeys : forall c, In c (map fst sorted) -> (0 < count c)%nat).
  { intros c Hc. apply in_map_iff in Hc as [x [<- Hx]]. now apply Hin. }
  clearbody sorted. clear Hperm Hin counts.
  set (keys := map fst sorted) in *. clearbody keys.
  assert (Hsplit : top ++ skipn top_n keys = keys) by apply firstn_skipn.
  rewrite <- Hsplit in Hsorted, Hnd.
  destruct (StronglySorted_app _ _ _ Hsorted) as [Hs1 Hcross].
  assert (Hrest : forall c', (0 < count c')%nat -> ~ In c' top ->
                             In c' (skipn top_n keys)).
  { intros c' Hc' Hn. specialize (Hall c' Hc'). rewrite <- Hsplit in Hall.
    apply in_app_or in Hall as [H | H]; [contradiction | exact H]. }
  split; [apply firstn_le_length |].
  split; [exact (List.NoDup_app_remove_r _ _ Hnd) |].
  split; [intros c Hc; apply Hkeys; exact (ChurnProps.In_firstn top_n keys c Hc) |].
  split; [exact Hs1 |].
  split.
  - intros c c' Hc Hn. destruct (Nat.eq_dec (count c') 0%nat) as [H0 | Hpos]; [lia |].
    apply Hcross; [exact Hc |]. apply Hrest; [lia | exact Hn].
  - intros c' Hc' Hn. specialize (Hrest c' Hc' Hn).
    unfold top. apply firstn_length_le.
    destruct (Nat.le_gt_cases top_n (length keys)) as [Hle | Hgt]; [exact Hle |].
    rewrite skipn_all2 in Hrest by lia. destruct Hrest.
Qed.

(** *** Price sensitivity *)

Lemma unit_prices_ok (orders : list pydict) :
  is_ok (unit_prices orders) = forallb price_defined orders.
Proof.
  induction orders as [| o l IH]; simpl; [reflexivity |].
  unfold price_defined at 1, numeric_field.
  destruct (as_number (get_or o "quantity" (PNum 0))) as [q |]; [| reflexivity].
  destruct (negb (Qle_bool q 0)); [| exact IH].
  destruct (as_number (get_or o "value" (PNum 0))) as [v |]; [| reflexivity].
  rewrite <- IH. destruct (unit_prices l); reflexivity.
Qed.

(** X26.  For two or more orders [calculate_price_sensitivity] returns
    only when every quantity is absent or a number and every order of
    positive quantity has a value that is absent or a number; another
    quantity, or another value beside a positive quantity, makes it
    raise. *)
Theorem price_sensitivity_returns_only_if (orders : list pydict) (cat : string) :
  (2 <= length orders)%nat ->
  is_ok (calculate_price_sensitivity orders cat) = true ->
  forallb price_defined orders = true.
Proof.
  intros Hlen. rewrite <- unit_prices_ok.
  destruct orders as [| o [| o' rest]]; [simpl in Hlen; lia | simpl in Hlen; lia |].
  unfold calculate_price_sensitivity.
  destruct (unit_prices (o :: o' :: rest)); [reflexivity | discriminate].
Qed.

Lemma price_sensitivity_returns_only_if_witness :
  forallb price_defined two_priced_orders = true.
Proof.
  apply (price_sensitivity_returns_only_if two_priced_orders "chicken").
  - simpl. lia.
  - reflexivity.
Defined.

End CompetitorExtra.

(** ** Properties of the binary64 rounding *)

Module Binary64Props.

Import Binary64.

Local Open Scope Q_scope.

Lemma pow2_pos (e : Z) : 0 < pow2 e.
Proof. apply Qpower_0_lt. reflexivity. Qed.

Lemma pow2_add (a b : Z) : pow2 (a + b) == pow2 a * pow2 b.
Proof. apply Qpower_plus. discriminate. Qed.

Lemma pow2_le (a b : Z) : (a <= b)%Z -> pow2 a <= pow2 b.
Proof. intros H. apply Qpower_le_compat_l; [exact H | discriminate]. Qed.

Lemma pow2_Z (k : Z) : (0 <= k)%Z -> pow2 k == inject_Z (2 ^ k).
Proof. intros H. unfold pow2. symmetry. exact (Zpower_Qpower 2 k H). Qed.

Lemma pow2_sub (a b : Z) : (0 <= a)%Z -> (0 <= b)%Z ->
  pow2 (a - b) == inject_Z (2 ^ a) / inject_Z (2 ^ b).
Proof.
  intros Ha Hb. rewrite <- !pow2_Z by assumption.
  unfold pow2. apply Qpower_minus. discriminate.
Qed.

Lemma Qabs_frac (x : Q) : Qabs x == inject_Z (Z.abs (Qnum x)) / inject_Z (Zpos (Qden x)).
Proof.
  destruct x as [n d]. unfold Qabs. simpl.
  unfold Qeq, Qdiv, Qmult, Qinv, inject_Z. simpl. lia.
Qed.

Lemma Qdiv_le_cross (a b c d : Z) :
  (0 < b)%Z -> (0 < d)%Z ->
  (inject_Z a / inject_Z b <= inject_Z c / inject_Z d <-> (a * d <= c * b)%Z).
Proof.
  intros Hb Hd.
  assert (Hb' : 0 < inject_Z b) by (change 0 with (inject_Z 0); now rewrite <- Zlt_Qlt).
  assert (Hd' : 0 < inject_Z d) by (change 0 with (inject_Z 0); now rewrite <- Zlt_Qlt).
  rewrite Zle_Qle, !inject_Z_mult. split; intros H.
  - assert (E1 : inject_Z a * inject_Z d
                 == inject_Z a / inject_Z b * (inject_Z b * inject_Z d)) by (field; lra).
    assert (E2 : inject_Z c * inject_Z b
                 == inject_Z c / inject_Z d * (inject_Z b * inject_Z d)) by (field; lra).
    rewrite E1, E2. apply Qmult_le_compat_r; [exact H |].
    apply Qlt_le_weak. now apply Qmult_lt_0_compat.
  - apply Qle_shift_div_l; [exact Hd' |].
    assert (E : inject_Z a / inject_Z b * inject_Z d
                == inject_Z a * inject_Z d / inject_Z b) by (field; lra).
    rewrite E. apply Qle_shift_div_r; [exact Hb' | exact H].
Qed.

Lemma Qdiv_lt_cross (a b c d : Z) :
  (0 < b)%Z -> (0 < d)%Z ->
  (inject_Z a / inject_Z b < inject_Z c / inject_Z d <-> (a * d < c * b)%Z).
Proof.
  intros Hb Hd. split; intros H.
  - apply Z.nle_gt. intros Hc. apply (proj2 (Qdiv_le_cross c d a b Hd Hb)) in Hc.
    apply (Qlt_not_le _ _ H). exact Hc.
  - apply Qnot_le_lt. intros Hc. apply (proj1 (Qdiv_le_cross c d a b Hd Hb)) in Hc. lia.
Qed.

Lemma ilog2_spec (x : Q) :
  ~ x == 0 -> pow2 (ilog2 x) <= Qabs x /\ Qabs x < pow2 (ilog2 x + 1).
Proof.
  intros Hx. rewrite (Qabs_frac x). unfold ilog2.
  set (n := Z.abs (Qnum x)). set (d := Zpos (Qden x)).
  assert (Hn : (0 < n)%Z).
  { unfold n. destruct x as [xn xd]. simpl.
    assert (xn <> 0)%Z; [| lia].
    intros ->. apply Hx. reflexivity. }
  assert (Hd : (0 < d)%Z) by (unfold d; lia).
  pose proof (Z.log2_spec n Hn) as [Ha1 Ha2].
  pose proof (Z.log2_spec d Hd) as [Hb1 Hb2].
  pose proof (Z.log2_nonneg n) as Ha0. pose proof (Z.log2_nonneg d) as Hb0.
  set (a := Z.log2 n) in *. set (b := Z.log2 d) in *.
  rewrite Z.pow_succ_r in Ha2, Hb2 by assumption.
  assert (HA : (0 < 2 ^ a)%Z) by (apply Z.pow_pos_nonneg; lia).
  assert (HB : (0 < 2 ^ b)%Z) by (apply Z.pow_pos_nonneg; lia).
  destruct (Z.leb_spec (2 ^ a * d) (n * 2 ^ b)) as [Ht | Ht].
  - split.
    + rewrite pow2_sub by assumption. apply Qdiv_le_cross; assumption.
    + replace (a - b + 1)%Z with (a + 1 - b)%Z by lia.
      rewrite pow2_sub by lia. rewrite Z.pow_add_r by lia.
      apply Qdiv_lt_cross; [assumption | assumption |].
      change (2 ^ 1)%Z with 2%Z. nia.
  - split.
    + replace (a - b - 1)%Z with (a - (b + 1))%Z by lia.
      rewrite pow2_sub by lia. rewrite Z.pow_add_r by lia.
      apply Qdiv_le_cross; [lia | assumption |].
      change (2 ^ 1)%Z with 2%Z. nia.
    + replace (a - b - 1 + 1)%Z with (a - b)%Z by lia.
      rewrite pow2_sub by assumption. apply Qdiv_lt_cross; assumption.
Qed.

Lemma ilog2_mono (x y : Q) :
  ~ x == 0 -> Qabs x <= Qabs y -> (ilog2 x <= ilog2 y)%Z.
Proof.
  intros Hx Hxy.
  assert (Hy : ~ y == 0).
  { intros E. rewrite E in Hxy. change (Qabs 0) with 0 in Hxy. apply Hx.
    destruct (Qlt_le_dec x 0) as [Hneg | Hpos].
    - rewrite Qabs_neg in Hxy by lra. lra.
    - rewrite Qabs_pos in Hxy by exact Hpos. lra. }
  destruct (ilog2_spec x Hx) as [Hx1 _]. destruct (ilog2_spec y Hy) as [_ Hy2].
  destruct (Z.le_gt_cases (ilog2 x) (ilog2 y)) as [H | H]; [exact H |].
  exfalso. assert (Hp : pow2 (ilog2 y + 1) <= pow2 (ilog2 x)) by (apply pow2_le; lia).
  lra.
Qed.

(** round_half_even *)

Lemma Qfloor_unique (x : Q) (z : Z) :
  inject_Z z <= x -> x < inject_Z (z + 1) -> Qfloor x = z.
Proof.
  intros H1 H2.
  assert (Ha : (z <= Qfloor x)%Z).
  { rewrite <- (Qfloor_Z z). now apply Qfloor_resp_le. }
  assert (Hb : (Qfloor x < z + 1)%Z).
  { rewrite Zlt_Qlt. apply Qle_lt_trans with x; [apply Qfloor_le | exact H2]. }
  lia.
Qed.

Lemma rhe_proper (x y : Q) : x == y -> round_half_even x = round_half_even y.
Proof.
  intros E. unfold round_half_even.
  rewrite (Qfloor_comp _ _ E).
  assert (E' : x - inject_Z (Qfloor y) == y - inject_Z (Qfloor y)) by (rewrite E; reflexivity).
  now rewrite (Qcompare_comp _ _ E' _ _ (Qeq_refl (1 # 2))).
Qed.

Lemma rhe_lower (m : Z) (x : Q) : inject_Z m <= x -> (m <= round_half_even x)%Z.
Proof.
  intros H. unfold round_half_even.
  assert (Hf : (m <= Qfloor x)%Z).
  { rewrite <- (Qfloor_Z m). now apply Qfloor_resp_le. }
  destruct (x - inject_Z (Qfloor x) ?= 1 # 2); [destruct (Z.even (Qfloor x)) | |]; lia.
Qed.

Lemma rhe_upper (m : Z) (x : Q) : x <= inject_Z m -> (round_half_even x <= m)%Z.
Proof.
  intros H. unfold round_half_even.
  pose proof (Qfloor_le x) as Hle.
  assert (Hf : (Qfloor x <= m)%Z).
  { rewrite <- (Qfloor_Z m). now apply Qfloor_resp_le. }
  destruct (Z.eq_dec (Qfloor x) m) as [Heq | Hne].
  - assert (Hx : x - inject_Z (Qfloor x) <= 0) by (rewrite Heq; lra).
    destruct (x - inject_Z (Qfloor x) ?= 1 # 2) eqn:Hc.
    + apply Qeq_alt in Hc. lra.
    + lia.
    + apply Qgt_alt in Hc. lra.
  - destruct (x - inject_Z (Qfloor x) ?= 1 # 2); [destruct (Z.even (Qfloor x)) | |]; lia.
Qed.

Lemma rhe_mono (x y : Q) : x <= y -> (round_half_even x <= round_half_even y)%Z.
Proof.
  intros H. pose proof (Qfloor_resp_le x y H) as Hf.
  destruct (Z.eq_dec (Qfloor x) (Qfloor y)) as [E | Hne].
  - unfold round_half_even. rewrite E.
    destruct (Qcompare_spec (x - inject_Z (Qfloor y)) (1 # 2)) as [Hx | Hx | Hx];
      destruct (Qcompare_spec (y - inject_Z (Qfloor y)) (1 # 2)) as [Hy | Hy | Hy];
      destruct (Z.even (Qfloor y)); try lia; exfalso; lra.
  - apply Z.le_trans with (Qfloor y).
    + apply rhe_upper. pose proof (Qlt_floor x) as Hl.
      apply Qle_trans with (inject_Z (Qfloor x + 1)); [lra |].
      rewrite <- Zle_Qle. lia.
    + apply rhe_lower. apply Qfloor_le.
Qed.

Lemma inject_Z_sub (a b : Z) : inject_Z (a - b) == inject_Z a - inject_Z b.
Proof. unfold Z.sub. rewrite inject_Z_plus, inject_Z_opp. reflexivity. Qed.

Lemma rhe_opp (x : Q) : round_half_even (- x) = (- round_half_even x)%Z.
Proof.
  pose proof (Qfloor_le x) as H1. pose proof (Qlt_floor x) as H2.
  rewrite inject_Z_plus in H2. change (inject_Z 1) with 1 in H2.
  set (f := Qfloor x) in *.
  destruct (Qeq_dec x (inject_Z f)) as [E | Hne].
  - assert (E' : - x == inject_Z (- f)) by (rewrite inject_Z_opp, E; reflexivity).
    rewrite (rhe_proper _ _ E'), (rhe_proper _ _ E).
    unfold round_half_even. rewrite !Qfloor_Z.
    assert (Ez : forall z, (inject_Z z - inject_Z z ?= 1 # 2) = Lt).
    { intros z. apply (proj1 (Qlt_alt _ _)). lra. }
    now rewrite !Ez.
  - assert (Hf : Qfloor (- x) = (- f - 1)%Z).
    { apply Qfloor_unique.
      - rewrite inject_Z_sub, inject_Z_opp. change (inject_Z 1) with 1. lra.
      - replace (- f - 1 + 1)%Z with (- f)%Z by lia. rewrite inject_Z_opp.
        assert (inject_Z f < x); [| lra].
        apply Qle_lteq in H1. destruct H1 as [H1 | H1]; [exact H1 |].
        exfalso. apply Hne. now symmetry. }
    unfold round_half_even. rewrite Hf. fold f.
    assert (Er : - x - inject_Z (- f - 1) == 1 - (x - inject_Z f)).
    { rewrite inject_Z_sub, inject_Z_opp. change (inject_Z 1) with 1. ring. }
    rewrite (Qcompare_comp _ _ Er _ _ (Qeq_refl (1 # 2))).
    assert (Hev : Z.even (- f - 1) = negb (Z.even f)).
    { replace (- f - 1)%Z with (- (f + 1))%Z by lia.
      rewrite Z.even_opp. rewrite Z.even_add. simpl.
      destruct (Z.even f); reflexivity. }
    rewrite Hev.
    destruct (Qcompare_spec (x - inject_Z f) (1 # 2)) as [Hx | Hx | Hx].
    + assert (Hc : (1 - (x - inject_Z f) ?= 1 # 2) = Eq)
        by (apply (proj1 (Qeq_alt _ _)); lra).
      rewrite Hc. destruct (Z.even f); simpl; lia.
    + assert (Hc : (1 - (x - inject_Z f) ?= 1 # 2) = Gt)
        by (apply (proj1 (Qgt_alt _ _)); lra).
      rewrite Hc. lia.
    + assert (Hc : (1 - (x - inject_Z f) ?= 1 # 2) = Lt)
        by (apply (proj1 (Qlt_alt _ _)); lra).
      rewrite Hc. lia.
Qed.

(** nearest *)

Lemma ilog2_opp (x : Q) : ilog2 (- x) = ilog2 x.
Proof. unfold ilog2. destruct x as [n d]. simpl. now rewrite Z.abs_opp. Qed.

Lemma quantum_opp (x : Q) : quantum (- x) = quantum x.
Proof. unfold quantum. now rewrite ilog2_opp. Qed.

Lemma quantum_pos (x : Q) : 0 < quantum x.
Proof. apply pow2_pos. Qed.

Lemma nearest_opp (x : Q) : nearest (- x) == - nearest x.
Proof.
  unfold nearest. rewrite quantum_opp.
  assert (E : - x / quantum x == - (x / quantum x)).
  { pose proof (quantum_pos x). field. lra. }
  rewrite (rhe_proper _ _ E), rhe_opp, inject_Z_opp. ring.
Qed.

Lemma nearest_nonneg (x : Q) : 0 <= x -> 0 <= nearest x.
Proof.
  intros H. unfold nearest. pose proof (quantum_pos x) as Hq.
  apply Qmult_le_0_compat; [| lra].
  change 0 with (inject_Z 0). rewrite <- Zle_Qle. apply rhe_lower.
  change (inject_Z 0) with 0. apply Qle_shift_div_l; [exact Hq | lra].
Qed.

Lemma nearest_mono_pos (x y : Q) : 0 < x -> x <= y -> nearest x <= nearest y.
Proof.
  intros Hx Hxy.
  assert (Hx0 : ~ x == 0) by lra. assert (Hy0 : ~ y == 0) by lra.
  assert (Hax : Qabs x == x) by (apply Qabs_pos; lra).
  assert (Hay : Qabs y == y) by (apply Qabs_pos; lra).
  assert (Hl : (ilog2 x <= ilog2 y)%Z) by (apply ilog2_mono; [exact Hx0 | lra]).
  unfold nearest, quantum.
  set (ex := Z.max (-1074) (ilog2 x - 52)). set (ey := Z.max (-1074) (ilog2 y - 52)).
  pose proof (pow2_pos ex) as Hqx. pose proof (pow2_pos ey) as Hqy.
  destruct (Z.eq_dec ex ey) as [E | Hne].
  - rewrite E. apply Qmult_le_compat_r; [| lra].
    rewrite <- Zle_Qle. apply rhe_mono.
    unfold Qdiv. apply Qmult_le_compat_r; [exact Hxy |].
    apply Qlt_le_weak. now apply Qinv_lt_0_compat.
  - assert (Hlt : (ex < ey)%Z) by (unfold ex, ey in *; lia).
    assert (Hey : ey = (ilog2 y - 52)%Z) by (unfold ex, ey in *; lia).
    assert (Hll : (ilog2 x + 1 <= ilog2 y)%Z) by (unfold ex, ey in *; lia).
    destruct (ilog2_spec x Hx0) as [_ Hx2]. destruct (ilog2_spec y Hy0) as [Hy1 _].
    rewrite Hax in Hx2. rewrite Hay in Hy1.
    set (B := pow2 (ilog2 y)) in *.
    assert (HxB : x <= B).
    { apply Qle_trans with (pow2 (ilog2 x + 1)); [lra | now apply pow2_le]. }
    apply Qle_trans with B.
    + assert (EB : B == inject_Z (2 ^ (ilog2 y - ex)) * pow2 ex).
      { rewrite <- pow2_Z by lia. rewrite <- pow2_add. unfold B.
        replace (ilog2 y - ex + ex)%Z with (ilog2 y) by lia. reflexivity. }
      rewrite EB. apply Qmult_le_compat_r; [| lra].
      rewrite <- Zle_Qle. apply rhe_upper.
      apply Qle_shift_div_r; [exact Hqx |]. now rewrite <- EB.
    + assert (EB : B == inject_Z (2 ^ 52) * pow2 ey).
      { rewrite <- pow2_Z by lia. rewrite <- pow2_add. unfold B.
        replace (52 + ey)%Z with (ilog2 y) by lia. reflexivity. }
      rewrite EB. apply Qmult_le_compat_r; [| lra].
      rewrite <- Zle_Qle. apply rhe_lower.
      apply Qle_shift_div_l; [exact Hqy |]. now rewrite <- EB.
Qed.

Lemma round_eq (x : Q) : round x == if Qeq_bool x 0 then 0 else nearest (Qred x).
Proof.
  unfold round.
  assert (E : Qeq_bool (Qred x) 0 = Qeq_bool x 0).
  { apply Qeqb_comp; [apply Qred_correct | reflexivity]. }
  rewrite E. destruct (Qeq_bool x 0); [reflexivity | apply Qred_correct].
Qed.

Lemma round_proper (x y : Q) : x == y -> round x = round y.
Proof. intros E. unfold round. now rewrite (Qred_complete _ _ E). Qed.

Lemma round_opp (x : Q) : round (- x) == - round x.
Proof.
  rewrite !round_eq.
  assert (E : Qeq_bool (- x) 0 = Qeq_bool x 0).
  { destruct (Qeq_bool x 0) eqn:H.
    - apply Qeq_bool_iff in H. apply Qeq_bool_iff. rewrite H. reflexivity.
    - apply not_true_is_false. intros H'. apply Qeq_bool_iff in H'.
      assert (Hx : x == 0) by lra. apply Qeq_bool_iff in Hx. congruence. }
  rewrite E. destruct (Qeq_bool x 0); [reflexivity |].
  rewrite Qred_opp. apply nearest_opp.
Qed.

Lemma round_nonneg (x : Q) : 0 <= x -> 0 <= round x.
Proof.
  intros H. rewrite round_eq. destruct (Qeq_bool x 0); [lra |].
  apply nearest_nonneg. now rewrite Qred_correct.
Qed.

Lemma round_mono_pos (x y : Q) : 0 < x -> x <= y -> round x <= round y.
Proof.
  intros Hx Hxy. rewrite !round_eq.
  destruct (Qeq_bool x 0) eqn:Ex; [apply Qeq_bool_iff in Ex; lra |].
  destruct (Qeq_bool y 0) eqn:Ey; [apply Qeq_bool_iff in Ey; lra |].
  apply nearest_mono_pos; rewrite ?Qred_correct; assumption.
Qed.

Lemma round_mono (x y : Q) : x <= y -> round x <= round y.
Proof.
  intros Hxy.
  destruct (Qlt_le_dec 0 x) as [Hx | Hx]; [now apply round_mono_pos |].
  assert (Hrx : round x <= 0).
  { assert (E : x == - - x) by ring. rewrite (round_proper _ _ E), (round_opp (- x)).
    assert (0 <= round (- x)) by (apply round_nonneg; lra). lra. }
  destruct (Qlt_le_dec y 0) as [Hy | Hy].
  - assert (Ex : x == - - x) by ring. assert (Ey : y == - - y) by ring.
    rewrite (round_proper _ _ Ex), (round_proper _ _ Ey).
    rewrite (round_opp (- x)), (round_opp (- y)).
    assert (round (- y) <= round (- x)) by (apply round_mono_pos; lra). lra.
  - assert (0 <= round y) by (now apply round_nonneg). lra.
Qed.

Lemma round_zero : round 0 = 0.
Proof. reflexivity. Qed.

End Binary64Props.

(** ** The trend rules and the severity boundaries, on doubles *)

Module DoublesProps.

Import Churn Examples Batches.

Local Open Scope Q_scope.

(** *** Rounding functions *)

Lemma monotone_proper (fl : Q -> Q) :
  (forall x y, x <= y -> fl x <= fl y) -> forall x y, x == y -> fl x == fl y.
Proof.
  intros Hm x y E. apply Qle_antisym; apply Hm; rewrite E; apply Qle_refl.
Qed.

(** In exact arithmetic the functions are those of [Churn]. *)
Lemma exact_detect_trend (self : engine) (fromisoformat : string -> option Z)
    (b c : Q) (last : option string) (ref : Z) :
  Doubles.detect_trend self fromisoformat (fun x => x) b c last ref
  = Churn.detect_trend self fromisoformat b c last ref.
Proof. reflexivity. Qed.

Lemma exact_drop_pct (b c : Q) :
  Doubles.drop_pct (fun x => x) b c = Churn.drop_pct b c.
Proof. reflexivity. Qed.

Section Rounding.

Variable self : engine.
Variable fromisoformat : string -> option Z.
Variable fl : Q -> Q.

Lemma computed_change_pct_proper (b b' c c' : Q) :
  (forall x y, x == y -> fl x == fl y) ->
  b == b' -> c == c' -> Doubles.change_pct fl b c == Doubles.change_pct fl b' c'.
Proof.
  intros Hp Hb Hc. unfold Doubles.change_pct.
  apply Hp. apply Qmult_comp; [| reflexivity].
  apply Hp. apply Qdiv_comp; [| exact Hb].
  apply Hp. now rewrite Hb, Hc.
Qed.

Lemma computed_trend_by_rate_proper (b b' c c' : Q) :
  (forall x y, x == y -> fl x == fl y) ->
  b == b' -> c == c' ->
  Doubles.trend_by_rate self fl b c = Doubles.trend_by_rate self fl b' c'.
Proof.
  intros Hfl Hb Hc. unfold Doubles.trend_by_rate.
  pose proof (computed_change_pct_proper b b' c c' Hfl Hb Hc) as Hp.
  rewrite (Qeqb_comp _ _ Hb 0 0 (Qeq_refl 0)), (Qeqb_comp _ _ Hc 0 0 (Qeq_refl 0)).
  cbv zeta.
  rewrite (Qleb_comp _ _ Hp _ _ (Qeq_refl (- critical_decline_pct (thresholds self)))).
  rewrite (Qleb_comp _ _ Hp _ _ (Qeq_refl (- decline_pct (thresholds self)))).
  rewrite (Qleb_comp _ _ (Qeq_refl 20) _ _ Hp).
  reflexivity.
Qed.

Lemma computed_detect_trend_inactive (b c : Q) (last : option string) (ref : Z) :
  Doubles.inactive self fromisoformat fl last ref ->
  Doubles.detect_trend self fromisoformat fl b c last ref = Stopped.
Proof.
  unfold Doubles.inactive, Doubles.detect_trend.
  destruct (Doubles.weeks_since fromisoformat fl last ref) as [w |]; [| tauto].
  intros Hw. now destruct (ChurnProps.Qle_bool_spec (stopped_weeks (thresholds self)) w).
Qed.

Lemma computed_detect_trend_active (b c : Q) (last : option string) (ref : Z) :
  ~ Doubles.inactive self fromisoformat fl last ref ->
  Doubles.detect_trend self fromisoformat fl b c last ref
  = Doubles.trend_by_rate self fl b c.
Proof.
  unfold Doubles.inactive, Doubles.detect_trend.
  destruct (Doubles.weeks_since fromisoformat fl last ref) as [w |]; [| reflexivity].
  intros Hw. now destruct (ChurnProps.Qle_bool_spec (stopped_weeks (thresholds self)) w).
Qed.

Lemma computed_drop_pct_positive (b c : Q) :
  0 < b -> Doubles.drop_pct fl b c = fl (fl (fl (b - c) / b) * 100).
Proof.
  intros Hb. unfold Doubles.drop_pct.
  destruct (ChurnProps.Qle_bool_spec b 0) as [Hle | _]; simpl; [exfalso; lra | reflexivity].
Qed.

Lemma computed_drop_pct_change_pct (b c : Q) :
  (forall x y, x == y -> fl x == fl y) ->
  (forall x, fl (- x) == - fl x) ->
  0 < b -> Doubles.drop_pct fl b c == - Doubles.change_pct fl b c.
Proof.
  intros Hp Ho Hb. rewrite (computed_drop_pct_positive b c Hb). unfold Doubles.change_pct.
  assert (E1 : fl (b - c) == - fl (c - b)).
  { rewrite <- Ho. apply Hp. ring. }
  assert (E2 : fl (fl (b - c) / b) == - fl (fl (c - b) / b)).
  { rewrite <- Ho. apply Hp. rewrite E1. field. lra. }
  rewrite <- Ho. apply Hp. rewrite E2. ring.
Qed.

Lemma drop_pct_monotone (b c1 c2 : Q) :
  (forall x y, x <= y -> fl x <= fl y) ->
  0 < b -> c1 <= c2 -> Doubles.drop_pct fl b c2 <= Doubles.drop_pct fl b c1.
Proof.
  intros Hm Hb Hc. rewrite !computed_drop_pct_positive by exact Hb.
  apply Hm. apply Qmult_le_compat_r; [| discriminate].
  apply Hm. unfold Qdiv. apply Qmult_le_compat_r.
  - apply Hm. lra.
  - apply Qlt_le_weak. now apply Qinv_lt_0_compat.
Qed.

End Rounding.

(** *** The rule sequence of [detect_trend] *)

(** C1.  For an engine built by [__init__] (thresholds 4, 40, 70) and
    whatever the rounding of the arithmetic, [detect_trend] follows the
    rule sequence on the values it computes.  If [weeks_since] is 4 or
    more the state is [stopped], whatever the rates.  Otherwise (no last
    order date, one that does not parse, or fewer than 4 weeks) a zero
    baseline gives [stable] when the current rate is zero and [growing]
    when it is not, and a non-zero baseline gives [stopped] when the
    computed change percentage is at most -70, [declining] when it is at
    most -40, [growing] when it is at least 20 and [stable] otherwise.
    When rounding is monotone and 4 is a double, a last order 28 days or
    more before the reference date gives [stopped].  The state depends on
    the rates through their numeric values only: equal rates and the same
    [weeks_since] give the same state. *)
Theorem detect_trend_rule_sequence (lookback baseline : Z)
    (fromisoformat : string -> option Z) (fl : Q -> Q)
    (b c : Q) (last : option string) (ref : Z) :
  let self := init lookback baseline in
  let state := Doubles.detect_trend self fromisoformat fl b c last ref in
  let weeks := Doubles.weeks_since fromisoformat fl last ref in
  let change := Doubles.change_pct fl b c in
  (forall w, weeks = Some w -> 4 <= w -> state = Stopped) /\
  ((weeks = None \/ exists w, weeks = Some w /\ w < 4) ->
     (b == 0 -> c == 0 -> state = Stable) /\
     (b == 0 -> ~ c == 0 -> state = Growing) /\
     (~ b == 0 -> change <= -70 -> state = Stopped) /\
     (~ b == 0 -> -70 < change -> change <= -40 -> state = Declining) /\
     (~ b == 0 -> 20 <= change -> state = Growing) /\
     (~ b == 0 -> -40 < change -> change < 20 -> state = Stable)) /\
  ((forall x y, x <= y -> fl x <= fl y) -> fl 4 == 4 ->
   forall s t, last = Some s -> s <> ""%string ->
     fromisoformat (replace_Z s) = Some t ->
     (28 <= days_between ref t)%Z -> state = Stopped) /\
  ((forall x y, x == y -> fl x == fl y) ->
   forall b' c' last' ref', b == b' -> c == c' ->
     Doubles.weeks_since fromisoformat fl last' ref' = weeks ->
     Doubles.detect_trend self fromisoformat fl b' c' last' ref' = state).
Proof.
  intros self state weeks change.
  assert (Hstop : forall w, weeks = Some w -> 4 <= w -> state = Stopped).
  { intros w Hw Hle. subst state. unfold Doubles.detect_trend.
    fold weeks. rewrite Hw. simpl.
    now destruct (ChurnProps.Qle_bool_spec 4 w). }
  split; [exact Hstop |]. split; [| split].
  - intros Hact.
    assert (Hrate : state = Doubles.trend_by_rate self fl b c).
    { subst state. unfold Doubles.detect_trend. fold weeks.
      destruct Hact as [-> | (w & -> & Hw)]; [reflexivity |].
      simpl. destruct (ChurnProps.Qle_bool_spec 4 w); [exfalso; lra | reflexivity]. }
    rewrite Hrate. unfold Doubles.trend_by_rate. fold change. simpl.
    repeat split; intros;
      repeat match goal with
      | |- context [Qle_bool ?x ?y] => destruct (ChurnProps.Qle_bool_spec x y)
      | |- context [Qeq_bool ?x ?y] => destruct (ChurnProps.Qeq_bool_spec x y)
      end; try reflexivity; exfalso; try tauto; lra.
  - intros Hm H4 s t -> Hs Ht Hd.
    apply (Hstop (fl (inject_Z (days_between ref t) / 7))).
    + subst weeks. unfold Doubles.weeks_since.
      destruct (String.eqb_spec s ""); [contradiction |]. now rewrite Ht.
    + rewrite <- H4. apply Hm.
      apply Qle_shift_div_l; [reflexivity |].
      change (4 * 7) with (inject_Z 28). now rewrite <- Zle_Qle.
  - intros Hp b' c' last' ref' Hb Hc Hw.
    subst state. unfold Doubles.detect_trend. fold weeks. rewrite Hw.
    rewrite (computed_trend_by_rate_proper self fl b b' c c' Hp Hb Hc). reflexivity.
Qed.

(** On the doubles 0.375 and 0.225 the computed change is exactly -40
    and the state is [declining]. *)
Lemma detect_trend_rule_sequence_witness :
  Doubles.detect_trend (init 12 8) PyLib.fromisoformat_date Binary64.round
    0.375 double_0_225 None 0 = Declining.
Proof.
  refine (proj1 (proj2 (proj2 (proj2 (proj1 (proj2
            (detect_trend_rule_sequence 12 8 PyLib.fromisoformat_date Binary64.round
               0.375 double_0_225 None 0)) _)))) _ _ _).
  - left. reflexivity.
  - discriminate.
  - apply Qlt_alt. vm_compute. reflexivity.
  - apply Qle_bool_iff. vm_compute. reflexivity.
Defined.

(** Where exact arithmetic and the doubles part: the double of 0.225 is
    a little above 0.225, and from 1.0 to the double of 1.2 the change
    computed is 19.999999999999996.  And ten weeks of silence at equal
    rates of 100: [stopped]. *)
Remark detect_trend_on_doubles :
  Doubles.detect_trend (init 12 8) PyLib.fromisoformat_date Binary64.round
    100 100 (Some "2024-01-17"%string) ts_2024_03_27 = Stopped /\
  Doubles.weeks_since PyLib.fromisoformat_date Binary64.round
    (Some "2024-01-17"%string) ts_2024_03_27 = Some 10 /\
  Doubles.detect_trend (init 12 8) PyLib.fromisoformat_date Binary64.round
    0.375 double_0_225 None 0 = Declining /\
  Doubles.detect_trend (init 12 8) PyLib.fromisoformat_date (fun x => x)
    0.375 double_0_225 None 0 = Stable /\
  Doubles.detect_trend (init 12 8) PyLib.fromisoformat_date Binary64.round
    1 double_1_2 None 0 = Stable /\
  Doubles.detect_trend (init 12 8) PyLib.fromisoformat_date (fun x => x)
    1 1.2 None 0 = Growing.
Proof. repeat split; vm_compute; reflexivity. Qed.

(** *** Drop percentage and severity *)

(** C2.  For a baseline above zero and whatever the rounding of the
    arithmetic, provided it is monotone and odd: the computed drop
    percentage never increases when the current rate increases, and in
    exact arithmetic it decreases strictly; the severity never
    downgrades when the drop percentage grows; when the computed change
    percentage is exactly -40 the trend is [declining] and the severity
    [warning] if the inactivity rule does not fire, and the trend is
    [stopped] and the severity [critical] if it fires; when the computed
    change percentage is exactly -70 the severity is [critical]. *)
Theorem drop_monotone_severity_boundaries (lookback baseline : Z)
    (fromisoformat : string -> option Z) (fl : Q -> Q) (b : Q) :
  let self := init lookback baseline in
  (forall x y, x <= y -> fl x <= fl y) ->
  (forall x, fl (- x) == - fl x) ->
  0 < b ->
  (forall c1 c2, c1 <= c2 -> Doubles.drop_pct fl b c2 <= Doubles.drop_pct fl b c1) /\
  (forall c1 c2, c1 < c2 ->
     Doubles.drop_pct (fun x => x) b c2 < Doubles.drop_pct (fun x => x) b c1) /\
  (forall t d1 d2, d1 <= d2 ->
     (severity_order (severity_of self t d2) <= severity_order (severity_of self t d1))%Z) /\
  (forall c last ref, Doubles.change_pct fl b c == -40 ->
     let t := Doubles.detect_trend self fromisoformat fl b c last ref in
     let sev := severity_of self t (Doubles.drop_pct fl b c) in
     (~ Doubles.inactive self fromisoformat fl last ref ->
        t = Declining /\ sev = Warning) /\
     (Doubles.inactive self fromisoformat fl last ref ->
        t = Stopped /\ sev = Critical)) /\
  (forall c last ref, Doubles.change_pct fl b c == -70 ->
     severity_of self (Doubles.detect_trend self fromisoformat fl b c last ref)
       (Doubles.drop_pct fl b c) = Critical).
Proof.
  intros self Hm Ho Hb.
  pose proof (monotone_proper fl Hm) as Hp.
  split; [| split; [| split; [| split]]].
  - intros c1 c2 Hc. now apply drop_pct_monotone.
  - intros c1 c2 Hc. rewrite !exact_drop_pct. now apply ChurnProps.drop_pct_decreasing.
  - intros t d1 d2 Hd. now apply ChurnProps.severity_of_monotone.
  - intros c last ref Hch t sev.
    pose proof (computed_drop_pct_change_pct fl b c Hp Ho Hb) as Hdrop.
    rewrite Hch in Hdrop.
    split.
    + intros Hact.
      assert (Ht : t = Declining).
      { subst t. rewrite (computed_detect_trend_active self fromisoformat fl b c last ref Hact).
        unfold Doubles.trend_by_rate. simpl.
        destruct (ChurnProps.Qeq_bool_spec b 0); [exfalso; lra |].
        destruct (ChurnProps.Qle_bool_spec (Doubles.change_pct fl b c) (- (70)));
          [exfalso; lra |].
        destruct (ChurnProps.Qle_bool_spec (Doubles.change_pct fl b c) (- (40)));
          [reflexivity | exfalso; lra]. }
      split; [exact Ht |]. subst sev. rewrite Ht. unfold severity_of. simpl.
      destruct (ChurnProps.Qle_bool_spec 70 (Doubles.drop_pct fl b c)); [exfalso; lra |].
      destruct (ChurnProps.Qle_bool_spec 40 (Doubles.drop_pct fl b c));
        [reflexivity | exfalso; lra].
    + intros Hin.
      assert (Ht : t = Stopped).
      { subst t. now apply computed_detect_trend_inactive. }
      split; [exact Ht |]. subst sev. now rewrite Ht.
  - intros c last ref Hch.
    pose proof (computed_drop_pct_change_pct fl b c Hp Ho Hb) as Hdrop.
    rewrite Hch in Hdrop. unfold severity_of. simpl.
    destruct (ChurnProps.Qle_bool_spec 70 (Doubles.drop_pct fl b c)) as [_ | Hn].
    + now rewrite orb_true_r.
    + exfalso. lra.
Qed.

(** From 125 to 75 a week, with the last order a week before the
    reference date: [declining] and [warning]. *)
Lemma drop_monotone_severity_boundaries_witness :
  Doubles.detect_trend (init 12 8) PyLib.fromisoformat_date Binary64.round
    125 75 (Some "2024-03-20"%string) ts_2024_03_27 = Declining /\
  severity_of (init 12 8)
    (Doubles.detect_trend (init 12 8) PyLib.fromisoformat_date Binary64.round
       125 75 (Some "2024-03-20"%string) ts_2024_03_27)
    (Doubles.drop_pct Binary64.round 125 75) = Warning.
Proof.
  refine (proj1 (proj1 (proj2 (proj2 (proj2
            (drop_monotone_severity_boundaries 12 8 PyLib.fromisoformat_date
               Binary64.round 125 Binary64Props.round_mono Binary64Props.round_opp _))))
            75 (Some "2024-03-20"%string) ts_2024_03_27 _) _).
  - reflexivity.
  - apply Qeq_bool_iff. vm_compute. reflexivity.
  - intros H. apply Qle_bool_iff in H. vm_compute in H. discriminate.
Defined.

(** A change of exactly -40 percent with the last order 28 days before
    the reference date is [stopped] and [critical], not [warning]; and on
    doubles the drop percentage is not strictly decreasing: from a
    baseline of 3, the current rates 1 and the next double give the same
    drop. *)
Lemma stale_decline_is_critical :
  alert_digest (run stale_batch "2024-03-27") = [(Stopped, Critical, false, 4%Z)] /\
  alert_rates (run stale_batch "2024-03-27") = [(125, 75, 40)] /\
  Doubles.change_pct Binary64.round 125 75 == -40 /\
  Doubles.inactive (init 12 8) PyLib.fromisoformat_date Binary64.round
    (Some "2024-02-28"%string) ts_2024_03_27 /\
  1 < double_after_1 /\
  Doubles.drop_pct Binary64.round 3 double_after_1 == Doubles.drop_pct Binary64.round 3 1.
Proof.
  split; [vm_compute; reflexivity |].
  split; [vm_compute; reflexivity |].
  split; [apply Qeq_bool_iff; vm_compute; reflexivity |].
  split; [apply Qle_bool_iff; vm_compute; reflexivity |].
  split; [apply Qlt_alt; vm_compute; reflexivity |].
  apply Qeq_bool_iff. vm_compute. reflexivity.
Qed.

End DoublesProps.
